(** * Campaign transformation and enrichment pipeline

  A shallow embedding of [app/services/campaign_service.py],
  [app/services/akeneo_service.py], [app/models/campaign.py],
  [app/models/akeneo.py] and the campaign settings of [app/core/config.py],
  followed by the properties of the pipeline.

  Conventions of the embedding.
  - Python [float] is IEEE 754 binary64: the kernel's primitive [float].
  - Python [int] is [Z]; [str] is [string] (read over the ASCII alphabet).
  - A call that may raise is a computation in [result]; code that talks to
    the PIM service or reads the clock also threads an abstract [World].
  - A [dict] is a [gmap]; [Any] payloads decoded from JSON are [PyAny]. *)

From Stdlib Require Import ZArith List String Ascii Bool Lia.
From Stdlib Require Import Floats.PrimFloat Floats.SpecFloat Floats.FloatOps.
From stdpp Require Import gmap strings list fin_maps pretty.

Local Open Scope string_scope.
Local Open Scope list_scope.

(** ** Python values, exceptions and the two effect layers *)

Module Py.

(** The exception classes the modelled code can meet.  All of them derive
    from [Exception]; pydantic's [ValidationError] derives from
    [ValueError]. *)
Inductive exn : Type :=
| ValueError
| TypeError
| OverflowError
| KeyError
| IndexError
| ZeroDivisionError
| ValidationError
| Exception (msg : string).

(** [isinstance(e, ValueError)]. *)
Definition is_ValueError (e : exn) : bool :=
  match e with
  | ValueError | ValidationError => true
  | _ => false
  end.

(** Outcome of a call: a returned value or a raised exception. *)
Inductive result (A : Type) : Type :=
| Return (a : A)
| Raise (e : exn).
Arguments Return {A} a.
Arguments Raise {A} e.

Definition bind {A B} (m : result A) (k : A -> result B) : result B :=
  match m with
  | Return a => k a
  | Raise e => Raise e
  end.

(** [try: m  except Exception: h]. *)
Definition try_except {A} (m : result A) (h : exn -> result A) : result A :=
  match m with
  | Return a => Return a
  | Raise e => h e
  end.

(** [try: m  except ValueError: h]; any other exception propagates. *)
Definition try_except_ValueError {A} (m : result A) (h : result A) : result A :=
  match m with
  | Return a => Return a
  | Raise e => if is_ValueError e then h else Raise e
  end.

(** A value of static type [Any], as [response.json()] can produce it. *)
#[local] Unset Elimination Schemes.
Inductive PyAny : Type :=
| PyNone
| PyBool (b : bool)
| PyInt (n : Z)
| PyFloat (f : float)
| PyStr (s : string)
| PyList (l : list PyAny)
| PyDict (d : list (string * PyAny)).
#[local] Set Elimination Schemes.

(** Truth value of a float: zero of either sign is false, NaN is true. *)
Definition float_truthy (f : float) : bool := negb (PrimFloat.eqb f 0%float).

Definition str_truthy (s : string) : bool :=
  match s with
  | EmptyString => false
  | String _ _ => true
  end.

(** [bool(v)]. *)
Definition truthy (v : PyAny) : bool :=
  match v with
  | PyNone => false
  | PyBool b => b
  | PyInt n => negb (n =? 0)%Z
  | PyFloat f => float_truthy f
  | PyStr s => str_truthy s
  | PyList l => match l with nil => false | _ :: _ => true end
  | PyDict d => match d with nil => false | _ :: _ => true end
  end.

(** [bool(v)] for [v : Optional[float]]. *)
Definition opt_float_truthy (v : option float) : bool :=
  match v with
  | None => false
  | Some f => float_truthy f
  end.

(** A value of type [Optional[str]] among the values of type [Any]. *)
Definition of_opt_str (v : option string) : PyAny :=
  match v with
  | None => PyNone
  | Some s => PyStr s
  end.

(** [float(n)] for an [int]: round to nearest, ties to even;
    [OverflowError] when the integer is beyond the range of a double. *)
Definition float_of_int (n : Z) : result float :=
  let f := SF2Prim (binary_normalize prec emax n 0 false) in
  if PrimFloat.is_infinity f then Raise OverflowError else Return f.

(** [len(l)] turned into the float a true division works on. *)
Definition float_of_len (n : nat) : float :=
  SF2Prim (binary_normalize prec emax (Z.of_nat n) 0 false).

(** [x / n] for a float [x] and an [int] [n]. *)
Definition truediv_len (x : float) (n : nat) : result float :=
  match n with
  | O => Raise ZeroDivisionError
  | S _ => Return (PrimFloat.div x (float_of_len n))
  end.

Section Builtins.
(** [float(s)] for a [str]: the interpreter's decimal reader, [None]
    standing for its [ValueError]. *)
Variable float_of_str : string -> option float.

(** [float(v)]. *)
Definition py_float (v : PyAny) : result float :=
  match v with
  | PyFloat f => Return f
  | PyInt n => float_of_int n
  | PyBool b => Return (if b then 1%float else 0%float)
  | PyStr s =>
      match float_of_str s with
      | Some f => Return f
      | None => Raise ValueError
      end
  | PyNone | PyList _ | PyDict _ => Raise TypeError
  end.
End Builtins.

(** [min(l)] and [max(l)]: the first item, replaced by each later item
    that compares strictly below (above) it. *)
Definition py_min (l : list float) : result float :=
  match l with
  | nil => Raise ValueError
  | x :: rest =>
      Return (fold_left (fun m y => if PrimFloat.ltb y m then y else m) rest x)
  end.

Definition py_max (l : list float) : result float :=
  match l with
  | nil => Raise ValueError
  | x :: rest =>
      Return (fold_left (fun m y => if PrimFloat.ltb m y then y else m) rest x)
  end.

(** [d[k]] and [l[i]]. *)
Definition dict_getitem {V} (d : gmap string V) (k : string) : result V :=
  match d !! k with
  | Some v => Return v
  | None => Raise KeyError
  end.

Definition list_getitem {V} (l : list V) (i : nat) : result V :=
  match l !! i with
  | Some v => Return v
  | None => Raise IndexError
  end.

(** [k in d]. *)
Definition dict_contains {V} (d : gmap string V) (k : string) : bool :=
  match d !! k with
  | Some _ => true
  | None => false
  end.

(** Computations that also act on the outside world (the PIM service, the
    clock): the world is threaded through, and survives a raise. *)
Definition M (World A : Type) : Type := World -> result A * World.

Definition ret {World A} (a : A) : M World A := fun w => (Return a, w).

Definition mbind {World A B} (m : M World A) (k : A -> M World B) : M World B :=
  fun w =>
    match m w with
    | (Return a, w') => k a w'
    | (Raise e, w') => (Raise e, w')
    end.

Definition lift {World A} (r : result A) : M World A := fun w => (r, w).

(** [try: m  except Exception as e: h e], with effects. *)
Definition mtry_except {World A} (m : M World A) (h : exn -> M World A) : M World A :=
  fun w =>
    match m w with
    | (Return a, w') => (Return a, w')
    | (Raise e, w') => h e w'
    end.

End Py.

Import Py.

Notation "'let*' x := m 'in' k" := (Py.bind m (fun x => k))
  (at level 10, x name, m at level 100, k at level 200).
Notation "'let!' x := m 'in' k" := (Py.mbind m (fun x => k))
  (at level 10, x name, m at level 100, k at level 200).

(** ** [datetime]: naive timestamps and [strptime] under ["%d/%m/%Y"] *)

Module Datetime.

Record datetime : Type := mk_datetime {
  year : Z;
  month : Z;
  day : Z;
  hour : Z;
  minute : Z;
  second : Z;
  microsecond : Z
}.

(** Naive datetimes compare as the tuples of their fields. *)
Definition key (d : datetime) : list Z :=
  [year d; month d; day d; hour d; minute d; second d; microsecond d].

Fixpoint lex_compare (a b : list Z) : comparison :=
  match a, b with
  | [], [] => Eq
  | [], _ :: _ => Lt
  | _ :: _, [] => Gt
  | x :: a', y :: b' =>
      match (x ?= y)%Z with
      | Eq => lex_compare a' b'
      | c => c
      end
  end.

Definition compare (a b : datetime) : comparison := lex_compare (key a) (key b).

(** [a <= b]. *)
Definition leb (a b : datetime) : bool :=
  match compare a b with
  | Gt => false
  | _ => true
  end.

Definition is_leap (y : Z) : bool :=
  ((y mod 4 =? 0) && (negb (y mod 100 =? 0) || (y mod 400 =? 0)))%Z.

Definition days_in_month (y m : Z) : Z :=
  if (m =? 2)%Z then (if is_leap y then 29 else 28)%Z
  else if ((m =? 4) || (m =? 6) || (m =? 9) || (m =? 11))%Z then 30%Z
  else 31%Z.

(** The checks of the [date] constructor; a failure is a [ValueError]. *)
Definition valid_date (y m d : Z) : bool :=
  ((1 <=? y) && (y <=? 9999) && (1 <=? m) && (m <=? 12)
   && (1 <=? d) && (d <=? days_in_month y m))%Z.

Definition digit (c : ascii) : Z := (Z.of_nat (nat_of_ascii c) - 48)%Z.

(** The character class [[lo-hi]] of decimal digits. *)
Definition cls (lo hi : Z) (c : ascii) : bool :=
  ((lo <=? digit c) && (digit c <=? hi))%Z.

(** Pieces of the regular expression [strptime] builds for the format.
    Each returns its ways to match at the head of the text, in the order the
    regex engine tries them, with the value read and the text left over. *)
Definition two (p1 p2 : ascii -> bool) (s : string) : list (Z * string) :=
  match s with
  | String a (String b rest) =>
      if p1 a && p2 b then [((10 * digit a + digit b)%Z, rest)] else []
  | _ => []
  end.

Definition one (p : ascii -> bool) (s : string) : list (Z * string) :=
  match s with
  | String a rest => if p a then [(digit a, rest)] else []
  | _ => []
  end.

Definition lit (c : ascii) (s : string) : list string :=
  match s with
  | String a rest => if Ascii.eqb a c then [rest] else []
  | _ => []
  end.

(** [%d]: [3[0-1]|[1-2]\d|0[1-9]|[1-9]| [1-9]]. *)
Definition re_d (s : string) : list (Z * string) :=
  two (cls 3 3) (cls 0 1) s ++ two (cls 1 2) (cls 0 9) s
  ++ two (cls 0 0) (cls 1 9) s ++ one (cls 1 9) s
  ++ (r ← lit " " s; one (cls 1 9) r).

(** [%m]: [1[0-2]|0[1-9]|[1-9]]. *)
Definition re_m (s : string) : list (Z * string) :=
  two (cls 1 1) (cls 0 2) s ++ two (cls 0 0) (cls 1 9) s ++ one (cls 1 9) s.

(** [%Y]: [\d\d\d\d]. *)
Definition re_Y (s : string) : list (Z * string) :=
  match s with
  | String a (String b (String c (String d rest))) =>
      if cls 0 9 a && cls 0 9 b && cls 0 9 c && cls 0 9 d
      then [((1000 * digit a + 100 * digit b + 10 * digit c + digit d)%Z, rest)]
      else []
  | _ => []
  end.

(** All matches of [%d/%m/%Y] at the head of the text, first match first. *)
Definition re_match (s : string) : list (Z * Z * Z * string) :=
  dr ← re_d s;
  r1 ← lit "/" dr.2;
  mr ← re_m r1;
  r2 ← lit "/" mr.2;
  yr ← re_Y r2;
  [(dr.1, mr.1, yr.1, yr.2)].

(** [datetime.strptime(s, "%d/%m/%Y")]: the first match of the format's
    regex must cover the whole text and name a date of the calendar. *)
Definition strptime (s : string) : result datetime :=
  match re_match s with
  | [] => Raise ValueError
  | (d, m, y, rest) :: _ =>
      if str_truthy rest then Raise ValueError
      else if valid_date y m d then Return (mk_datetime y m d 0 0 0 0)
      else Raise ValueError
  end.

End Datetime.

(** ** Data model: [app/models/campaign.py] and [app/models/akeneo.py] *)

(** Raw campaign data from the MySQL database. *)
Module RawCampaignData.
Record t : Type := mk {
  issue_type : string;
  live_date : string;
  segment : string;
  slot : option Z;
  end_date : string;
  request_type : string;
  monetary_type : option string;
  cpc : option float;
  product_id : string;
  akeneo_product_name : option string;
  akeneo_brand_name : option string;
  selling_price : float;
  projected_inventory : option Z;
  brand : option string;
  preferred_landing_sku_id : option string;
  property : option string;
  funnel : option string;
  mv : option string;
  top_bet_date : option string;
  campaign_name : option string;
  top_bet : option string;
  article_type : option string;
  akeneo_family : option string;
  MRP : option float;
  segment_in : option string;
  remarks : option string;
  price_remarks : option string;
  user_email : option string;
  impressions : option Z;
  tacos : option float;
  index : option Z;
  available_inventory : option Z
}.
End RawCampaignData.

(** Formatted data for the Falcon API. *)
Module FalconFormattedData.
Record t : Type := mk {
  sku_id : string;
  product_id : string;
  MRP : float;
  MOP : float;
  selling_price : float;
  mop_cost : float;
  selling_price_cost : float;
  coins : Z
}.

(** The validating constructor, on the arguments [transform_to_falcon_format]
    hands it: [sku_id] is whatever the SKU resolution left (a [str] field
    takes a [str] and nothing else out of JSON), [MRP] is the possibly absent
    float of the MRP resolution (a required [float] field), the remaining
    prices are floats of the raw record and [coins] is an [int]. *)
Definition new (sku_id : PyAny) (product_id : string) (MRP : option float)
    (MOP selling_price mop_cost selling_price_cost : float) (coins : Z) : result t :=
  match sku_id, MRP with
  | PyStr s, Some m =>
      Return (mk s product_id m MOP selling_price mop_cost selling_price_cost coins)
  | _, _ => Raise ValidationError
  end.
End FalconFormattedData.

(** Filter criteria for campaigns. *)
Module CampaignFilter.
Record t : Type := mk {
  campaign_types : option (list string);
  start_date : option Datetime.datetime;
  end_date : option Datetime.datetime;
  segment : option string;
  brand : option string;
  active_only : bool
}.
End CampaignFilter.

(** Processed campaign data with both raw and formatted versions. *)
Module ProcessedCampaignData.
Record t : Type := mk {
  raw_data : RawCampaignData.t;
  falcon_data : FalconFormattedData.t;
  processed_at : Datetime.datetime
}.
End ProcessedCampaignData.

(** Response model for campaign data. *)
Module CampaignResponse.
Record t : Type := mk {
  total_count : Z;
  processed_count : Z;
  failed_count : Z;
  campaigns : list ProcessedCampaignData.t;
  filters_applied : option CampaignFilter.t
}.
End CampaignResponse.

Module LinkedData.
Record t : Type := mk {
  attribute : option string;
  code : option string;
  labels : option (gmap string string)
}.
End LinkedData.

(** Akeneo product value. *)
Module Value.
Record t : Type := mk {
  locale : option string;
  scope : option string;
  data : PyAny;
  linked_data : option LinkedData.t;
  reference_data_name : option string;
  attribute_type : option string;
  assets : option (list (list (string * PyAny)))
}.
End Value.

(** Akeneo product details. *)
Module ProductDetails.
Record t : Type := mk {
  id : string;
  family : string;
  parent : option string;
  values : gmap string (list Value.t)
}.
End ProductDetails.

(** ** Campaign settings: [app/core/config.py] *)

Module Config.
Record Settings : Type := mk {
  DEFAULT_MOP_MULTIPLIER : float;
  DEFAULT_COINS : Z
}.

(** The declared defaults: multiplier [0.979] (its nearest double) and
    [2000] coins. *)
Definition settings : Settings :=
  {| DEFAULT_MOP_MULTIPLIER := 0x1.f53f7ced91687p-1%float;
     DEFAULT_COINS := 2000 |}.
End Config.

(** ** The PIM client: [app/services/akeneo_service.py] *)

(** What [CampaignService] asks of its [akeneo_service] attribute. *)
Module AkeneoClient.
Record t (World : Type) : Type := mk {
  get_product_sku_mapping : string -> M World PyAny;
  get_product_mrp : string -> M World (option float)
}.
Arguments mk {World} _ _.
Arguments get_product_sku_mapping {World} _ _.
Arguments get_product_mrp {World} _ _.
End AkeneoClient.

Module AkeneoService.
Section Service.
Context {World : Type}.

(** [float] applied to a [str] (see [Py.py_float]). *)
Variable float_of_str : string -> option float.

(** [self.get_product(product_id)]: the authenticated HTTP exchange with the
    PIM.  Its outcome, a [ProductDetails] or a raised exception, and its
    effect on the world (the cached token included) are what the service
    answers; the two lookups below are defined over any such answer. *)
Variable get_product : string -> M World ProductDetails.t.

(** [attr in values and values[attr]]: the attribute is there and its list
    of values is not empty. *)
Definition has_values (values : gmap string (list Value.t)) (attr : string) : result bool :=
  if dict_contains values attr then
    let* l := dict_getitem values attr in
    Return (match l with [] => false | _ :: _ => true end)
  else Return false.

Definition get_product_sku_mapping (product_id : string) : M World PyAny :=
  mtry_except
    (let! product := get_product product_id in
     lift
       (let* found := has_values (ProductDetails.values product) "sku" in
        if found then
          let* l := dict_getitem (ProductDetails.values product) "sku" in
          let* v := list_getitem l 0 in
          Return (Value.data v)
        else Return (PyStr product_id)))
    (fun _ => ret PyNone).

Definition mrp_attributes : list string :=
  ["mrp"; "MRP"; "maximum_retail_price"; "list_price"].

(** The [for attr in mrp_attributes] loop, from the attributes still to try. *)
Fixpoint mrp_loop (values : gmap string (list Value.t)) (attrs : list string)
    : result (option float) :=
  match attrs with
  | [] => Return None
  | attr :: rest =>
      let* found := has_values values attr in
      if found then
        let* l := dict_getitem values attr in
        let* v := list_getitem l 0 in
        match Value.data v with
        | PyNone => mrp_loop values rest
        | value => let* f := py_float float_of_str value in Return (Some f)
        end
      else mrp_loop values rest
  end.

Definition get_product_mrp (product_id : string) : M World (option float) :=
  mtry_except
    (let! product := get_product product_id in
     lift (mrp_loop (ProductDetails.values product) mrp_attributes))
    (fun _ => ret None).

(** The service as [CampaignService] holds it. *)
Definition client : AkeneoClient.t World :=
  AkeneoClient.mk get_product_sku_mapping get_product_mrp.

End Service.
End AkeneoService.

(** ** The campaign service: [app/services/campaign_service.py] *)

Module CampaignService.

(** A value of the summary dictionary.  [campaign_types] is the list made of
    a set, whose order the interpreter chooses: the model keeps the set. *)
Inductive SummaryValue : Type :=
| SInt (n : Z)
| SFloat (f : float)
| STypes (s : gset string)
| SCounts (m : gmap string Z).

Section Service.
Context {World : Type}.

(** [settings], as loaded at start-up. *)
Variable settings : Config.Settings.

(** [self.akeneo_service]. *)
Variable akeneo_service : AkeneoClient.t World.

(** [datetime.now()]: a reading of the clock; it does not raise. *)
Variable datetime_now : World -> Datetime.datetime * World.

(** [sum] over a list of floats, as the interpreter adds them up. *)
Variable py_sum : list float -> float.

Definition now : M World Datetime.datetime :=
  fun w => (Return (datetime_now w).1, (datetime_now w).2).

Definition transform_to_falcon_format (raw_data : RawCampaignData.t)
    : M World (option FalconFormattedData.t) :=
  mtry_except
    (let sku_id := of_opt_str (RawCampaignData.preferred_landing_sku_id raw_data) in
     let! sku_id :=
       (if negb (truthy sku_id)
        then AkeneoClient.get_product_sku_mapping akeneo_service
               (RawCampaignData.product_id raw_data)
        else ret sku_id) in
     let sku_id :=
       if negb (truthy sku_id) then PyStr (RawCampaignData.product_id raw_data)
       else sku_id in
     let mrp := RawCampaignData.MRP raw_data in
     let! mrp :=
       (if negb (opt_float_truthy mrp)
        then AkeneoClient.get_product_mrp akeneo_service
               (RawCampaignData.product_id raw_data)
        else ret mrp) in
     let mrp :=
       if negb (opt_float_truthy mrp)
       then Some (RawCampaignData.selling_price raw_data * 1.5)%float
       else mrp in
     let mop_cost :=
       (RawCampaignData.selling_price raw_data
        * Config.DEFAULT_MOP_MULTIPLIER settings)%float in
     let mop := RawCampaignData.selling_price raw_data in
     let! falcon :=
       lift (FalconFormattedData.new sku_id
               (RawCampaignData.product_id raw_data) mrp mop
               (RawCampaignData.selling_price raw_data) mop_cost
               (RawCampaignData.selling_price raw_data)
               (Config.DEFAULT_COINS settings)) in
     ret (Some falcon))
    (fun _ => ret None).

(** [ProcessedCampaignData(raw_data=..., falcon_data=...)]: [processed_at]
    is filled from the clock. *)
Definition new_processed (raw_data : RawCampaignData.t)
    (falcon_data : FalconFormattedData.t) : M World ProcessedCampaignData.t :=
  let! t := now in
  ret (ProcessedCampaignData.mk raw_data falcon_data t).

(** The [for raw_campaign in raw_campaigns] loop, carrying
    [processed_campaigns] and [failed_count]. *)
Fixpoint process_loop (raw_campaigns : list RawCampaignData.t)
    (processed_campaigns : list ProcessedCampaignData.t) (failed_count : Z)
    : M World (list ProcessedCampaignData.t * Z) :=
  match raw_campaigns with
  | [] => ret (processed_campaigns, failed_count)
  | raw_campaign :: rest =>
      let! st :=
        mtry_except
          (let! falcon_data := transform_to_falcon_format raw_campaign in
           match falcon_data with
           | Some fd =>
               let! p := new_processed raw_campaign fd in
               ret (processed_campaigns ++ [p], failed_count)
           | None => ret (processed_campaigns, (failed_count + 1)%Z)
           end)
          (fun _ => ret (processed_campaigns, (failed_count + 1)%Z)) in
      process_loop rest st.1 st.2
  end.

Definition process_campaign_data (raw_campaigns : list RawCampaignData.t)
    : M World CampaignResponse.t :=
  let! st := process_loop raw_campaigns [] 0%Z in
  ret (CampaignResponse.mk
         (Z.of_nat (length raw_campaigns))
         (Z.of_nat (length st.1))
         st.2
         st.1
         None).

Definition validate_campaign_data (raw_data : RawCampaignData.t)
    : result (list string) :=
  let errors := [] in
  let errors :=
    if negb (str_truthy (RawCampaignData.product_id raw_data))
    then errors ++ ["Product ID is required"] else errors in
  let errors :=
    if negb (float_truthy (RawCampaignData.selling_price raw_data))
       || PrimFloat.leb (RawCampaignData.selling_price raw_data) 0%float
    then errors ++ ["Valid selling price is required"] else errors in
  let errors :=
    if negb (str_truthy (RawCampaignData.live_date raw_data))
    then errors ++ ["Live date is required"] else errors in
  let errors :=
    if negb (str_truthy (RawCampaignData.end_date raw_data))
    then errors ++ ["End date is required"] else errors in
  try_except_ValueError
    (let* live_date := Datetime.strptime (RawCampaignData.live_date raw_data) in
     let* end_date := Datetime.strptime (RawCampaignData.end_date raw_data) in
     Return (if Datetime.leb end_date live_date
             then errors ++ ["End date must be after live date"]
             else errors))
    (Return (errors ++ ["Invalid date format. Expected DD/MM/YYYY"])).

(** The [for campaign in campaigns] loop of the activity filter, carrying
    [active_campaigns]. *)
Fixpoint filter_loop (current_date : Datetime.datetime)
    (campaigns active_campaigns : list RawCampaignData.t)
    : result (list RawCampaignData.t) :=
  match campaigns with
  | [] => Return active_campaigns
  | campaign :: rest =>
      let* active_campaigns :=
        try_except_ValueError
          (let* live_date := Datetime.strptime (RawCampaignData.live_date campaign) in
           let* end_date := Datetime.strptime (RawCampaignData.end_date campaign) in
           Return (if Datetime.leb live_date current_date
                      && Datetime.leb current_date end_date
                   then active_campaigns ++ [campaign]
                   else active_campaigns))
          (Return active_campaigns) in
      filter_loop current_date rest active_campaigns
  end.

Definition filter_active_campaigns (campaigns : list RawCampaignData.t)
    : M World (list RawCampaignData.t) :=
  let! current_date := now in
  lift (filter_loop current_date campaigns []).

(** [l.count(x)]. *)
Definition count (x : string) (l : list string) : Z :=
  Z.of_nat (length (filter (fun y => y = x) l)).

Definition get_campaign_summary (campaigns : list ProcessedCampaignData.t)
    : result (gmap string SummaryValue) :=
  match campaigns with
  | [] => Return {[ "total_campaigns" := SInt 0 ]}
  | _ :: _ =>
      let selling_prices :=
        map (fun c => FalconFormattedData.selling_price
                        (ProcessedCampaignData.falcon_data c)) campaigns in
      let mrps :=
        map (fun c => FalconFormattedData.MRP
                        (ProcessedCampaignData.falcon_data c)) campaigns in
      let campaign_types :=
        map (fun c => RawCampaignData.issue_type
                        (ProcessedCampaignData.raw_data c)) campaigns in
      let types : gset string := list_to_set campaign_types in
      let* avg_selling_price :=
        truediv_len (py_sum selling_prices) (length selling_prices) in
      let* min_selling_price := py_min selling_prices in
      let* max_selling_price := py_max selling_prices in
      let* avg_mrp := truediv_len (py_sum mrps) (length mrps) in
      Return
        (list_to_map
           [("total_campaigns", SInt (Z.of_nat (length campaigns)));
            ("campaign_types", STypes types);
            ("avg_selling_price", SFloat avg_selling_price);
            ("min_selling_price", SFloat min_selling_price);
            ("max_selling_price", SFloat max_selling_price);
            ("avg_mrp", SFloat avg_mrp);
            ("total_potential_revenue", SFloat (py_sum selling_prices));
            ("campaign_type_counts",
             SCounts (set_to_map (fun t => (t, count t campaign_types)) types))])
  end.

End Service.
End CampaignService.

(** ** The specification's wording of the rules compared with the code *)

Module Spec.

(** The activity rule: both dates parse under DD/MM/YYYY and
    parsed live date <= now <= parsed end date. *)
Definition active_at (now : Datetime.datetime) (c : RawCampaignData.t) : Prop :=
  exists live_date end_date,
    Datetime.strptime (RawCampaignData.live_date c) = Return live_date
    /\ Datetime.strptime (RawCampaignData.end_date c) = Return end_date
    /\ Datetime.leb live_date now = true
    /\ Datetime.leb now end_date = true.

(** The same rule as a test. *)
Definition is_active (now : Datetime.datetime) (c : RawCampaignData.t) : bool :=
  match Datetime.strptime (RawCampaignData.live_date c),
        Datetime.strptime (RawCampaignData.end_date c) with
  | Return live_date, Return end_date =>
      Datetime.leb live_date now && Datetime.leb now end_date
  | _, _ => false
  end.

(** The moments of the calendar day 15/06/2025. *)
Definition on_15_06_2025 (now : Datetime.datetime) : Prop :=
  Datetime.year now = 2025%Z /\ Datetime.month now = 6%Z /\ Datetime.day now = 15%Z.

(** The data the MRP lookup settles on: going through the candidate codes
    in order, the data of the first value under the first code that is
    present with a non-empty list of values and whose first value carries
    data other than null. *)
Fixpoint first_data (values : gmap string (list Value.t)) (attrs : list string)
    : option PyAny :=
  match attrs with
  | [] => None
  | attr :: rest =>
      match values !! attr with
      | Some (v :: _) =>
          match Value.data v with
          | PyNone => first_data values rest
          | d => Some d
          end
      | _ => first_data values rest
      end
  end.

(** A JSON number as a float. *)
Definition as_number (d : PyAny) : option float :=
  match d with
  | PyFloat f => Some f
  | PyInt n =>
      match float_of_int n with
      | Return f => Some f
      | Raise _ => None
      end
  | _ => None
  end.

(** The specification's wording of the MRP lookup on a fetched product: the
    first candidate code whose value is present, non-null and numeric,
    converted to a float; null when no candidate has one. *)
Fixpoint first_numeric (values : gmap string (list Value.t)) (attrs : list string)
    : option float :=
  match attrs with
  | [] => None
  | attr :: rest =>
      match values !! attr with
      | Some (v :: _) =>
          match as_number (Value.data v) with
          | Some f => Some f
          | None => first_numeric values rest
          end
      | _ => first_numeric values rest
      end
  end.

(** The sum of the counts of a per-type count mapping. *)
Definition total (counts : gmap string Z) : Z :=
  map_fold (fun _ n acc => (n + acc)%Z) 0%Z counts.

End Spec.

(** ** Sample data for the worked cases *)

Module Samples.

(** Product P1 offered at 100.0, with neither MRP nor preferred SKU. *)
Definition raw_p1 : RawCampaignData.t :=
  {| RawCampaignData.issue_type := "DOD";
     RawCampaignData.live_date := "01/06/2025";
     RawCampaignData.segment := "ALL";
     RawCampaignData.slot := None;
     RawCampaignData.end_date := "30/06/2025";
     RawCampaignData.request_type := "SP Change";
     RawCampaignData.monetary_type := None;
     RawCampaignData.cpc := None;
     RawCampaignData.product_id := "P1";
     RawCampaignData.akeneo_product_name := None;
     RawCampaignData.akeneo_brand_name := None;
     RawCampaignData.selling_price := 100%float;
     RawCampaignData.projected_inventory := None;
     RawCampaignData.brand := None;
     RawCampaignData.preferred_landing_sku_id := None;
     RawCampaignData.property := None;
     RawCampaignData.funnel := None;
     RawCampaignData.mv := None;
     RawCampaignData.top_bet_date := None;
     RawCampaignData.campaign_name := None;
     RawCampaignData.top_bet := None;
     RawCampaignData.article_type := None;
     RawCampaignData.akeneo_family := None;
     RawCampaignData.MRP := None;
     RawCampaignData.segment_in := None;
     RawCampaignData.remarks := None;
     RawCampaignData.price_remarks := None;
     RawCampaignData.user_email := None;
     RawCampaignData.impressions := None;
     RawCampaignData.tacos := None;
     RawCampaignData.index := None;
     RawCampaignData.available_inventory := None |}.

(** [raw_p1] with other dates, product, price, MRP and campaign type. *)
Definition raw_with (issue_type live_date end_date product_id : string)
    (selling_price : float) (MRP : option float) : RawCampaignData.t :=
  {| RawCampaignData.issue_type := issue_type;
     RawCampaignData.live_date := live_date;
     RawCampaignData.segment := "ALL";
     RawCampaignData.slot := None;
     RawCampaignData.end_date := end_date;
     RawCampaignData.request_type := "SP Change";
     RawCampaignData.monetary_type := None;
     RawCampaignData.cpc := None;
     RawCampaignData.product_id := product_id;
     RawCampaignData.akeneo_product_name := None;
     RawCampaignData.akeneo_brand_name := None;
     RawCampaignData.selling_price := selling_price;
     RawCampaignData.projected_inventory := None;
     RawCampaignData.brand := None;
     RawCampaignData.preferred_landing_sku_id := None;
     RawCampaignData.property := None;
     RawCampaignData.funnel := None;
     RawCampaignData.mv := None;
     RawCampaignData.top_bet_date := None;
     RawCampaignData.campaign_name := None;
     RawCampaignData.top_bet := None;
     RawCampaignData.article_type := None;
     RawCampaignData.akeneo_family := None;
     RawCampaignData.MRP := MRP;
     RawCampaignData.segment_in := None;
     RawCampaignData.remarks := None;
     RawCampaignData.price_remarks := None;
     RawCampaignData.user_email := None;
     RawCampaignData.impressions := None;
     RawCampaignData.tacos := None;
     RawCampaignData.index := None;
     RawCampaignData.available_inventory := None |}.

(** A clock stopped at half past ten on 15/06/2025. *)
Definition clock : unit -> Datetime.datetime * unit :=
  fun w => (Datetime.mk_datetime 2025 6 15 10 30 0 0, w).

Definition value_of (data : PyAny) : Value.t :=
  Value.mk None None data None None None None.

Definition product_of (values : gmap string (list Value.t)) : ProductDetails.t :=
  ProductDetails.mk "P1" "shoes" None values.

(** A product whose [sku] attribute carries a value with no data. *)
Definition product_null_sku : ProductDetails.t :=
  product_of {[ "sku" := [value_of PyNone] ]}.

(** A product whose [mrp] attribute is a price collection and whose [MRP]
    attribute is the number 150.0. *)
Definition product_price_collection : ProductDetails.t :=
  product_of
    (<[ "mrp" := [value_of (PyList [PyDict [("amount", PyStr "999.00");
                                             ("currency", PyStr "INR")]])] ]>
       {[ "MRP" := [value_of (PyFloat 150%float)] ]}).

(** A PIM fetch that answers every identifier with the given product. *)
Definition fetch (p : ProductDetails.t) : string -> M unit ProductDetails.t :=
  fun _ => ret p.

(** A PIM fetch that fails, as on a non-200 status. *)
Definition fetch_fails : string -> M unit ProductDetails.t :=
  fun _ w => (Raise (Exception "Failed to get product: 404"), w).

(** A reader of strings that accepts none; the samples hold no string where
    a number is looked for. *)
Definition no_numeric_str : string -> option float := fun _ => None.

(** The service while the PIM is down: both lookups find nothing. *)
Definition pim_down : AkeneoClient.t unit :=
  AkeneoService.client no_numeric_str fetch_fails.

(** A product with an [mrp] of 200.0 and no [sku] attribute. *)
Definition product_mrp_200 : ProductDetails.t :=
  product_of {[ "mrp" := [value_of (PyFloat 200%float)] ]}.

(** The service over a PIM that answers with [product_mrp_200]. *)
Definition pim_mrp_200 : AkeneoClient.t unit :=
  AkeneoService.client no_numeric_str (fetch product_mrp_200).

(** Left-to-right summation from zero. *)
Definition sum_left (l : list float) : float :=
  fold_left PrimFloat.add l 0%float.

Definition falcon_of (r : RawCampaignData.t) : FalconFormattedData.t :=
  FalconFormattedData.mk (RawCampaignData.product_id r) (RawCampaignData.product_id r)
    (RawCampaignData.selling_price r * 1.5)%float
    (RawCampaignData.selling_price r) (RawCampaignData.selling_price r)
    (RawCampaignData.selling_price r * 0x1.f53f7ced91687p-1)%float
    (RawCampaignData.selling_price r) 2000.

Definition processed_of (r : RawCampaignData.t) : ProcessedCampaignData.t :=
  ProcessedCampaignData.mk r (falcon_of r) (Datetime.mk_datetime 2025 6 15 10 30 0 0).

End Samples.

(** ** The campaign routes: [app/api/routes/campaigns.py] *)

Module CampaignRoutes.

(** What a route handler ends with: the body of its response, or the
    [HTTPException] it raises. *)
Inductive http (A : Type) : Type :=
| Ok (body : A)
| HTTPException (status_code : Z) (detail : string).
Arguments Ok {A} body.
Arguments HTTPException {A} status_code detail.

(** An item of ["validation_errors"]. *)
Record ValidationEntry : Type := mk_entry {
  entry_product_id : string;
  entry_errors : list string
}.

(** The body of [validate_campaigns]; [filters_applied] holds the fields of
    the filter. *)
Record ValidationReport : Type := mk_report {
  total_campaigns : Z;
  valid_campaigns : Z;
  invalid_campaigns : Z;
  validation_errors : list ValidationEntry;
  report_filters_applied : CampaignFilter.t
}.

(** The ["processing_stats"] object. *)
Record ProcessingStats : Type := mk_stats {
  total_fetched : Z;
  successfully_processed : Z;
  failed : Z
}.

(** The body of the summary route; ["processing_stats"] is present only
    when campaigns were fetched. *)
Record SummaryBody : Type := mk_summary_body {
  summary : gmap string CampaignService.SummaryValue;
  summary_processing_stats : option ProcessingStats;
  summary_filters_applied : CampaignFilter.t
}.

(** The body of the product route. *)
Record ProductBody : Type := mk_product_body {
  product_id : string;
  campaign : ProcessedCampaignData.t;
  product_processing_stats : ProcessingStats
}.

Section Routes.
Context {World : Type}.

(** The module-level [campaign_service], with its settings, PIM client,
    clock and float summation. *)
Variable settings : Config.Settings.
Variable akeneo_service : AkeneoClient.t World.
Variable datetime_now : World -> Datetime.datetime * World.
Variable py_sum : list float -> float.

(** [db_service.get_campaigns(db, filters)] and
    [db_service.get_campaign_by_product_id(db, product_id)]: what the
    database answers, or the exception of the failed query. *)
Variable db_get_campaigns : CampaignFilter.t -> M World (list RawCampaignData.t).
Variable db_get_campaign_by_product_id : string -> M World (option RawCampaignData.t).

(** [str(e)] for a caught exception. *)
Variable str_exn : exn -> string.

(** [try: body  except Exception as e: raise HTTPException(500, prefix + str(e))]. *)
Definition or_500 {A} (prefix : string) (body : M World A) : World -> http A * World :=
  fun w =>
    match body w with
    | (Return a, w') => (Ok a, w')
    | (Raise e, w') => (HTTPException 500 (prefix ++ str_exn e), w')
    end.

(** The same with [except HTTPException: raise] in front: an
    [HTTPException] raised by the body passes through. *)
Definition or_500_passing {A} (prefix : string) (body : M World (http A))
    : World -> http A * World :=
  fun w =>
    match body w with
    | (Return r, w') => (r, w')
    | (Raise e, w') => (HTTPException 500 (prefix ++ str_exn e), w')
    end.

Definition stats_of (response : CampaignResponse.t) : ProcessingStats :=
  mk_stats (CampaignResponse.total_count response)
    (CampaignResponse.processed_count response)
    (CampaignResponse.failed_count response).

(** [response.filters_applied = filters]. *)
Definition set_filters_applied (response : CampaignResponse.t) (filters : CampaignFilter.t)
    : CampaignResponse.t :=
  CampaignResponse.mk (CampaignResponse.total_count response)
    (CampaignResponse.processed_count response)
    (CampaignResponse.failed_count response)
    (CampaignResponse.campaigns response)
    (Some filters).

Definition get_campaigns (campaign_types : option (list string))
    (segment brand : option string) (active_only : bool)
    : World -> http CampaignResponse.t * World :=
  or_500 "Error fetching campaigns: "
    (let filters := CampaignFilter.mk campaign_types None None segment brand active_only in
     let! raw_campaigns := db_get_campaigns filters in
     match raw_campaigns with
     | [] => ret (CampaignResponse.mk 0 0 0 [] (Some filters))
     | _ :: _ =>
         let! response :=
           CampaignService.process_campaign_data settings akeneo_service datetime_now
             raw_campaigns in
         ret (set_filters_applied response filters)
     end).

Definition get_active_campaigns (campaign_types : option (list string))
    : World -> http CampaignResponse.t * World :=
  or_500 "Error fetching active campaigns: "
    (let filters := CampaignFilter.mk campaign_types None None None None true in
     let! raw_campaigns := db_get_campaigns filters in
     match raw_campaigns with
     | [] => ret (CampaignResponse.mk 0 0 0 [] (Some filters))
     | _ :: _ =>
         let! active_campaigns :=
           CampaignService.filter_active_campaigns datetime_now raw_campaigns in
         let! response :=
           CampaignService.process_campaign_data settings akeneo_service datetime_now
             active_campaigns in
         ret (set_filters_applied response filters)
     end).

Definition get_campaign_summary (campaign_types : option (list string))
    (segment brand : option string) (active_only : bool)
    : World -> http SummaryBody * World :=
  or_500 "Error getting campaign summary: "
    (let filters := CampaignFilter.mk campaign_types None None segment brand active_only in
     let! raw_campaigns := db_get_campaigns filters in
     match raw_campaigns with
     | [] =>
         ret (mk_summary_body {[ "total_campaigns" := CampaignService.SInt 0 ]} None filters)
     | _ :: _ =>
         let! response :=
           CampaignService.process_campaign_data settings akeneo_service datetime_now
             raw_campaigns in
         let! summary :=
           lift (CampaignService.get_campaign_summary py_sum
                   (CampaignResponse.campaigns response)) in
         ret (mk_summary_body summary (Some (stats_of response)) filters)
     end).

Definition get_campaign_by_product (product_id : string)
    : World -> http ProductBody * World :=
  or_500_passing "Error fetching campaign: "
    (let! raw_campaign := db_get_campaign_by_product_id product_id in
     match raw_campaign with
     | None =>
         ret (HTTPException 404 ("No campaign found for product " ++ product_id))
     | Some raw_campaign =>
         let! response :=
           CampaignService.process_campaign_data settings akeneo_service datetime_now
             [raw_campaign] in
         match CampaignResponse.campaigns response with
         | [] =>
             ret (HTTPException 500
                    ("Error processing campaign for product " ++ product_id))
         | first :: _ =>
             ret (Ok (mk_product_body product_id first (stats_of response)))
         end
     end).

(** The [for campaign in raw_campaigns] loop of [validate_campaigns],
    carrying [valid_count], [invalid_count] and [all_errors]. *)
Fixpoint validate_loop (raw_campaigns : list RawCampaignData.t)
    (valid_count invalid_count : Z) (all_errors : list ValidationEntry)
    : result (Z * Z * list ValidationEntry) :=
  match raw_campaigns with
  | [] => Return (valid_count, invalid_count, all_errors)
  | campaign :: rest =>
      let* errors := CampaignService.validate_campaign_data campaign in
      match errors with
      | _ :: _ =>
          validate_loop rest valid_count (invalid_count + 1)%Z
            (all_errors ++ [mk_entry (RawCampaignData.product_id campaign) errors])
      | [] => validate_loop rest (valid_count + 1)%Z invalid_count all_errors
      end
  end.

Definition validate_campaigns (campaign_types : option (list string))
    (segment brand : option string) : World -> http ValidationReport * World :=
  or_500 "Error validating campaigns: "
    (let filters := CampaignFilter.mk campaign_types None None segment brand false in
     let! raw_campaigns := db_get_campaigns filters in
     match raw_campaigns with
     | [] => ret (mk_report 0 0 0 [] filters)
     | _ :: _ =>
         let! st := lift (validate_loop raw_campaigns 0 0 []) in
         ret (mk_report (Z.of_nat (length raw_campaigns)) st.1.1 st.1.2 st.2 filters)
     end).

End Routes.
End CampaignRoutes.

(** ** The campaign query: [app/services/database_service.py] *)

Module DatabaseService.

(** The text of [base_query] as [get_campaigns] first sets it. *)
Definition base_query : string := "
            SELECT 
                issue_type,
                live_date,
                segment,
                slot,
                end_date,
                request_type,
                monetary_type,
                cpc,
                product_id,
                akeneo_product_name,
                akeneo_brand_name,
                selling_price,
                projected_inventory,
                brand,
                preferred_landing_sku_id,
                property,
                funnel,
                mv,
                top_bet_date,
                campaign_name,
                top_bet,
                article_type,
                akeneo_family,
                MRP,
                segment_in,
                remarks,
                price_remarks,
                user_email,
                impressions,
                tacos,
                `index`,
                available_inventory
            FROM campaigns
            WHERE 1=1
            ".

(** The condition appended for [active_only]. *)
Definition active_condition : string := "
                        STR_TO_DATE(live_date, '%d/%m/%Y') <= CURDATE() 
                        AND STR_TO_DATE(end_date, '%d/%m/%Y') >= CURDATE()
                    ".

(** [sep.join(items)]. *)
Fixpoint join (sep : string) (items : list string) : string :=
  match items with
  | [] => ""
  | [x] => x
  | x :: rest => x +:+ sep +:+ join sep rest
  end.

(** [f':campaign_type_{i}'] and the name it is bound under. *)
Definition placeholder (i : nat) : string := ":campaign_type_" +:+ pretty i.
Definition param_name (i : nat) : string := "campaign_type_" +:+ pretty i.

(** The [for i, campaign_type in enumerate(...)] loop, from index [i]. *)
Fixpoint bind_types (i : nat) (campaign_types : list string)
    (params : gmap string string) : gmap string string :=
  match campaign_types with
  | [] => params
  | campaign_type :: rest =>
      bind_types (S i) rest (<[param_name i := campaign_type]> params)
  end.

Section Queries.

(** [d.strftime('%Y-%m-%d')], as the C library formats it. *)
Variable strftime_Ymd : Datetime.datetime -> string.

(** What [get_campaigns] hands to [db.execute]: the text of the query and
    the parameters bound to its placeholders. *)
Definition campaign_query (filters : option CampaignFilter.t)
    : string * gmap string string :=
  let params : gmap string string := ∅ in
  let conditions : list string := [] in
  let cp :=
    match filters with
    | None => (conditions, params)
    | Some filters =>
        let cp :=
          match CampaignFilter.campaign_types filters with
          | Some (t :: ts) =>
              let placeholders :=
                join "," (map placeholder (seq 0 (length (t :: ts)))) in
              (conditions ++ ["issue_type IN (" +:+ placeholders +:+ ")"],
               bind_types 0 (t :: ts) params)
          | _ => (conditions, params)
          end in
        let cp :=
          match CampaignFilter.segment filters with
          | Some (String c s) =>
              (cp.1 ++ ["segment = :segment"], <["segment" := String c s]> cp.2)
          | _ => cp
          end in
        let cp :=
          match CampaignFilter.brand filters with
          | Some (String c s) =>
              (cp.1 ++ ["brand = :brand"], <["brand" := String c s]> cp.2)
          | _ => cp
          end in
        let cp :=
          match CampaignFilter.start_date filters with
          | Some d =>
              (cp.1 ++ ["STR_TO_DATE(live_date, '%d/%m/%Y') >= :start_date"],
               <["start_date" := strftime_Ymd d]> cp.2)
          | None => cp
          end in
        let cp :=
          match CampaignFilter.end_date filters with
          | Some d =>
              (cp.1 ++ ["STR_TO_DATE(end_date, '%d/%m/%Y') <= :end_date"],
               <["end_date" := strftime_Ymd d]> cp.2)
          | None => cp
          end in
        if CampaignFilter.active_only filters
        then (cp.1 ++ [active_condition], cp.2)
        else cp
    end in
  let query :=
    match cp.1 with
    | [] => base_query
    | _ :: _ => base_query +:+ " AND " +:+ join " AND " cp.1
    end in
  (query +:+ " ORDER BY STR_TO_DATE(live_date, '%d/%m/%Y') DESC", cp.2).

End Queries.
End DatabaseService.

(** ** The PIM client's token and assets: [app/services/akeneo_service.py] *)

Module AkeneoHttp.

(** The Akeneo settings of [app/core/config.py]. *)
Record AkeneoSettings : Type := mk_settings {
  AKENEO_URL : string;
  AKENEO_CLIENT_ID_SECRET : string;
  AKENEO_USERNAME : string;
  AKENEO_PASSWORD : string
}.

(** What the code reads of a [requests] response: the status code, the
    text, and the outcome of [response.json()]. *)
Record Response : Type := mk_response {
  status_code : Z;
  text : string;
  json : result PyAny
}.

(** The mutable attributes of the two service objects:
    [AkeneoService._access_token] and [AssetService._access_token]. *)
Record Objects : Type := mk_objects {
  access_token : PyAny;
  asset_access_token : PyAny
}.

(** The objects as their constructors leave them. *)
Definition fresh : Objects := mk_objects PyNone PyNone.

(** [d.get(key)] on a decoded JSON value: the value under the key or
    [None] for an object, an [AttributeError] for anything else. *)
Definition py_get (d : PyAny) (key : string) : result PyAny :=
  match d with
  | PyDict items =>
      Return (match List.find (fun kv => String.eqb kv.1 key) items with
              | Some kv => kv.2
              | None => PyNone
              end)
  | _ => Raise (Exception "AttributeError: object has no attribute 'get'")
  end.

Section Http.
Context {World : Type}.

Variable settings : AkeneoSettings.

(** [requests.post(url, headers=headers, json=data)] and
    [requests.get(url, headers=headers)]. *)
Variable requests_post :
  string -> list (string * string) -> list (string * string) -> M World Response.
Variable requests_get : string -> list (string * string) -> M World Response.

(** [str(v)], as an f-string formats a value. *)
Variable py_str : PyAny -> string.

(** A call to the outside world, the objects untouched. *)
Definition outside {A} (m : M World A) : M (Objects * World) A :=
  fun ow => ((m ow.2).1, (ow.1, (m ow.2).2)).

(** Reading and writing the attributes. *)
Definition read : M (Objects * World) Objects := fun ow => (Return ow.1, ow).
Definition write (o : Objects) : M (Objects * World) unit :=
  fun ow => (Return tt, (o, ow.2)).

Definition mraise {S A} (e : exn) : M S A := fun s => (Raise e, s).

(** [AssetService.set_access_token]. *)
Definition set_access_token (token : PyAny) : M (Objects * World) unit :=
  let! self := read in
  write (mk_objects (access_token self) token).

(** [AkeneoService._get_access_token]. *)
Definition _get_access_token : M (Objects * World) PyAny :=
  let! self := read in
  if truthy (access_token self) then ret (access_token self)
  else
    let headers :=
      [("Content-Type", "application/json");
       ("Authorization", "Basic " +:+ AKENEO_CLIENT_ID_SECRET settings)] in
    let data :=
      [("grant_type", "password");
       ("username", AKENEO_USERNAME settings);
       ("password", AKENEO_PASSWORD settings)] in
    mtry_except
      (let! response :=
         outside (requests_post (AKENEO_URL settings +:+ "/api/oauth/v1/token")
                    headers data) in
       if (status_code response =? 200)%Z then
         let! token_data := lift (json response) in
         let! token := lift (py_get token_data "access_token") in
         let! self := read in
         let! _ := write (mk_objects token (asset_access_token self)) in
         let! _ := set_access_token token in
         ret token
       else
         mraise (Exception ("Failed to get token: " +:+ pretty (status_code response)
                            +:+ ", " +:+ text response)))
      (fun e => mraise e).

(** The [for asset_code in asset_codes] loop, carrying [assets]. *)
Fixpoint assets_loop (headers : list (string * string)) (asset_family_code : string)
    (asset_codes : list string) (assets : list PyAny) : M World (list PyAny) :=
  match asset_codes with
  | [] => ret assets
  | asset_code :: rest =>
      let! assets :=
        mtry_except
          (let! response :=
             requests_get (AKENEO_URL settings +:+ "/api/rest/v1/asset-families/"
                           +:+ asset_family_code +:+ "/assets/" +:+ asset_code) headers in
           if (status_code response =? 200)%Z then
             let! body := lift (json response) in
             ret (assets ++ [body])
           else ret assets)
          (fun _ => ret assets) in
      assets_loop headers asset_family_code rest assets
  end.

(** [AssetService.get_assets_for_collection]. *)
Definition get_assets_for_collection (asset_codes : list string)
    (asset_family_code : string) : M (Objects * World) (list PyAny) :=
  let! self := read in
  if negb (truthy (asset_access_token self)) then ret []
  else
    let headers :=
      [("Content-Type", "application/json");
       ("Authorization", "Bearer " +:+ py_str (asset_access_token self))] in
    outside (assets_loop headers asset_family_code asset_codes []).

End Http.
End AkeneoHttp.

(** ** More sample data *)

Module MoreSamples.

(** A raw record with a preferred landing SKU put in place. *)
Definition with_preferred (r : RawCampaignData.t) (sku : option string)
    : RawCampaignData.t :=
  {| RawCampaignData.issue_type := RawCampaignData.issue_type r;
     RawCampaignData.live_date := RawCampaignData.live_date r;
     RawCampaignData.segment := RawCampaignData.segment r;
     RawCampaignData.slot := RawCampaignData.slot r;
     RawCampaignData.end_date := RawCampaignData.end_date r;
     RawCampaignData.request_type := RawCampaignData.request_type r;
     RawCampaignData.monetary_type := RawCampaignData.monetary_type r;
     RawCampaignData.cpc := RawCampaignData.cpc r;
     RawCampaignData.product_id := RawCampaignData.product_id r;
     RawCampaignData.akeneo_product_name := RawCampaignData.akeneo_product_name r;
     RawCampaignData.akeneo_brand_name := RawCampaignData.akeneo_brand_name r;
     RawCampaignData.selling_price := RawCampaignData.selling_price r;
     RawCampaignData.projected_inventory := RawCampaignData.projected_inventory r;
     RawCampaignData.brand := RawCampaignData.brand r;
     RawCampaignData.preferred_landing_sku_id := sku;
     RawCampaignData.property := RawCampaignData.property r;
     RawCampaignData.funnel := RawCampaignData.funnel r;
     RawCampaignData.mv := RawCampaignData.mv r;
     RawCampaignData.top_bet_date := RawCampaignData.top_bet_date r;
     RawCampaignData.campaign_name := RawCampaignData.campaign_name r;
     RawCampaignData.top_bet := RawCampaignData.top_bet r;
     RawCampaignData.article_type := RawCampaignData.article_type r;
     RawCampaignData.akeneo_family := RawCampaignData.akeneo_family r;
     RawCampaignData.MRP := RawCampaignData.MRP r;
     RawCampaignData.segment_in := RawCampaignData.segment_in r;
     RawCampaignData.remarks := RawCampaignData.remarks r;
     RawCampaignData.price_remarks := RawCampaignData.price_remarks r;
     RawCampaignData.user_email := RawCampaignData.user_email r;
     RawCampaignData.impressions := RawCampaignData.impressions r;
     RawCampaignData.tacos := RawCampaignData.tacos r;
     RawCampaignData.index := RawCampaignData.index r;
     RawCampaignData.available_inventory := RawCampaignData.available_inventory r |}.

(** P1 with the preferred landing SKU "SKU-7". *)
Definition raw_preferred : RawCampaignData.t :=
  with_preferred Samples.raw_p1 (Some "SKU-7").

(** The record the transform builds for P1 from the fallbacks. *)
Definition falcon_p1 : FalconFormattedData.t :=
  FalconFormattedData.mk "P1" "P1" 150%float 100%float 100%float
    0x1.8799999999999p+6%float 100%float 2000.

(** A campaign live in June 2025, one that ended on 14/06/2025, one with a
    live date that is no date, one for a single day. *)
Definition june : RawCampaignData.t :=
  Samples.raw_with "DOD" "01/06/2025" "30/06/2025" "P1" 100%float None.
Definition ended : RawCampaignData.t :=
  Samples.raw_with "DOD" "01/06/2025" "14/06/2025" "P2" 80%float None.
Definition undated : RawCampaignData.t :=
  Samples.raw_with "FLASH_SALE" "2025-06-01" "30/06/2025" "P3" 50%float None.
Definition unpriced : RawCampaignData.t :=
  Samples.raw_with "DOD" "01/06/2025" "30/06/2025" "" 0%float None.

(** A product whose [sku] attribute is a list of two codes, and the service
    over a PIM that answers with it. *)
Definition product_list_sku : ProductDetails.t :=
  Samples.product_of {[ "sku" := [Samples.value_of (PyList [PyStr "A"; PyStr "B"])] ]}.
Definition pim_list_sku : AkeneoClient.t unit :=
  AkeneoService.client Samples.no_numeric_str (Samples.fetch product_list_sku).

(** A database that answers every query with the given rows. *)
Definition db_rows (rows : list RawCampaignData.t)
    : CampaignFilter.t -> M unit (list RawCampaignData.t) :=
  fun _ => ret rows.
Definition db_row (row : option RawCampaignData.t)
    : string -> M unit (option RawCampaignData.t) :=
  fun _ => ret row.

(** A database whose every query fails. *)
Definition db_fails : CampaignFilter.t -> M unit (list RawCampaignData.t) :=
  fun _ w => (Raise (Exception "connection refused"), w).

(** The text of an exception, for the samples. *)
Definition str_exn (e : exn) : string :=
  match e with
  | Exception msg => msg
  | _ => "error"
  end.

(** Two filters that set the same fields, the second with hostile values. *)
Definition filter_plain : CampaignFilter.t :=
  CampaignFilter.mk (Some ["DOD"]) None None (Some "premium") None true.
Definition filter_hostile : CampaignFilter.t :=
  CampaignFilter.mk (Some ["DOD' OR '1'='1"]) None None
    (Some "x'; DROP TABLE campaigns; --") None true.

(** ISO formatting of a date of four-digit year. *)
Definition two_digits (n : Z) : string :=
  if (n <? 10)%Z then "0" +:+ pretty n else pretty n.
Definition iso_date (d : Datetime.datetime) : string :=
  pretty (Datetime.year d) +:+ "-" +:+ two_digits (Datetime.month d)
  +:+ "-" +:+ two_digits (Datetime.day d).

Definition akeneo_settings : AkeneoHttp.AkeneoSettings :=
  AkeneoHttp.mk_settings "https://pim.example" "Y2xpZW50OnNlY3JldA==" "ops" "secret".

(** A token endpoint that grants "tok-1", one that refuses, and one that
    answers 200 without a token. *)
Definition post_grants
    : string -> list (string * string) -> list (string * string)
      -> M unit AkeneoHttp.Response :=
  fun _ _ _ =>
    ret (AkeneoHttp.mk_response 200 "{...}"
           (Return (PyDict [("access_token", PyStr "tok-1"); ("expires_in", PyInt 3600)]))).
Definition post_refuses
    : string -> list (string * string) -> list (string * string)
      -> M unit AkeneoHttp.Response :=
  fun _ _ _ =>
    ret (AkeneoHttp.mk_response 401 "unauthorized"
           (Return (PyDict [("code", PyInt 401)]))).
Definition post_no_entry
    : string -> list (string * string) -> list (string * string)
      -> M unit AkeneoHttp.Response :=
  fun _ _ _ =>
    ret (AkeneoHttp.mk_response 200 "{...}" (Return (PyDict [("scope", PyNone)]))).

End MoreSamples.

(** ** Properties *)

(** *** The batch processor *)

Section BatchProcessor.
Context {World : Type}.
Variable settings : Config.Settings.
Variable akeneo_service : AkeneoClient.t World.
Variable datetime_now : World -> Datetime.datetime * World.

Local Abbreviation transform := (CampaignService.transform_to_falcon_format settings akeneo_service).
Local Abbreviation process_loop := (CampaignService.process_loop settings akeneo_service datetime_now).
Local Abbreviation process := (CampaignService.process_campaign_data settings akeneo_service datetime_now).

(** The transform contains every exception: it returns a record or [None]. *)
Lemma transform_returns (raw : RawCampaignData.t) (w : World) :
  exists res w', transform raw w = (Return res, w').
Proof.
  unfold CampaignService.transform_to_falcon_format, mtry_except.
  match goal with |- context [match ?m w with _ => _ end] => destruct (m w) as [[a | e] w1] end.
  - eauto.
  - unfold ret. eauto.
Qed.

(** One turn of the loop either appends one pair or counts one failure. *)
Lemma process_loop_counts (raw_campaigns : list RawCampaignData.t) :
  forall processed failed w,
  exists processed' failed' w',
    process_loop raw_campaigns processed failed w = (Return (processed', failed'), w')
    /\ (Z.of_nat (length processed') + failed'
        = Z.of_nat (length processed) + failed + Z.of_nat (length raw_campaigns))%Z.
Proof.
  induction raw_campaigns as [| raw rest IH]; intros processed failed w.
  - exists processed, failed, w. split; [reflexivity | simpl; lia].
  - cbn [CampaignService.process_loop].
    destruct (transform_returns raw w) as (res & w1 & Ht).
    unfold mbind at 1, mtry_except at 1, mbind at 1. rewrite Ht.
    destruct res as [fd |].
    + unfold CampaignService.new_processed, CampaignService.now, mbind, ret. cbn.
      destruct (IH (processed ++ [ProcessedCampaignData.mk raw fd (datetime_now w1).1])
                  failed (datetime_now w1).2) as (p' & f' & w' & Hl & Hc).
      exists p', f', w'. split; [exact Hl |].
      rewrite Hc, length_app. cbn [length]. lia.
    + unfold ret. cbn.
      destruct (IH processed (failed + 1)%Z w1) as (p' & f' & w' & Hl & Hc).
      exists p', f', w'. split; [exact Hl |].
      rewrite Hc. cbn [length]. lia.
Qed.

(** C1.  For every list of raw campaign records, the empty list included,
    [process_campaign_data] returns a response (it does not raise) in which
    [processed_count + failed_count = total_count] and [total_count] is the
    length of the input, whatever the PIM answers and whatever the settings
    and the clock are. *)
Theorem process_campaign_data_counts (raw_campaigns : list RawCampaignData.t) (w : World) :
  exists resp w',
    process raw_campaigns w = (Return resp, w')
    /\ (CampaignResponse.processed_count resp + CampaignResponse.failed_count resp
        = CampaignResponse.total_count resp)%Z
    /\ CampaignResponse.total_count resp = Z.of_nat (length raw_campaigns)
    /\ CampaignResponse.processed_count resp
       = Z.of_nat (length (CampaignResponse.campaigns resp)).
Proof.
  destruct (process_loop_counts raw_campaigns [] 0%Z w) as (p' & f' & w' & Hl & Hc).
  unfold CampaignService.process_campaign_data, mbind. rewrite Hl.
  eexists _, _. split; [reflexivity |]. cbn. repeat split. cbn in Hc. lia.
Qed.

End BatchProcessor.

(** *** The activity filter *)

Section ActivityFilter.

(** [strptime] fails with [ValueError] and nothing else. *)
Lemma strptime_raises (s : string) (e : exn) :
  Datetime.strptime s = Raise e -> e = ValueError.
Proof.
  unfold Datetime.strptime.
  destruct (Datetime.re_match s) as [| [[[d m] y] rest] tl]; [congruence |].
  destruct (str_truthy rest); [congruence |].
  destruct (Datetime.valid_date y m d); congruence.
Qed.

(** What [strptime] returns is a midnight. *)
Lemma strptime_midnight (s : string) (t : Datetime.datetime) :
  Datetime.strptime s = Return t ->
  Datetime.hour t = 0%Z /\ Datetime.minute t = 0%Z
  /\ Datetime.second t = 0%Z /\ Datetime.microsecond t = 0%Z.
Proof.
  unfold Datetime.strptime.
  destruct (Datetime.re_match s) as [| [[[d m] y] rest] tl]; [congruence |].
  destruct (str_truthy rest); [congruence |].
  destruct (Datetime.valid_date y m d); [| congruence].
  intros [= <-]. cbn. auto.
Qed.

Lemma is_active_iff (now : Datetime.datetime) (c : RawCampaignData.t) :
  Spec.is_active now c = true <-> Spec.active_at now c.
Proof.
  unfold Spec.is_active, Spec.active_at. split.
  - destruct (Datetime.strptime (RawCampaignData.live_date c)) as [l | ?]; [| discriminate].
    destruct (Datetime.strptime (RawCampaignData.end_date c)) as [e | ?]; [| discriminate].
    intros H. apply andb_true_iff in H as [H1 H2]. eauto 6.
  - intros (l & e & -> & -> & H1 & H2). now rewrite H1, H2.
Qed.

(** The loop appends to its accumulator exactly the active records, in the
    order of the input. *)
Lemma filter_loop_spec (now : Datetime.datetime) (campaigns : list RawCampaignData.t) :
  forall active,
    CampaignService.filter_loop now campaigns active
    = Return (active ++ List.filter (Spec.is_active now) campaigns).
Proof.
  induction campaigns as [| c rest IH]; intros active.
  - cbn. now rewrite app_nil_r.
  - cbn [CampaignService.filter_loop List.filter]. unfold Spec.is_active at 1.
    destruct (Datetime.strptime (RawCampaignData.live_date c)) as [l | e1] eqn:Hl.
    + destruct (Datetime.strptime (RawCampaignData.end_date c)) as [e | e2] eqn:He.
      * cbn. destruct (Datetime.leb l now && Datetime.leb now e).
        -- rewrite IH. now rewrite <- app_assoc.
        -- apply IH.
      * apply strptime_raises in He as ->. cbn. apply IH.
    + apply strptime_raises in Hl as ->. cbn. apply IH.
Qed.

Lemma leb_refl (t : Datetime.datetime) : Datetime.leb t t = true.
Proof.
  unfold Datetime.leb, Datetime.compare.
  assert (H : forall l, Datetime.lex_compare l l = Eq).
  { induction l as [| x l IH]; cbn; [reflexivity |]. now rewrite Z.compare_refl. }
  now rewrite H.
Qed.

Lemma day_15_after_1 (now : Datetime.datetime) :
  Spec.on_15_06_2025 now ->
  Datetime.leb (Datetime.mk_datetime 2025 6 1 0 0 0 0) now = true
  /\ Datetime.leb now (Datetime.mk_datetime 2025 6 30 0 0 0 0) = true
  /\ Datetime.leb now (Datetime.mk_datetime 2025 6 14 0 0 0 0) = false.
Proof.
  destruct now as [y m d h mi s us]. unfold Spec.on_15_06_2025. cbn.
  intros (-> & -> & ->). unfold Datetime.leb, Datetime.compare. cbn. auto.
Qed.

(** C7.  [filter_active_campaigns] does not fail and keeps a record if and
    only if both its dates parse under DD/MM/YYYY and parsed live date <= now
    <= parsed end date, [now] being the reading of the clock (a timestamp)
    taken when the filter starts; records with a date that does not parse are
    left out.  The kept records come in input order.  Both comparisons are
    inclusive: a record whose parsed live date, or parsed end date, is [now]
    itself is kept when the other comparison holds.  At any moment of 15/06/2025 a record live from 01/06/2025 to
    30/06/2025 is kept and a record ending on 14/06/2025 is left out. *)
Theorem filter_active_campaigns_spec {World : Type}
    (datetime_now : World -> Datetime.datetime * World)
    (campaigns : list RawCampaignData.t) (w : World) :
  exists active,
    CampaignService.filter_active_campaigns datetime_now campaigns w
    = (Return active, (datetime_now w).2)
    /\ active = List.filter (Spec.is_active (datetime_now w).1) campaigns
    /\ (forall c, In c active <-> In c campaigns /\ Spec.active_at (datetime_now w).1 c)
    /\ (forall c e, In c campaigns ->
          Datetime.strptime (RawCampaignData.live_date c) = Return (datetime_now w).1 ->
          Datetime.strptime (RawCampaignData.end_date c) = Return e ->
          Datetime.leb (datetime_now w).1 e = true -> In c active)
    /\ (forall c l, In c campaigns ->
          Datetime.strptime (RawCampaignData.live_date c) = Return l ->
          Datetime.strptime (RawCampaignData.end_date c) = Return (datetime_now w).1 ->
          Datetime.leb l (datetime_now w).1 = true -> In c active)
    /\ (forall c, Spec.on_15_06_2025 (datetime_now w).1 -> In c campaigns ->
          RawCampaignData.live_date c = "01/06/2025" ->
          RawCampaignData.end_date c = "30/06/2025" -> In c active)
    /\ (forall c, Spec.on_15_06_2025 (datetime_now w).1 ->
          RawCampaignData.end_date c = "14/06/2025" -> ~ In c active).
Proof.
  exists (List.filter (Spec.is_active (datetime_now w).1) campaigns).
  assert (Hiff : forall c,
             In c (List.filter (Spec.is_active (datetime_now w).1) campaigns)
             <-> In c campaigns /\ Spec.active_at (datetime_now w).1 c).
  { intros c. rewrite filter_In, is_active_iff. tauto. }
  split; [| split; [reflexivity | split; [exact Hiff | split; [| split; [| split]]]]].
  - unfold CampaignService.filter_active_campaigns, CampaignService.now, mbind, lift.
    cbn. now rewrite filter_loop_spec.
  - intros c e Hin Hl He Hle. apply Hiff. split; [exact Hin |].
    exists (datetime_now w).1, e. now rewrite leb_refl.
  - intros c l Hin Hl He Hle. apply Hiff. split; [exact Hin |].
    exists l, (datetime_now w).1. now rewrite leb_refl.
  - intros c Hday Hin Hl He. apply Hiff. split; [exact Hin |].
    destruct (day_15_after_1 _ Hday) as (H1 & H2 & _).
    unfold Spec.active_at. rewrite Hl, He.
    eexists _, _. split; [vm_compute; reflexivity |]. split; [vm_compute; reflexivity |].
    split; assumption.
  - intros c Hday He Hin. apply Hiff in Hin as [_ (l & e & _ & Hpe & _ & Hle)].
    destruct (day_15_after_1 _ Hday) as (_ & _ & H3).
    rewrite He in Hpe. vm_compute in Hpe. injection Hpe as <-. congruence.
Qed.

End ActivityFilter.

Section ActivityFilterCases.

(** At half past ten on 15/06/2025: the record live from 01/06/2025 to
    30/06/2025 is kept; the one that ended on 14/06/2025 and the one whose
    live date is not a date are left out. *)
Lemma filter_active_campaigns_spec_witness :
  CampaignService.filter_active_campaigns Samples.clock
    [Samples.raw_with "DOD" "01/06/2025" "30/06/2025" "P1" 100%float None;
     Samples.raw_with "DOD" "01/06/2025" "14/06/2025" "P2" 100%float None;
     Samples.raw_with "DOD" "2025-06-01" "30/06/2025" "P3" 100%float None] tt
  = (Return [Samples.raw_with "DOD" "01/06/2025" "30/06/2025" "P1" 100%float None], tt).
Proof.
  destruct (filter_active_campaigns_spec Samples.clock
              [Samples.raw_with "DOD" "01/06/2025" "30/06/2025" "P1" 100%float None;
               Samples.raw_with "DOD" "01/06/2025" "14/06/2025" "P2" 100%float None;
               Samples.raw_with "DOD" "2025-06-01" "30/06/2025" "P3" 100%float None] tt)
    as (active & Hrun & Hactive & _).
  rewrite Hrun, Hactive. vm_compute. reflexivity.
Defined.

(** The parsed end date is the midnight that opens the end day: at half past
    ten on 15/06/2025 a record ending on 15/06/2025 is no longer kept, at
    midnight it still is. *)
Lemma filter_active_campaigns_end_day :
  CampaignService.filter_active_campaigns Samples.clock
    [Samples.raw_with "DOD" "01/06/2025" "15/06/2025" "P1" 100%float None] tt
  = (Return [], tt)
  /\ CampaignService.filter_active_campaigns
       (fun w : unit => (Datetime.mk_datetime 2025 6 15 0 0 0 0, w))
       [Samples.raw_with "DOD" "01/06/2025" "15/06/2025" "P1" 100%float None] tt
     = (Return [Samples.raw_with "DOD" "01/06/2025" "15/06/2025" "P1" 100%float None], tt).
Proof. split; vm_compute; reflexivity. Qed.

End ActivityFilterCases.

(** *** The validator *)

Section Validator.

Lemma str_truthy_false (s : string) : str_truthy s = false <-> s = "".
Proof. destruct s; cbn; split; congruence. Qed.

(** C8.  The validator returns its list and collects every violation, no
    rule hiding another: each of the four required-field errors is in the
    list exactly when its own field is missing (an empty [product_id], a
    [selling_price] that is zero or not above zero, an empty [live_date], an
    empty [end_date]).  In particular, for a raw record with empty
    [product_id], a [selling_price] equal to zero and empty dates the list
    is the four required-field errors followed by the date-format error, so
    it has at least 3 entries. *)
Theorem validate_collects_required_fields (raw : RawCampaignData.t) :
  exists errors,
    CampaignService.validate_campaign_data raw = Return errors
    /\ (In "Product ID is required" errors <-> RawCampaignData.product_id raw = "")
    /\ (In "Valid selling price is required" errors
        <-> float_truthy (RawCampaignData.selling_price raw) = false
            \/ PrimFloat.leb (RawCampaignData.selling_price raw) 0%float = true)
    /\ (In "Live date is required" errors <-> RawCampaignData.live_date raw = "")
    /\ (In "End date is required" errors <-> RawCampaignData.end_date raw = "")
    /\ (RawCampaignData.product_id raw = "" ->
        PrimFloat.eqb (RawCampaignData.selling_price raw) 0%float = true ->
        RawCampaignData.live_date raw = "" ->
        RawCampaignData.end_date raw = "" ->
        errors = ["Product ID is required";
                  "Valid selling price is required";
                  "Live date is required";
                  "End date is required";
                  "Invalid date format. Expected DD/MM/YYYY"]
        /\ (3 <= length errors)%nat).
Proof.
  unfold CampaignService.validate_campaign_data.
  setoid_rewrite <- (str_truthy_false (RawCampaignData.product_id raw)).
  setoid_rewrite <- (str_truthy_false (RawCampaignData.live_date raw)).
  setoid_rewrite <- (str_truthy_false (RawCampaignData.end_date raw)).
  assert (Hzero : PrimFloat.eqb (RawCampaignData.selling_price raw) 0%float = true ->
                  float_truthy (RawCampaignData.selling_price raw) = false).
  { unfold float_truthy. now intros ->. }
  assert (Hparse : forall s t, Datetime.strptime s = Return t -> str_truthy s = true).
  { intros [| c s] t; [discriminate | reflexivity]. }
  destruct (Datetime.strptime (RawCampaignData.live_date raw)) as [l | e1] eqn:Hl.
  - rewrite (Hparse _ _ Hl).
    destruct (Datetime.strptime (RawCampaignData.end_date raw)) as [e | e2] eqn:He.
    + rewrite (Hparse _ _ He). cbn [bind try_except_ValueError].
      destruct (str_truthy (RawCampaignData.product_id raw)),
        (float_truthy (RawCampaignData.selling_price raw)),
        (PrimFloat.leb (RawCampaignData.selling_price raw) 0),
        (Datetime.leb e l);
        cbn; eexists; (split; [reflexivity |]); cbn;
        intuition (try discriminate; try congruence).
    + apply strptime_raises in He; subst e2.
      destruct (str_truthy (RawCampaignData.product_id raw)),
        (float_truthy (RawCampaignData.selling_price raw)),
        (PrimFloat.leb (RawCampaignData.selling_price raw) 0),
        (str_truthy (RawCampaignData.end_date raw));
        cbn; eexists; (split; [reflexivity |]); cbn;
        intuition (try discriminate; try congruence).
  - apply strptime_raises in Hl; subst e1.
    destruct (str_truthy (RawCampaignData.product_id raw)),
      (float_truthy (RawCampaignData.selling_price raw)),
      (PrimFloat.leb (RawCampaignData.selling_price raw) 0),
      (str_truthy (RawCampaignData.live_date raw)),
      (str_truthy (RawCampaignData.end_date raw));
      cbn; eexists; (split; [reflexivity |]); cbn;
      intuition (try discriminate; try congruence; try lia).
Qed.

End Validator.

Section ValidatorCases.

(** The record of C8, its zero price written 0.0. *)
Lemma validate_collects_required_fields_witness :
  CampaignService.validate_campaign_data (Samples.raw_with "DOD" "" "" "" 0%float None)
  = Return ["Product ID is required";
            "Valid selling price is required";
            "Live date is required";
            "End date is required";
            "Invalid date format. Expected DD/MM/YYYY"].
Proof.
  destruct (validate_collects_required_fields (Samples.raw_with "DOD" "" "" "" 0%float None))
    as (errors & Hrun & _ & _ & _ & _ & Hcase).
  rewrite Hrun. f_equal. apply Hcase; reflexivity.
Defined.

End ValidatorCases.

(** *** The summary aggregator *)

Section Summary.
Variable py_sum : list float -> float.

Local Abbreviation counts_of l X :=
  (set_to_map (fun t : string => (t, CampaignService.count t l)) X : gmap string Z).

Lemma counts_lookup (l : list string) (X : gset string) (t : string) :
  counts_of l X !! t = if decide (t ∈ X) then Some (CampaignService.count t l) else None.
Proof.
  destruct (decide (t ∈ X)) as [Hin | Hout].
  - apply lookup_set_to_map; [naive_solver |]. exists t. done.
  - apply eq_None_not_Some. intros [n Hn].
    apply lookup_set_to_map in Hn as (y & Hy & Heq); [| naive_solver].
    injection Heq as -> _. done.
Qed.

Lemma counts_insert (l : list string) (X : gset string) (x : string) :
  x ∉ X ->
  counts_of l ({[x]} ∪ X) = <[x := CampaignService.count x l]> (counts_of l X).
Proof.
  intros Hx. apply map_eq. intros t.
  rewrite counts_lookup. destruct (decide (x = t)) as [-> | Hne].
  - rewrite lookup_insert_eq. rewrite decide_True by set_solver. done.
  - rewrite lookup_insert_ne by done. rewrite counts_lookup.
    destruct (decide (t ∈ X)).
    + rewrite decide_True by (apply elem_of_union; now right). done.
    + rewrite decide_False; [done |].
      rewrite elem_of_union, elem_of_singleton. intuition congruence.
Qed.

Lemma length_filter_split (l : list string) (X : gset string) (x : string) :
  x ∉ X ->
  length (filter (fun y => y ∈ {[x]} ∪ X) l)
  = (length (filter (fun y => y = x) l) + length (filter (fun y => y ∈ X) l))%nat.
Proof.
  intros Hx. induction l as [| a l IH]; [reflexivity |].
  rewrite !filter_cons.
  destruct (decide (a = x)) as [-> | Hne].
  - rewrite decide_True by set_solver. rewrite (decide_False (P := x ∈ X)) by done.
    cbn. lia.
  - destruct (decide (a ∈ X)).
    + rewrite decide_True by (apply elem_of_union; now right). cbn. lia.
    + rewrite decide_False; [exact IH |].
      rewrite elem_of_union, elem_of_singleton. intuition congruence.
Qed.

(** The counts of the types in [X] add up to the number of entries of [l]
    whose type is in [X]. *)
Lemma counts_total (l : list string) (X : gset string) :
  Spec.total (counts_of l X) = Z.of_nat (length (filter (fun y => y ∈ X) l)).
Proof.
  induction X as [| x X Hx IH] using set_ind_L.
  - unfold Spec.total, set_to_map. rewrite elements_empty. cbn.
    rewrite map_fold_empty.
    replace (filter (fun y => y ∈ (∅ : gset string)) l) with (@nil string); [reflexivity |].
    symmetry. induction l as [| a l IHl]; [reflexivity |].
    rewrite filter_cons. rewrite decide_False by set_solver. exact IHl.
  - rewrite counts_insert by done. unfold Spec.total in *.
    rewrite map_fold_insert_L.
    + rewrite IH, length_filter_split by done. unfold CampaignService.count. lia.
    + intros. lia.
    + rewrite counts_lookup. rewrite decide_False by done. done.
Qed.

Lemma filter_own_types (l : list string) :
  filter (fun y => y ∈ (list_to_set l : gset string)) l = l.
Proof.
  assert (H : forall l' : list string, (forall y, y ∈ l' -> y ∈ (list_to_set l : gset string)) ->
                         filter (fun y => y ∈ (list_to_set l : gset string)) l' = l').
  { induction l' as [| a l' IH]; intros Hall; [reflexivity |].
    rewrite filter_cons. rewrite decide_True by (apply Hall; left).
    f_equal. apply IH. intros y Hy. apply Hall. now right. }
  apply H. intros y Hy. now apply elem_of_list_to_set.
Qed.

(** C9.  On the empty list the summary is exactly the one-entry mapping
    [{"total_campaigns": 0}]: no other key is present. *)
Theorem get_campaign_summary_empty :
  CampaignService.get_campaign_summary py_sum []
  = Return {[ "total_campaigns" := CampaignService.SInt 0 ]}
  /\ exists summary,
       CampaignService.get_campaign_summary py_sum [] = Return summary
       /\ dom summary = {[ "total_campaigns" ]}
       /\ summary !! "total_campaigns" = Some (CampaignService.SInt 0)
       /\ size summary = 1%nat.
Proof.
  split; [reflexivity |]. eexists. split; [reflexivity |].
  rewrite dom_singleton_L, lookup_singleton_eq, map_size_singleton. auto.
Qed.

(** C10.  For every non-empty list of processed campaigns the summary is
    returned, its [total_campaigns] is the length of the list, and its
    [campaign_type_counts] mapping has as keys exactly the [issue_type]
    values occurring in the list, each mapped to its number of occurrences,
    so that the counts add up to [total_campaigns]. *)
Theorem get_campaign_summary_type_counts (campaigns : list ProcessedCampaignData.t) :
  campaigns <> [] ->
  exists summary counts,
    CampaignService.get_campaign_summary py_sum campaigns = Return summary
    /\ summary !! "total_campaigns"
       = Some (CampaignService.SInt (Z.of_nat (length campaigns)))
    /\ summary !! "campaign_type_counts" = Some (CampaignService.SCounts counts)
    /\ (forall t : string,
          t ∈ dom counts
          <-> exists c, In c campaigns
                        /\ RawCampaignData.issue_type (ProcessedCampaignData.raw_data c) = t)
    /\ (forall (t : string) (n : Z),
          counts !! t = Some n ->
          n = Z.of_nat
                (length
                   (List.filter
                      (fun c => String.eqb
                                  (RawCampaignData.issue_type (ProcessedCampaignData.raw_data c)) t)
                      campaigns))
          /\ (0 < n)%Z)
    /\ Spec.total counts = Z.of_nat (length campaigns).
Proof.
  intros Hne. destruct campaigns as [| c0 rest]; [congruence |].
  set (campaigns := c0 :: rest) in *.
  set (types := map (fun c => RawCampaignData.issue_type (ProcessedCampaignData.raw_data c))
                    campaigns).
  eexists _, (set_to_map (fun t : string => (t, CampaignService.count t types))
                (list_to_set types : gset string)).
  split; [| split; [| split; [| split; [| split]]]].
  - unfold CampaignService.get_campaign_summary. subst campaigns. cbn -[list_to_map set_to_map].
    reflexivity.
  - cbn [list_to_map foldr fst snd]. rewrite lookup_insert_eq. reflexivity.
  - cbn [list_to_map foldr fst snd].
    repeat (rewrite lookup_insert_ne by discriminate).
    rewrite lookup_insert_eq. reflexivity.
  - intros t. rewrite elem_of_dom, counts_lookup. unfold is_Some.
    destruct (decide (t ∈ (list_to_set types : gset string))) as [Hin | Hout].
    + split; [intros _ | eauto].
      apply elem_of_list_to_set, list_elem_of_In, in_map_iff in Hin as (c & Hc & Hin).
      eauto.
    + split; [intros [n Hn]; discriminate |].
      intros (c & Hin & Hc). exfalso. apply Hout.
      apply elem_of_list_to_set, list_elem_of_In, in_map_iff. eauto.
  - intros t n. rewrite counts_lookup.
    destruct (decide (t ∈ (list_to_set types : gset string))) as [Hin | Hout]; [| discriminate].
    intros [= <-]. unfold CampaignService.count.
    assert (Hlen : forall l : list ProcessedCampaignData.t,
               length (filter (fun y => y = t)
                         (map (fun c => RawCampaignData.issue_type
                                          (ProcessedCampaignData.raw_data c)) l))
               = length (List.filter
                           (fun c => String.eqb
                                       (RawCampaignData.issue_type
                                          (ProcessedCampaignData.raw_data c)) t) l)).
    { induction l as [| a l IH]; [reflexivity |].
      cbn [map List.filter]. rewrite filter_cons.
      destruct (String.eqb_spec (RawCampaignData.issue_type (ProcessedCampaignData.raw_data a)) t)
        as [Heq | Hneq].
      - rewrite decide_True by done. cbn. now rewrite IH.
      - rewrite decide_False by done. exact IH. }
    split; [now rewrite <- Hlen |].
    apply elem_of_list_to_set in Hin.
    assert (Hpos : forall l : list string, t ∈ l -> (0 < length (filter (fun y => y = t) l))%nat).
    { induction l as [| a l IH]; intros Hl; [inversion Hl |].
      rewrite filter_cons. destruct (decide (a = t)); [cbn; lia |].
      apply IH. inversion Hl; congruence. }
    specialize (Hpos _ Hin). lia.
  - rewrite counts_total, filter_own_types. subst types. now rewrite length_map.
Qed.

End Summary.

Section SummaryCases.

(** Two deals of the day and one flash sale. *)
Lemma get_campaign_summary_type_counts_witness :
  exists summary counts,
    CampaignService.get_campaign_summary Samples.sum_left
      [Samples.processed_of (Samples.raw_with "DOD" "01/06/2025" "30/06/2025" "P1" 100%float None);
       Samples.processed_of (Samples.raw_with "FLASH_SALE" "01/06/2025" "30/06/2025" "P2" 250%float None);
       Samples.processed_of (Samples.raw_with "DOD" "01/06/2025" "30/06/2025" "P3" 80%float None)]
    = Return summary
    /\ summary !! "total_campaigns" = Some (CampaignService.SInt 3)
    /\ summary !! "campaign_type_counts" = Some (CampaignService.SCounts counts)
    /\ counts !! "DOD" = Some 2%Z
    /\ counts !! "FLASH_SALE" = Some 1%Z
    /\ Spec.total counts = 3%Z.
Proof.
  destruct (get_campaign_summary_type_counts Samples.sum_left
              [Samples.processed_of (Samples.raw_with "DOD" "01/06/2025" "30/06/2025" "P1" 100%float None);
               Samples.processed_of (Samples.raw_with "FLASH_SALE" "01/06/2025" "30/06/2025" "P2" 250%float None);
               Samples.processed_of (Samples.raw_with "DOD" "01/06/2025" "30/06/2025" "P3" 80%float None)])
    as (summary & counts & Hs & Ht & Hc & Hdom & Hn & Htot); [discriminate |].
  exists summary, counts. repeat split; try assumption.
  - assert (Hin : "DOD" ∈ dom counts) by (apply Hdom; eexists; split; [left; reflexivity | reflexivity]).
    apply elem_of_dom in Hin as [n Hk]. rewrite Hk. f_equal.
    now destruct (Hn _ _ Hk) as [-> _].
  - assert (Hin : "FLASH_SALE" ∈ dom counts)
      by (apply Hdom; eexists; split; [right; left; reflexivity | reflexivity]).
    apply elem_of_dom in Hin as [n Hk]. rewrite Hk. f_equal.
    now destruct (Hn _ _ Hk) as [-> _].
Defined.

End SummaryCases.

(** *** The enrichment and transform engine *)

Section Transform.
Context {World : Type}.
Variable settings : Config.Settings.

Ltac run_transform :=
  unfold CampaignService.transform_to_falcon_format, mtry_except, mbind, ret, lift,
    FalconFormattedData.new.

(** A truthy string is not empty. *)
Lemma str_truthy_nonempty (s : string) : str_truthy s = true -> s <> "".
Proof. destruct s; [discriminate | discriminate]. Qed.

Lemma str_nonempty_truthy (s : string) : s <> "" -> str_truthy s = true.
Proof. destruct s; [congruence | reflexivity]. Qed.

(** C3.  For every raw record with a non-empty [product_id], whatever the
    two PIM lookups answer (a value, null, or a raised exception), the
    transform returns a record or [None] without raising, and a returned
    record has a non-empty [sku_id] and an MRP that is a float taken from the
    raw record, from the PIM lookup, or from [selling_price * 1.5]. *)
Theorem transform_fallback_guarantee (akeneo_service : AkeneoClient.t World)
    (raw : RawCampaignData.t) (w : World) :
  RawCampaignData.product_id raw <> "" ->
  exists res w',
    CampaignService.transform_to_falcon_format settings akeneo_service raw w = (Return res, w')
    /\ forall r, res = Some r ->
         FalconFormattedData.sku_id r <> ""
         /\ (RawCampaignData.MRP raw = Some (FalconFormattedData.MRP r)
             \/ (exists w1 w2,
                    AkeneoClient.get_product_mrp akeneo_service
                      (RawCampaignData.product_id raw) w1
                    = (Return (Some (FalconFormattedData.MRP r)), w2))
             \/ FalconFormattedData.MRP r
                = (RawCampaignData.selling_price raw * 1.5)%float).
Proof.
  intros Hpid.
  destruct (transform_returns settings akeneo_service raw w) as (res & w' & Hrun).
  exists res, w'. split; [exact Hrun |].
  intros r ->. revert Hrun. run_transform.
  set (pid := RawCampaignData.product_id raw) in *.
  assert (Hsku : forall (v : PyAny) (s : string),
             (if negb (truthy v) then PyStr pid else v) = PyStr s -> s <> "").
  { intros v s. destruct (truthy v) eqn:Hv; cbn.
    - intros ->. now apply str_truthy_nonempty.
    - now intros [= <-]. }
  assert (Hmrp : forall (o : option float) (m : float),
             (if negb (opt_float_truthy o)
              then Some (RawCampaignData.selling_price raw * 1.5)%float else o) = Some m ->
             o = Some m \/ m = (RawCampaignData.selling_price raw * 1.5)%float).
  { intros o m. destruct (opt_float_truthy o); cbn; [auto |]. intros [= <-]. auto. }
  destruct (negb (truthy (of_opt_str (RawCampaignData.preferred_landing_sku_id raw)))) eqn:Hpref.
  - destruct (AkeneoClient.get_product_sku_mapping akeneo_service pid w) as [[v | e] w1];
      [| discriminate].
    destruct (negb (opt_float_truthy (RawCampaignData.MRP raw))) eqn:Hraw.
    + destruct (AkeneoClient.get_product_mrp akeneo_service pid w1) as [[o | e] w2] eqn:Hlook;
        [| discriminate].
      destruct (if negb (truthy v) then PyStr pid else v) eqn:Hv; try discriminate.
      destruct (if negb (opt_float_truthy o) then _ else o) eqn:Ho; try discriminate.
      intros [= <- <-]. cbn. split; [eapply Hsku; eassumption |].
      apply Hmrp in Ho as [-> | ->]; eauto 6.
    + destruct (if negb (truthy v) then PyStr pid else v) eqn:Hv; try discriminate.
      destruct (if negb (opt_float_truthy (RawCampaignData.MRP raw)) then _ else _) eqn:Ho;
        try discriminate.
      intros [= <- <-]. cbn. split; [eapply Hsku; eassumption |].
      apply Hmrp in Ho as [-> | ->]; eauto.
  - set (v := of_opt_str (RawCampaignData.preferred_landing_sku_id raw)) in *.
    destruct (negb (opt_float_truthy (RawCampaignData.MRP raw))) eqn:Hraw.
    + destruct (AkeneoClient.get_product_mrp akeneo_service pid w) as [[o | e] w2] eqn:Hlook;
        [| discriminate].
      destruct (if negb (truthy v) then PyStr pid else v) eqn:Hv; try discriminate.
      destruct (if negb (opt_float_truthy o) then _ else o) eqn:Ho; try discriminate.
      intros [= <- <-]. cbn. split; [eapply Hsku; eassumption |].
      apply Hmrp in Ho as [-> | ->]; eauto 6.
    + destruct (if negb (truthy v) then PyStr pid else v) eqn:Hv; try discriminate.
      destruct (if negb (opt_float_truthy (RawCampaignData.MRP raw)) then _ else _) eqn:Ho;
        try discriminate.
      intros [= <- <-]. cbn. split; [eapply Hsku; eassumption |].
      apply Hmrp in Ho as [-> | ->]; eauto.
Qed.

(** C4, as the code has it.  When the raw record carries an MRP that is not
    zero, a returned record has exactly that MRP, and the MRP lookup of the
    PIM plays no part: replacing it by any other lookup changes neither the
    result nor the state the world is left in.  With a preferred landing SKU
    at hand the record is returned without any call to the PIM. *)
Theorem transform_keeps_raw_mrp (akeneo_service : AkeneoClient.t World)
    (raw : RawCampaignData.t) (m : float) :
  RawCampaignData.MRP raw = Some m ->
  float_truthy m = true ->
  (forall w r w',
      CampaignService.transform_to_falcon_format settings akeneo_service raw w
      = (Return (Some r), w') ->
      FalconFormattedData.MRP r = m)
  /\ (forall (other_mrp : string -> M World (option float)) w,
        CampaignService.transform_to_falcon_format settings
          (AkeneoClient.mk (AkeneoClient.get_product_sku_mapping akeneo_service) other_mrp)
          raw w
        = CampaignService.transform_to_falcon_format settings akeneo_service raw w)
  /\ (forall w s,
        RawCampaignData.preferred_landing_sku_id raw = Some s -> s <> "" ->
        CampaignService.transform_to_falcon_format settings akeneo_service raw w
        = (Return (Some (FalconFormattedData.mk s (RawCampaignData.product_id raw) m
                           (RawCampaignData.selling_price raw)
                           (RawCampaignData.selling_price raw)
                           (RawCampaignData.selling_price raw
                            * Config.DEFAULT_MOP_MULTIPLIER settings)%float
                           (RawCampaignData.selling_price raw)
                           (Config.DEFAULT_COINS settings))), w)).
Proof.
  intros Hraw Hm. split; [| split].
  - intros w r w'. run_transform. rewrite Hraw. cbn [opt_float_truthy]. rewrite Hm.
    cbn [negb].
    destruct (negb (truthy (of_opt_str (RawCampaignData.preferred_landing_sku_id raw)))).
    + destruct (AkeneoClient.get_product_sku_mapping akeneo_service _ w) as [[v | e] w1];
        [| discriminate].
      destruct (if negb (truthy v) then _ else v); try discriminate.
      cbn [opt_float_truthy]. rewrite Hm. cbn [negb]. now intros [= <- <-].
    + destruct (if negb (truthy _) then _ else _); try discriminate.
      cbn [opt_float_truthy]. rewrite Hm. cbn [negb]. now intros [= <- <-].
  - intros other_mrp w. run_transform. rewrite Hraw. cbn [opt_float_truthy]. rewrite Hm.
    reflexivity.
  - intros w s Hs Hne. run_transform. rewrite Hraw, Hs.
    repeat (progress (cbn [opt_float_truthy of_opt_str truthy negb];
                      rewrite ?Hm, ?(str_nonempty_truthy s Hne))).
    reflexivity.
Qed.

(** C2, as the code has it.  For the raw record with product id "P1",
    selling price 100.0, no MRP and no preferred landing SKU, when both PIM
    lookups answer null, the transform under the default settings returns
    the record with SKU "P1", MRP 150.0, MOP 100.0, selling price 100.0,
    selling price cost 100.0, 2000 coins, and as MOP cost the double
    product of 100.0 and 0.979, which is 97.89999999999999
    ([0x1.8799999999999p+6]), the double just below 97.9. *)
Theorem transform_p1_scenario (akeneo_service : AkeneoClient.t World)
    (raw : RawCampaignData.t) :
  RawCampaignData.product_id raw = "P1" ->
  RawCampaignData.selling_price raw = 100%float ->
  RawCampaignData.MRP raw = None ->
  RawCampaignData.preferred_landing_sku_id raw = None ->
  (forall w, exists w',
      AkeneoClient.get_product_sku_mapping akeneo_service "P1" w = (Return PyNone, w')) ->
  (forall w, exists w',
      AkeneoClient.get_product_mrp akeneo_service "P1" w = (Return None, w')) ->
  forall w, exists w',
    CampaignService.transform_to_falcon_format Config.settings akeneo_service raw w
    = (Return (Some (FalconFormattedData.mk "P1" "P1" 150%float 100%float 100%float
                       0x1.8799999999999p+6%float 100%float 2000)), w').
Proof.
  intros Hpid Hsp Hmrp Hpref Hsku Hlook w.
  destruct (Hsku w) as (w1 & H1). destruct (Hlook w1) as (w2 & H2).
  exists w2. run_transform. rewrite Hpid, Hsp, Hmrp, Hpref. cbn. rewrite H1. cbn.
  rewrite H2. cbn. reflexivity.
Qed.

End Transform.

Section TransformCases.

(** The scenario of C2 while the PIM is down. *)
Lemma transform_p1_scenario_witness :
  exists w',
    CampaignService.transform_to_falcon_format Config.settings Samples.pim_down
      Samples.raw_p1 tt
    = (Return (Some (FalconFormattedData.mk "P1" "P1" 150%float 100%float 100%float
                       0x1.8799999999999p+6%float 100%float 2000)), w').
Proof.
  apply (transform_p1_scenario Samples.pim_down Samples.raw_p1);
    try reflexivity; intros w; exists w; reflexivity.
Defined.

(** In the scenario of C2 the MOP cost is not the double that 97.9 denotes
    ([0x1.879999999999ap+6]) but the one just below it. *)
Lemma transform_p1_mop_cost_below_97_9 :
  CampaignService.transform_to_falcon_format Config.settings Samples.pim_down
    Samples.raw_p1 tt
  = (Return (Some (FalconFormattedData.mk "P1" "P1" 150%float 100%float 100%float
                     0x1.8799999999999p+6%float 100%float 2000)), tt)
  /\ PrimFloat.eqb 0x1.8799999999999p+6%float 0x1.879999999999ap+6%float = false
  /\ PrimFloat.ltb 0x1.8799999999999p+6%float 0x1.879999999999ap+6%float = true
  /\ PrimFloat.next_up 0x1.8799999999999p+6%float = 0x1.879999999999ap+6%float
  /\ 0x1.8799999999999p+6%float <> 0x1.879999999999ap+6%float
  /\ CampaignService.transform_to_falcon_format Config.settings Samples.pim_down
       Samples.raw_p1 tt
     <> (Return (Some (FalconFormattedData.mk "P1" "P1" 150%float 100%float 100%float
                         0x1.879999999999ap+6%float 100%float 2000)), tt).
Proof.
  assert (Hrun :
    CampaignService.transform_to_falcon_format Config.settings Samples.pim_down
      Samples.raw_p1 tt
    = (Return (Some (FalconFormattedData.mk "P1" "P1" 150%float 100%float 100%float
                       0x1.8799999999999p+6%float 100%float 2000)), tt))
    by (vm_compute; reflexivity).
  assert (Hne : 0x1.8799999999999p+6%float <> 0x1.879999999999ap+6%float).
  { intros H. apply (f_equal (fun v => PrimFloat.eqb v 0x1.879999999999ap+6%float)) in H.
    vm_compute in H. discriminate. }
  split; [exact Hrun |]. repeat (split; [vm_compute; reflexivity |]).
  split; [exact Hne |].
  rewrite Hrun. intros H. apply Hne.
  exact (f_equal (fun p : result (option FalconFormattedData.t) * unit =>
                    match p.1 with
                    | Return (Some r) => FalconFormattedData.mop_cost r
                    | _ => 0%float
                    end) H).
Qed.

(** C3 on the record P1 while the PIM is down: the fallbacks give the SKU
    "P1" and the MRP 150.0. *)
Lemma transform_fallback_guarantee_witness :
  exists r w',
    CampaignService.transform_to_falcon_format Config.settings Samples.pim_down
      Samples.raw_p1 tt = (Return (Some r), w')
    /\ FalconFormattedData.sku_id r = "P1"
    /\ FalconFormattedData.MRP r = 150%float
    /\ FalconFormattedData.sku_id r <> ""
    /\ (RawCampaignData.MRP Samples.raw_p1 = Some (FalconFormattedData.MRP r)
        \/ (exists w1 w2,
               AkeneoClient.get_product_mrp Samples.pim_down
                 (RawCampaignData.product_id Samples.raw_p1) w1
               = (Return (Some (FalconFormattedData.MRP r)), w2))
        \/ FalconFormattedData.MRP r
           = (RawCampaignData.selling_price Samples.raw_p1 * 1.5)%float).
Proof.
  destruct (transform_fallback_guarantee Config.settings Samples.pim_down Samples.raw_p1 tt)
    as (res & w' & Hrun & Hres); [discriminate |].
  vm_compute in Hrun. injection Hrun as <- <-.
  eexists _, _. split; [vm_compute; reflexivity |].
  split; [reflexivity |]. split; [reflexivity |]. apply Hres. reflexivity.
Defined.

(** A raw MRP of 120.0 is kept although the PIM knows 200.0. *)
Lemma transform_keeps_raw_mrp_witness :
  CampaignService.transform_to_falcon_format Config.settings Samples.pim_mrp_200
    (Samples.raw_with "DOD" "01/06/2025" "30/06/2025" "P1" 100%float (Some 120%float)) tt
  = (Return (Some (FalconFormattedData.mk "P1" "P1" 120%float 100%float 100%float
                     0x1.8799999999999p+6%float 100%float 2000)), tt)
  /\ forall r w',
       CampaignService.transform_to_falcon_format Config.settings Samples.pim_mrp_200
         (Samples.raw_with "DOD" "01/06/2025" "30/06/2025" "P1" 100%float (Some 120%float)) tt
       = (Return (Some r), w') ->
       FalconFormattedData.MRP r = 120%float.
Proof.
  destruct (transform_keeps_raw_mrp Config.settings Samples.pim_mrp_200
              (Samples.raw_with "DOD" "01/06/2025" "30/06/2025" "P1" 100%float (Some 120%float))
              120%float eq_refl eq_refl) as (Hkeep & _ & _).
  split; [vm_compute; reflexivity |]. intros r w'. apply Hkeep.
Defined.

(** A raw MRP of 0.0 is present, yet the transform asks the PIM and returns
    its 200.0. *)
Lemma transform_zero_mrp_is_replaced :
  RawCampaignData.MRP
    (Samples.raw_with "DOD" "01/06/2025" "30/06/2025" "P1" 100%float (Some 0%float))
  = Some 0%float
  /\ CampaignService.transform_to_falcon_format Config.settings Samples.pim_mrp_200
       (Samples.raw_with "DOD" "01/06/2025" "30/06/2025" "P1" 100%float (Some 0%float)) tt
     = (Return (Some (FalconFormattedData.mk "P1" "P1" 200%float 100%float 100%float
                        0x1.8799999999999p+6%float 100%float 2000)), tt)
  /\ PrimFloat.eqb 200%float 0%float = false
  /\ 200%float <> 0%float.
Proof.
  split; [reflexivity |]. split; [vm_compute; reflexivity |]. split; [reflexivity |].
  intros H. apply (f_equal (fun v => PrimFloat.eqb v 0%float)) in H.
  vm_compute in H. discriminate.
Qed.

End TransformCases.

(** *** The PIM client *)

Section PimClient.
Context {World : Type}.
Variable float_of_str : string -> option float.
Variable get_product : string -> M World ProductDetails.t.

Ltac run_lookup :=
  unfold AkeneoService.get_product_sku_mapping, AkeneoService.get_product_mrp,
    mtry_except, mbind, ret, lift.

(** C5, as the code has it.  [get_product_sku_mapping] never raises.  When
    the product fetch fails it returns null.  When the fetch succeeds it
    returns the data of the first value of the [sku] attribute, as the PIM
    stored it, if the attribute is present with a non-empty list of values,
    and the literal product id otherwise.  So the result is null exactly
    when the fetch failed or that stored data is itself null. *)
Theorem get_product_sku_mapping_spec (product_id : string) (w : World) :
  (exists v w',
      AkeneoService.get_product_sku_mapping get_product product_id w = (Return v, w'))
  /\ match get_product product_id w with
     | (Raise _, w') =>
         AkeneoService.get_product_sku_mapping get_product product_id w
         = (Return PyNone, w')
     | (Return product, w') =>
         AkeneoService.get_product_sku_mapping get_product product_id w
         = (Return (match ProductDetails.values product !! "sku" with
                    | Some (v :: _) => Value.data v
                    | _ => PyStr product_id
                    end), w')
     end
  /\ ((AkeneoService.get_product_sku_mapping get_product product_id w).1 = Return PyNone
      <-> ((exists e, (get_product product_id w).1 = Raise e)
           \/ (exists product v rest,
                  (get_product product_id w).1 = Return product
                  /\ ProductDetails.values product !! "sku" = Some (v :: rest)
                  /\ Value.data v = PyNone))).
Proof.
  assert (Hshape :
    match get_product product_id w with
    | (Raise _, w') =>
        AkeneoService.get_product_sku_mapping get_product product_id w
        = (Return PyNone, w')
    | (Return product, w') =>
        AkeneoService.get_product_sku_mapping get_product product_id w
        = (Return (match ProductDetails.values product !! "sku" with
                   | Some (v :: _) => Value.data v
                   | _ => PyStr product_id
                   end), w')
    end).
  { run_lookup. destruct (get_product product_id w) as [[product | e] w']; [| reflexivity].
    unfold AkeneoService.has_values, dict_contains, dict_getitem, list_getitem, bind.
    destruct (ProductDetails.values product !! "sku") as [[| v l] |]; reflexivity. }
  split; [| split; [exact Hshape |]].
  - destruct (get_product product_id w) as [[product | e] w']; rewrite Hshape; eauto.
  - destruct (get_product product_id w) as [[product | e] w']; rewrite Hshape; cbn.
    + split.
      * intros H. right.
        destruct (ProductDetails.values product !! "sku") as [[| v l] |] eqn:Hsku;
          try discriminate.
        injection H as H. eauto 6.
      * intros [[e He] | (p & v & rest & [= <-] & Hsku & Hd)]; [discriminate |].
        now rewrite Hsku, Hd.
    + split; [eauto | reflexivity].
Qed.

(** The loop of the MRP lookup settles on the first present, non-null data
    and converts it. *)
Lemma mrp_loop_spec (values : gmap string (list Value.t)) (attrs : list string) :
  AkeneoService.mrp_loop float_of_str values attrs
  = match Spec.first_data values attrs with
    | None => Return None
    | Some d => let* f := py_float float_of_str d in Return (Some f)
    end.
Proof.
  induction attrs as [| attr rest IH]; [reflexivity |].
  cbn [AkeneoService.mrp_loop Spec.first_data].
  unfold AkeneoService.has_values, dict_contains, dict_getitem, list_getitem, bind.
  destruct (values !! attr) as [[| v l] |]; [exact IH | | exact IH].
  cbn. destruct (Value.data v); try reflexivity. exact IH.
Qed.

(** C6, as the code has it.  [get_product_mrp] never raises.  It goes
    through the codes mrp, MRP, maximum_retail_price, list_price in that
    order and settles on the first one that is present with a non-empty list
    of values whose first value carries non-null data.  It returns that data
    converted by [float]: the number itself for a JSON number within the
    range of a double.  It returns null when no code has such data, when the
    product fetch fails, and when the data it settled on does not convert;
    it does not go on to later codes then. *)
Theorem get_product_mrp_spec (product_id : string) (w : World) :
  AkeneoService.mrp_attributes = ["mrp"; "MRP"; "maximum_retail_price"; "list_price"]
  /\ (exists r w',
         AkeneoService.get_product_mrp float_of_str get_product product_id w
         = (Return r, w'))
  /\ match get_product product_id w with
     | (Raise _, w') =>
         AkeneoService.get_product_mrp float_of_str get_product product_id w
         = (Return None, w')
     | (Return product, w') =>
         AkeneoService.get_product_mrp float_of_str get_product product_id w
         = (Return
              (match Spec.first_data (ProductDetails.values product)
                       AkeneoService.mrp_attributes with
               | None => None
               | Some (PyFloat f) => Some f
               | Some d =>
                   match py_float float_of_str d with
                   | Return f => Some f
                   | Raise _ => None
                   end
               end), w')
     end.
Proof.
  assert (Hshape :
    match get_product product_id w with
    | (Raise _, w') =>
        AkeneoService.get_product_mrp float_of_str get_product product_id w
        = (Return None, w')
    | (Return product, w') =>
        AkeneoService.get_product_mrp float_of_str get_product product_id w
        = (Return
             (match Spec.first_data (ProductDetails.values product)
                      AkeneoService.mrp_attributes with
              | None => None
              | Some (PyFloat f) => Some f
              | Some d =>
                  match py_float float_of_str d with
                  | Return f => Some f
                  | Raise _ => None
                  end
              end), w')
    end).
  { run_lookup. destruct (get_product product_id w) as [[product | e] w']; [| reflexivity].
    rewrite mrp_loop_spec.
    destruct (Spec.first_data (ProductDetails.values product) AkeneoService.mrp_attributes)
      as [d |]; [| reflexivity].
    destruct d; cbn; try reflexivity.
    - destruct (float_of_int n); reflexivity.
    - destruct (float_of_str s); reflexivity. }
  split; [reflexivity |]. split; [| exact Hshape].
  destruct (get_product product_id w) as [[product | e] w']; rewrite Hshape; eauto.
Qed.

End PimClient.

Section PimClientCases.

(** The fetch succeeds, the [sku] attribute holds one value without data,
    and the SKU lookup returns null. *)
Lemma get_product_sku_mapping_null_data :
  Samples.fetch Samples.product_null_sku "P1" tt = (Return Samples.product_null_sku, tt)
  /\ ProductDetails.values Samples.product_null_sku !! "sku"
     = Some [Samples.value_of PyNone]
  /\ AkeneoService.get_product_sku_mapping (Samples.fetch Samples.product_null_sku) "P1" tt
     = (Return PyNone, tt).
Proof. split; [reflexivity |]. split; vm_compute; reflexivity. Qed.

(** The [mrp] attribute holds a price collection and the [MRP] attribute the
    number 150.0: the first present, non-null, numeric value is 150.0, and
    the MRP lookup returns null. *)
Lemma get_product_mrp_stops_at_first_data :
  Samples.fetch Samples.product_price_collection "P1" tt
  = (Return Samples.product_price_collection, tt)
  /\ Spec.first_numeric (ProductDetails.values Samples.product_price_collection)
       AkeneoService.mrp_attributes = Some 150%float
  /\ AkeneoService.get_product_mrp Samples.no_numeric_str
       (Samples.fetch Samples.product_price_collection) "P1" tt
     = (Return None, tt).
Proof. split; [reflexivity |]. split; vm_compute; reflexivity. Qed.

End PimClientCases.

(** *** More on the transform engine *)

Section TransformAnatomy.
Context {World : Type}.
Variable settings : Config.Settings.
Variable akeneo_service : AkeneoClient.t World.

Local Abbreviation transform :=
  (CampaignService.transform_to_falcon_format settings akeneo_service).

(** The record the transform builds from a resolved SKU and a resolved MRP. *)
Local Abbreviation built raw s m :=
  (FalconFormattedData.mk s (RawCampaignData.product_id raw) m
     (RawCampaignData.selling_price raw) (RawCampaignData.selling_price raw)
     (PrimFloat.mul (RawCampaignData.selling_price raw)
        (Config.DEFAULT_MOP_MULTIPLIER settings))
     (RawCampaignData.selling_price raw) (Config.DEFAULT_COINS settings)).

(** The transform returns a record exactly along one path: the SKU stage
    leaves a value [v] (the preferred SKU, or the PIM's answer), the MRP stage
    leaves [o] (the raw MRP, or the PIM's answer), the two fallbacks turn
    them into a string [s] and a float [m], and the record is built from
    these. *)
Lemma transform_some_iff (raw : RawCampaignData.t) (w w' : World)
    (r : FalconFormattedData.t) :
  transform raw w = (Return (Some r), w')
  <-> exists (v : PyAny) (o : option float) (w1 : World) (s : string) (m : float),
        (if negb (truthy (of_opt_str (RawCampaignData.preferred_landing_sku_id raw)))
         then AkeneoClient.get_product_sku_mapping akeneo_service
                (RawCampaignData.product_id raw) w = (Return v, w1)
         else v = of_opt_str (RawCampaignData.preferred_landing_sku_id raw) /\ w1 = w)
        /\ (if negb (opt_float_truthy (RawCampaignData.MRP raw))
            then AkeneoClient.get_product_mrp akeneo_service
                   (RawCampaignData.product_id raw) w1 = (Return o, w')
            else o = RawCampaignData.MRP raw /\ w' = w1)
        /\ (if negb (truthy v) then PyStr (RawCampaignData.product_id raw) else v) = PyStr s
        /\ (if negb (opt_float_truthy o)
            then Some (RawCampaignData.selling_price raw * 1.5)%float else o) = Some m
        /\ r = built raw s m.
Proof.
  unfold CampaignService.transform_to_falcon_format, mtry_except, mbind, ret, lift,
    FalconFormattedData.new.
  set (pid := RawCampaignData.product_id raw).
  set (pref := of_opt_str (RawCampaignData.preferred_landing_sku_id raw)).
  split.
  - destruct (negb (truthy pref)) eqn:Hpref.
    + destruct (AkeneoClient.get_product_sku_mapping akeneo_service pid w)
        as [[v | e] w1] eqn:Hsku; [| discriminate].
      destruct (negb (opt_float_truthy (RawCampaignData.MRP raw))) eqn:Hraw.
      * destruct (AkeneoClient.get_product_mrp akeneo_service pid w1)
          as [[o | e] w2] eqn:Hlook; [| discriminate].
        destruct (if negb (truthy v) then PyStr pid else v) eqn:Hv; try discriminate.
        destruct (if negb (opt_float_truthy o) then _ else o) eqn:Ho; try discriminate.
        intros [= <- <-]. exists v, o, w1, s, f. rewrite Hv, Ho. auto.
      * destruct (if negb (truthy v) then PyStr pid else v) eqn:Hv; try discriminate.
        destruct (if negb (opt_float_truthy (RawCampaignData.MRP raw)) then _ else _) eqn:Ho;
          try discriminate.
        intros [= <- <-]. exists v, (RawCampaignData.MRP raw), w1, s, f.
        rewrite Hv, Ho. auto.
    + destruct (negb (opt_float_truthy (RawCampaignData.MRP raw))) eqn:Hraw.
      * destruct (AkeneoClient.get_product_mrp akeneo_service pid w)
          as [[o | e] w2] eqn:Hlook; [| discriminate].
        destruct (if negb (truthy pref) then PyStr pid else pref) eqn:Hv; try discriminate.
        destruct (if negb (opt_float_truthy o) then _ else o) eqn:Ho; try discriminate.
        intros [= <- <-]. exists pref, o, w, s, f. rewrite Hv, Ho. auto.
      * destruct (if negb (truthy pref) then PyStr pid else pref) eqn:Hv; try discriminate.
        destruct (if negb (opt_float_truthy (RawCampaignData.MRP raw)) then _ else _) eqn:Ho;
          try discriminate.
        intros [= <- <-]. exists pref, (RawCampaignData.MRP raw), w, s, f.
        rewrite Hv, Ho. auto.
  - intros (v & o & w1 & s & m & Hsku & Hmrp & Hv & Ho & ->).
    destruct (negb (truthy pref)) eqn:Hpref.
    + rewrite Hsku.
      destruct (negb (opt_float_truthy (RawCampaignData.MRP raw))) eqn:Hraw.
      * rewrite Hmrp, Hv, Ho. reflexivity.
      * destruct Hmrp as [-> ->]. rewrite Hv, Hraw in *. rewrite Ho. reflexivity.
    + destruct Hsku as [-> ->].
      destruct (negb (opt_float_truthy (RawCampaignData.MRP raw))) eqn:Hraw.
      * rewrite Hmrp, Hv, Ho. reflexivity.
      * destruct Hmrp as [-> ->]. rewrite Hv, Hraw in *. rewrite Ho. reflexivity.
Qed.

(** X1.  Whatever the PIM answers, a record returned by the transform
    carries the raw record's product id and selling price, has MOP and
    selling price cost equal to the selling price, MOP cost equal to the
    selling price times the configured multiplier, and the configured
    number of coins. *)
Theorem transform_pricing_fields (raw : RawCampaignData.t) (w w' : World)
    (r : FalconFormattedData.t) :
  transform raw w = (Return (Some r), w') ->
  FalconFormattedData.product_id r = RawCampaignData.product_id raw
  /\ FalconFormattedData.selling_price r = RawCampaignData.selling_price raw
  /\ FalconFormattedData.MOP r = RawCampaignData.selling_price raw
  /\ FalconFormattedData.selling_price_cost r = RawCampaignData.selling_price raw
  /\ FalconFormattedData.mop_cost r
     = (RawCampaignData.selling_price raw * Config.DEFAULT_MOP_MULTIPLIER settings)%float
  /\ FalconFormattedData.coins r = Config.DEFAULT_COINS settings.
Proof.
  intros H. apply transform_some_iff in H as (v & o & w1 & s & m & _ & _ & _ & _ & ->).
  cbn. auto 7.
Qed.

(** X2.  A non-empty preferred landing SKU wins: a returned record has it
    as SKU id, and the SKU lookup of the PIM is not consulted (any other
    lookup in its place gives the same result and leaves the same world). *)
Theorem transform_prefers_landing_sku (raw : RawCampaignData.t) (s : string) :
  RawCampaignData.preferred_landing_sku_id raw = Some s ->
  s <> "" ->
  (forall w r w', transform raw w = (Return (Some r), w') ->
                  FalconFormattedData.sku_id r = s)
  /\ (forall (other_sku : string -> M World PyAny) w,
        CampaignService.transform_to_falcon_format settings
          (AkeneoClient.mk other_sku (AkeneoClient.get_product_mrp akeneo_service)) raw w
        = transform raw w).
Proof.
  intros Hpref Hne. split.
  - intros w r w' H.
    apply transform_some_iff in H as (v & o & w1 & s' & m & Hsku & _ & Hv & _ & ->).
    rewrite Hpref in Hsku. cbn in Hsku. rewrite (str_nonempty_truthy s Hne) in Hsku.
    cbn in Hsku. destruct Hsku as [-> _]. cbn in Hv.
    rewrite (str_nonempty_truthy s Hne) in Hv. cbn in Hv. now injection Hv as <-.
  - intros other_sku w.
    unfold CampaignService.transform_to_falcon_format, mtry_except, mbind, ret, lift.
    rewrite Hpref. cbn [of_opt_str truthy]. rewrite (str_nonempty_truthy s Hne).
    reflexivity.
Qed.

(** X3.  With no usable MRP on the raw record (absent or zero), the MRP of
    a returned record is the PIM's answer when that is a non-zero number,
    and [selling_price * 1.5] when the PIM answers null or zero. *)
Theorem transform_mrp_from_pim (raw : RawCampaignData.t) (o : option float) :
  opt_float_truthy (RawCampaignData.MRP raw) = false ->
  (forall w, exists w',
      AkeneoClient.get_product_mrp akeneo_service (RawCampaignData.product_id raw) w
      = (Return o, w')) ->
  forall w r w',
    transform raw w = (Return (Some r), w') ->
    FalconFormattedData.MRP r
    = match o with
      | Some m => if float_truthy m then m
                  else (RawCampaignData.selling_price raw * 1.5)%float
      | None => (RawCampaignData.selling_price raw * 1.5)%float
      end.
Proof.
  intros Hraw Hlook w r w' H.
  apply transform_some_iff in H as (v & o' & w1 & s & m & _ & Hmrp & _ & Ho & ->).
  rewrite Hraw in Hmrp. cbn in Hmrp.
  destruct (Hlook w1) as (w2 & Hw). rewrite Hw in Hmrp. injection Hmrp as <- _.
  cbn. destruct o as [m' |]; cbn in Ho.
  - destruct (float_truthy m'); cbn in Ho; congruence.
  - congruence.
Qed.

(** X7.  When there is no preferred SKU and the PIM's SKU payload is a
    non-empty list or object, the record cannot be built: the transform
    returns [None] and does not raise. *)
Theorem transform_rejects_container_sku (raw : RawCampaignData.t) (v : PyAny) :
  truthy (of_opt_str (RawCampaignData.preferred_landing_sku_id raw)) = false ->
  (exists x l, v = PyList (x :: l)) \/ (exists x d, v = PyDict (x :: d)) ->
  forall w w1,
    AkeneoClient.get_product_sku_mapping akeneo_service (RawCampaignData.product_id raw) w
    = (Return v, w1) ->
    exists w', transform raw w = (Return None, w').
Proof.
  intros Hpref Hv w w1 Hsku.
  unfold CampaignService.transform_to_falcon_format, mtry_except, mbind, ret, lift,
    FalconFormattedData.new.
  rewrite Hpref. cbn [negb]. rewrite Hsku.
  destruct (negb (opt_float_truthy (RawCampaignData.MRP raw))).
  - destruct (AkeneoClient.get_product_mrp akeneo_service _ w1) as [[o | e] w2]; [| eauto].
    destruct Hv as [(x & l & ->) | (x & d & ->)]; cbn; eauto.
  - destruct Hv as [(x & l & ->) | (x & d & ->)]; cbn; eauto.
Qed.

End TransformAnatomy.

(** *** More on the batch processor *)

Section BatchAnatomy.
Context {World : Type}.
Variable settings : Config.Settings.
Variable akeneo_service : AkeneoClient.t World.
Variable datetime_now : World -> Datetime.datetime * World.

Local Abbreviation transform :=
  (CampaignService.transform_to_falcon_format settings akeneo_service).
Local Abbreviation process_loop :=
  (CampaignService.process_loop settings akeneo_service datetime_now).
Local Abbreviation process :=
  (CampaignService.process_campaign_data settings akeneo_service datetime_now).

(** A pair whose formatted half was derived from its raw half. *)
Local Abbreviation paired p :=
  (FalconFormattedData.product_id (ProcessedCampaignData.falcon_data p)
   = RawCampaignData.product_id (ProcessedCampaignData.raw_data p)
   /\ FalconFormattedData.selling_price (ProcessedCampaignData.falcon_data p)
      = RawCampaignData.selling_price (ProcessedCampaignData.raw_data p)).

(** What one run of the loop adds to [processed_campaigns]: pairs of the
    input records, in input order, each formatted from its own raw record;
    every record without a pair adds one to [failed_count]. *)
Lemma process_loop_adds (raw_campaigns : list RawCampaignData.t) :
  forall processed failed w,
  exists added failed' w',
    process_loop raw_campaigns processed failed w
    = (Return (processed ++ added, failed'), w')
    /\ sublist (map ProcessedCampaignData.raw_data added) raw_campaigns
    /\ Forall (fun p => paired p) added
    /\ (failed' = failed + Z.of_nat (length raw_campaigns) - Z.of_nat (length added))%Z.
Proof.
  induction raw_campaigns as [| raw rest IH]; intros processed failed w.
  - exists [], failed, w. rewrite app_nil_r. cbn.
    repeat split; [constructor | constructor | lia].
  - cbn [CampaignService.process_loop].
    destruct (transform_returns settings akeneo_service raw w) as (res & w1 & Ht).
    unfold mbind at 1, mtry_except at 1, mbind at 1. rewrite Ht.
    destruct res as [fd |].
    + unfold CampaignService.new_processed, CampaignService.now, mbind, ret. cbn.
      set (p := ProcessedCampaignData.mk raw fd (datetime_now w1).1).
      destruct (IH (processed ++ [p]) failed (datetime_now w1).2)
        as (added & f' & w' & Hl & Hsub & Hall & Hf).
      exists (p :: added), f', w'. split; [| split; [| split]].
      * rewrite Hl. now rewrite <- app_assoc.
      * cbn. now constructor.
      * constructor; [| exact Hall].
        apply transform_some_iff in Ht as (v & o & w2 & s & m & _ & _ & _ & _ & ->).
        cbn. auto.
      * cbn [length]. lia.
    + unfold ret. cbn.
      destruct (IH processed (failed + 1)%Z w1) as (added & f' & w' & Hl & Hsub & Hall & Hf).
      exists added, f', w'. split; [exact Hl |]. split; [now constructor |].
      split; [exact Hall |]. cbn [length]. lia.
Qed.

(** X5.  The successes of a batch keep the input order: the raw halves of
    the returned pairs form a subsequence of the input, every pair's
    formatted half carries the product id and selling price of its own raw
    half, and [failed_count] is the number of input records without a pair. *)
Theorem process_campaign_data_order (raw_campaigns : list RawCampaignData.t) (w : World) :
  exists resp w',
    process raw_campaigns w = (Return resp, w')
    /\ sublist (map ProcessedCampaignData.raw_data (CampaignResponse.campaigns resp))
         raw_campaigns
    /\ Forall (fun p => paired p) (CampaignResponse.campaigns resp)
    /\ (CampaignResponse.failed_count resp
        = Z.of_nat (length raw_campaigns)
          - Z.of_nat (length (CampaignResponse.campaigns resp)))%Z
    /\ CampaignResponse.filters_applied resp = None.
Proof.
  destruct (process_loop_adds raw_campaigns [] 0%Z w)
    as (added & f' & w' & Hl & Hsub & Hall & Hf).
  unfold CampaignService.process_campaign_data, mbind. rewrite Hl.
  eexists _, _. split; [reflexivity |]. cbn. repeat split; auto; lia.
Qed.

(** When the transform returns a record for every record of the input, in
    every state of the world, the loop pairs them all. *)
Lemma process_loop_all_succeed (raw_campaigns : list RawCampaignData.t) :
  (forall raw w, In raw raw_campaigns ->
     exists r w', transform raw w = (Return (Some r), w')) ->
  forall processed failed w,
  exists added w',
    process_loop raw_campaigns processed failed w
    = (Return (processed ++ added, failed), w')
    /\ map ProcessedCampaignData.raw_data added = raw_campaigns.
Proof.
  induction raw_campaigns as [| raw rest IH]; intros Hall processed failed w.
  - exists [], w. now rewrite app_nil_r.
  - cbn [CampaignService.process_loop].
    destruct (Hall raw w (or_introl eq_refl)) as (r & w1 & Ht).
    unfold mbind at 1, mtry_except at 1, mbind at 1. rewrite Ht.
    unfold CampaignService.new_processed, CampaignService.now, mbind, ret. cbn.
    set (p := ProcessedCampaignData.mk raw r (datetime_now w1).1).
    destruct (IH (fun raw' w' Hin => Hall raw' w' (or_intror Hin))
                (processed ++ [p]) failed (datetime_now w1).2) as (added & w' & Hl & Hmap).
    exists (p :: added), w'. split.
    + rewrite Hl. now rewrite <- app_assoc.
    + cbn. now rewrite Hmap.
Qed.

End BatchAnatomy.

(** *** The pipeline while the PIM is down *)

Section PimOutage.
Context {World : Type}.
Variable settings : Config.Settings.
Variable float_of_str : string -> option float.
Variable get_product : string -> M World ProductDetails.t.
Variable datetime_now : World -> Datetime.datetime * World.

(** Every product fetch fails. *)
Hypothesis pim_down :
  forall product_id w, exists e w', get_product product_id w = (Raise e, w').

Local Abbreviation service := (AkeneoService.client float_of_str get_product).

(** The SKU the transform falls back to without the PIM. *)
Local Abbreviation sku_without_pim raw :=
  (match RawCampaignData.preferred_landing_sku_id raw with
   | Some s => if str_truthy s then s else RawCampaignData.product_id raw
   | None => RawCampaignData.product_id raw
   end).

(** The MRP the transform falls back to without the PIM. *)
Local Abbreviation mrp_without_pim raw :=
  (match RawCampaignData.MRP raw with
   | Some m => if float_truthy m then m
               else PrimFloat.mul (RawCampaignData.selling_price raw) 1.5%float
   | None => PrimFloat.mul (RawCampaignData.selling_price raw) 1.5%float
   end).

Lemma transform_during_outage (raw : RawCampaignData.t) (w : World) :
  exists w',
    CampaignService.transform_to_falcon_format settings service raw w
    = (Return (Some (FalconFormattedData.mk (sku_without_pim raw)
                       (RawCampaignData.product_id raw) (mrp_without_pim raw)
                       (RawCampaignData.selling_price raw)
                       (RawCampaignData.selling_price raw)
                       (RawCampaignData.selling_price raw
                        * Config.DEFAULT_MOP_MULTIPLIER settings)%float
                       (RawCampaignData.selling_price raw)
                       (Config.DEFAULT_COINS settings))), w').
Proof.
  assert (Hsku : forall pid w0, exists w1,
             AkeneoService.get_product_sku_mapping get_product pid w0 = (Return PyNone, w1)).
  { intros pid w0. destruct (pim_down pid w0) as (e & w1 & Hf). exists w1.
    unfold AkeneoService.get_product_sku_mapping, mtry_except, mbind. now rewrite Hf. }
  assert (Hmrp : forall pid w0, exists w1,
             AkeneoService.get_product_mrp float_of_str get_product pid w0
             = (Return None, w1)).
  { intros pid w0. destruct (pim_down pid w0) as (e & w1 & Hf). exists w1.
    unfold AkeneoService.get_product_mrp, mtry_except, mbind. now rewrite Hf. }
  unfold CampaignService.transform_to_falcon_format, mtry_except, mbind, ret, lift,
    FalconFormattedData.new, AkeneoService.client.
  cbn [AkeneoClient.get_product_sku_mapping AkeneoClient.get_product_mrp].
  destruct (RawCampaignData.preferred_landing_sku_id raw) as [s |];
    cbn [of_opt_str truthy]; [destruct (str_truthy s) eqn:Hs |]; cbn [negb].
  all: try (destruct (Hsku (RawCampaignData.product_id raw) w) as (w1 & ->); cbn [truthy negb]).
  all: destruct (RawCampaignData.MRP raw) as [m |];
    cbn [opt_float_truthy]; [destruct (float_truthy m) eqn:Hm |]; cbn [negb].
  all: try match goal with
           | |- context [AkeneoService.get_product_mrp _ _ ?pid ?w0] =>
               destruct (Hmrp pid w0) as (w2 & ->)
           end.
  all: cbn [truthy opt_float_truthy negb]; rewrite ?Hs, ?Hm; cbn [negb]; eauto.
Qed.

(** X4.  A PIM outage degrades the transform to its fallbacks and never to
    a failure: with the service's own lookups over a product fetch that
    always fails, the transform returns the record whose SKU id is the
    non-empty preferred landing SKU or else the product id, and whose MRP is
    the non-zero raw MRP or else [selling_price * 1.5]. *)
Theorem transform_survives_pim_outage (raw : RawCampaignData.t) (w : World) :
  exists r w',
    CampaignService.transform_to_falcon_format settings service raw w
    = (Return (Some r), w')
    /\ FalconFormattedData.sku_id r = sku_without_pim raw
    /\ FalconFormattedData.MRP r = mrp_without_pim raw
    /\ FalconFormattedData.product_id r = RawCampaignData.product_id raw.
Proof.
  destruct (transform_during_outage raw w) as (w' & H).
  eexists _, w'. split; [exact H |]. cbn. auto.
Qed.

(** X6.  During a PIM outage a batch loses nothing: every input record is
    paired, in input order, and [failed_count] is zero. *)
Theorem process_campaign_data_pim_outage (raw_campaigns : list RawCampaignData.t)
    (w : World) :
  exists resp w',
    CampaignService.process_campaign_data settings service datetime_now raw_campaigns w
    = (Return resp, w')
    /\ map ProcessedCampaignData.raw_data (CampaignResponse.campaigns resp) = raw_campaigns
    /\ CampaignResponse.failed_count resp = 0%Z
    /\ CampaignResponse.processed_count resp = Z.of_nat (length raw_campaigns).
Proof.
  destruct (process_loop_all_succeed settings service datetime_now raw_campaigns
              (fun raw w0 _ =>
                 let (w1, H) := transform_during_outage raw w0 in
                 ex_intro _ _ (ex_intro _ w1 H)) [] 0%Z w)
    as (added & w' & Hl & Hmap).
  unfold CampaignService.process_campaign_data, mbind. rewrite Hl.
  eexists _, _. split; [reflexivity |]. cbn. split; [exact Hmap |]. split; [reflexivity |].
  now rewrite <- Hmap, length_map.
Qed.

End PimOutage.

(** *** More on the validator *)

Section ValidatorAnatomy.

Lemma strptime_nonempty (s : string) (t : Datetime.datetime) :
  Datetime.strptime s = Return t -> str_truthy s = true.
Proof. destruct s; [discriminate | reflexivity]. Qed.

(** X8.  A raw record is valid (the validator returns the empty list)
    exactly when its product id is non-empty, its selling price is a
    non-zero number that is not below zero, both dates parse under
    DD/MM/YYYY, and the end date is strictly after the live date. *)
Theorem validate_valid_iff (raw : RawCampaignData.t) :
  CampaignService.validate_campaign_data raw = Return []
  <-> (RawCampaignData.product_id raw <> ""
       /\ float_truthy (RawCampaignData.selling_price raw) = true
       /\ PrimFloat.leb (RawCampaignData.selling_price raw) 0%float = false
       /\ exists live_date end_date,
            Datetime.strptime (RawCampaignData.live_date raw) = Return live_date
            /\ Datetime.strptime (RawCampaignData.end_date raw) = Return end_date
            /\ Datetime.leb end_date live_date = false).
Proof.
  unfold CampaignService.validate_campaign_data.
  assert (Hpid : RawCampaignData.product_id raw <> ""
                 <-> str_truthy (RawCampaignData.product_id raw) = true).
  { split; [apply str_nonempty_truthy | apply str_truthy_nonempty]. }
  rewrite Hpid. clear Hpid.
  destruct (Datetime.strptime (RawCampaignData.live_date raw)) as [l | e1] eqn:Hl.
  - rewrite (strptime_nonempty _ _ Hl).
    destruct (Datetime.strptime (RawCampaignData.end_date raw)) as [e | e2] eqn:He.
    + rewrite (strptime_nonempty _ _ He). cbn [bind try_except_ValueError].
      destruct (str_truthy (RawCampaignData.product_id raw)),
        (float_truthy (RawCampaignData.selling_price raw)),
        (PrimFloat.leb (RawCampaignData.selling_price raw) 0),
        (Datetime.leb e l) eqn:Hle; cbn; split;
        try discriminate; try (intros (? & ? & ? & _); discriminate).
      * intros (_ & _ & _ & l' & e' & [= <-] & [= <-] & H). congruence.
      * intros _. repeat split. eauto.
      * reflexivity.
    + apply strptime_raises in He; subst e2. cbn [bind try_except_ValueError is_ValueError].
      split.
      * destruct (str_truthy (RawCampaignData.product_id raw)),
          (float_truthy (RawCampaignData.selling_price raw)),
          (PrimFloat.leb (RawCampaignData.selling_price raw) 0),
          (str_truthy (RawCampaignData.end_date raw)); cbn; discriminate.
      * intros (_ & _ & _ & l' & e' & _ & H & _). discriminate.
  - apply strptime_raises in Hl; subst e1. cbn [bind try_except_ValueError is_ValueError].
    split.
    + destruct (str_truthy (RawCampaignData.product_id raw)),
        (float_truthy (RawCampaignData.selling_price raw)),
        (PrimFloat.leb (RawCampaignData.selling_price raw) 0),
        (str_truthy (RawCampaignData.live_date raw)),
        (str_truthy (RawCampaignData.end_date raw)); cbn; discriminate.
    + intros (_ & _ & _ & l' & e' & H & _). discriminate.
Qed.

(** The validator's list is the required-field errors followed by at most
    one date error. *)
Lemma validate_shape (raw : RawCampaignData.t) :
  exists required,
    CampaignService.validate_campaign_data raw
    = Return (required
              ++ match Datetime.strptime (RawCampaignData.live_date raw),
                       Datetime.strptime (RawCampaignData.end_date raw) with
                 | Return live_date, Return end_date =>
                     if Datetime.leb end_date live_date
                     then ["End date must be after live date"] else []
                 | _, _ => ["Invalid date format. Expected DD/MM/YYYY"]
                 end)
    /\ (forall x, In x required ->
          x = "Product ID is required" \/ x = "Valid selling price is required"
          \/ x = "Live date is required" \/ x = "End date is required")
    /\ (length required <= 4)%nat.
Proof.
  unfold CampaignService.validate_campaign_data.
  match goal with
  | |- context [try_except_ValueError _ (Return (?errs ++ _))] => exists errs
  end.
  split; [| split].
  - destruct (Datetime.strptime (RawCampaignData.live_date raw)) as [l | e1] eqn:Hl.
    + destruct (Datetime.strptime (RawCampaignData.end_date raw)) as [e | e2] eqn:He.
      * cbn [bind try_except_ValueError]. destruct (Datetime.leb e l); [reflexivity |].
        now rewrite app_nil_r.
      * apply strptime_raises in He; subst e2. reflexivity.
    + apply strptime_raises in Hl; subst e1. reflexivity.
  - intros x.
    destruct (negb (str_truthy (RawCampaignData.product_id raw))),
      (negb (float_truthy (RawCampaignData.selling_price raw))
       || PrimFloat.leb (RawCampaignData.selling_price raw) 0),
      (negb (str_truthy (RawCampaignData.live_date raw))),
      (negb (str_truthy (RawCampaignData.end_date raw))); cbn; intuition.
  - destruct (negb (str_truthy (RawCampaignData.product_id raw))),
      (negb (float_truthy (RawCampaignData.selling_price raw))
       || PrimFloat.leb (RawCampaignData.selling_price raw) 0),
      (negb (str_truthy (RawCampaignData.live_date raw))),
      (negb (str_truthy (RawCampaignData.end_date raw))); cbn; lia.
Qed.

(** X9.  The two date errors exclude each other.  The format error is
    reported exactly when one of the two dates does not parse, and then the
    order of the dates is not looked at; the ordering error is reported
    exactly when both parse and the end date is not after the live date
    (equal dates included).  The list never has more than five errors. *)
Theorem validate_date_rules (raw : RawCampaignData.t) :
  exists errors,
    CampaignService.validate_campaign_data raw = Return errors
    /\ (In "Invalid date format. Expected DD/MM/YYYY" errors
        <-> Datetime.strptime (RawCampaignData.live_date raw) = Raise ValueError
            \/ Datetime.strptime (RawCampaignData.end_date raw) = Raise ValueError)
    /\ (In "End date must be after live date" errors
        <-> exists live_date end_date,
              Datetime.strptime (RawCampaignData.live_date raw) = Return live_date
              /\ Datetime.strptime (RawCampaignData.end_date raw) = Return end_date
              /\ Datetime.leb end_date live_date = true)
    /\ ~ (In "Invalid date format. Expected DD/MM/YYYY" errors
          /\ In "End date must be after live date" errors)
    /\ (length errors <= 5)%nat.
Proof.
  destruct (validate_shape raw) as (required & Hrun & Hreq & Hlen).
  eexists. split; [exact Hrun |].
  assert (Hf : ~ In "Invalid date format. Expected DD/MM/YYYY" required).
  { intros H. apply Hreq in H. intuition discriminate. }
  assert (Ho : ~ In "End date must be after live date" required).
  { intros H. apply Hreq in H. intuition discriminate. }
  rewrite !in_app_iff, length_app.
  destruct (Datetime.strptime (RawCampaignData.live_date raw)) as [l | e1] eqn:Hl.
  - destruct (Datetime.strptime (RawCampaignData.end_date raw)) as [e | e2] eqn:He.
    + destruct (Datetime.leb e l) eqn:Hle; cbn; repeat split; try lia.
      * intros [H | [H | []]]; [tauto | discriminate].
      * intros [H | H]; discriminate.
      * eauto.
      * auto.
      * intros [[H | [H | []]] _]; [tauto | discriminate].
      * intros [H | []]; tauto.
      * intros [H | H]; discriminate.
      * intros [H | []]; tauto.
      * intros (l' & e' & [= <-] & [= <-] & H). congruence.
      * intros [[H | []] _]; tauto.
    + apply strptime_raises in He; subst e2. cbn; repeat split; try lia.
      * auto.
      * auto.
      * intros [H | [H | []]]; [tauto | discriminate].
      * intros (l' & e' & _ & H & _). discriminate.
      * intros [_ [H | [H | []]]]; [tauto | discriminate].
  - apply strptime_raises in Hl; subst e1. cbn; repeat split; try lia.
    + auto.
    + auto.
    + intros [H | [H | []]]; [tauto | discriminate].
    + intros (l' & e' & H & _). discriminate.
    + intros [_ [H | [H | []]]]; [tauto | discriminate].
Qed.

End ValidatorAnatomy.

(** *** More on the activity filter *)

Section ActivityFilterAnatomy.

Lemma lex_compare_Eq (a b : list Z) :
  length a = length b -> Datetime.lex_compare a b = Eq -> a = b.
Proof.
  revert b. induction a as [| x a IH]; intros [| y b]; cbn; try discriminate; [reflexivity |].
  intros [= Hlen]. destruct (Z.compare_spec x y) as [Hxy | Hxy | Hxy]; try discriminate.
  intros Hc. subst y. f_equal. now apply IH.
Qed.

Lemma lex_compare_antisym (a b : list Z) :
  Datetime.lex_compare b a = CompOpp (Datetime.lex_compare a b).
Proof.
  revert b. induction a as [| x a IH]; intros [| y b]; cbn; try reflexivity.
  rewrite (Z.compare_antisym x y). destruct (x ?= y)%Z; cbn; auto.
Qed.

Lemma lex_compare_trans (a b c : list Z) :
  Datetime.lex_compare a b <> Gt -> Datetime.lex_compare b c <> Gt ->
  Datetime.lex_compare a c <> Gt.
Proof.
  revert b c. induction a as [| x a IH]; intros [| y b] [| z c]; cbn; try congruence.
  destruct (Z.compare_spec x y), (Z.compare_spec y z), (Z.compare_spec x z);
    try congruence; try lia; subst; eauto.
Qed.

Lemma leb_le (a b : Datetime.datetime) :
  Datetime.leb a b = true <-> Datetime.lex_compare (Datetime.key a) (Datetime.key b) <> Gt.
Proof.
  unfold Datetime.leb, Datetime.compare.
  destruct (Datetime.lex_compare _ _); split; congruence.
Qed.

Lemma leb_trans (a b c : Datetime.datetime) :
  Datetime.leb a b = true -> Datetime.leb b c = true -> Datetime.leb a c = true.
Proof. rewrite !leb_le. apply lex_compare_trans. Qed.

Lemma leb_antisym (a b : Datetime.datetime) :
  Datetime.leb a b = true -> Datetime.leb b a = true -> a = b.
Proof.
  rewrite !leb_le. intros Hab Hba.
  assert (Heq : Datetime.key a = Datetime.key b).
  { apply lex_compare_Eq; [reflexivity |].
    rewrite (lex_compare_antisym (Datetime.key a)) in Hba.
    destruct (Datetime.lex_compare (Datetime.key a) (Datetime.key b)); cbn in *; congruence. }
  destruct a, b. unfold Datetime.key in Heq. cbn in Heq.
  injection Heq as -> -> -> -> -> -> ->. reflexivity.
Qed.

(** X10.  What the activity filter keeps has dates the validator can read:
    for a kept record the validator reports no date-format error, and it
    reports the ordering error only for a record whose live date and end
    date are one and the same day, kept at the midnight that opens it. *)
Theorem filter_kept_passes_date_format {World : Type}
    (datetime_now : World -> Datetime.datetime * World)
    (campaigns active : list RawCampaignData.t) (w w' : World) (c : RawCampaignData.t) :
  CampaignService.filter_active_campaigns datetime_now campaigns w = (Return active, w') ->
  In c active ->
  exists errors,
    CampaignService.validate_campaign_data c = Return errors
    /\ ~ In "Invalid date format. Expected DD/MM/YYYY" errors
    /\ (In "End date must be after live date" errors ->
        Datetime.strptime (RawCampaignData.live_date c) = Return (datetime_now w).1
        /\ Datetime.strptime (RawCampaignData.end_date c) = Return (datetime_now w).1).
Proof.
  unfold CampaignService.filter_active_campaigns, CampaignService.now, mbind, lift. cbn.
  rewrite filter_loop_spec. intros [= <- _] Hin.
  apply filter_In in Hin as [_ Hact]. apply is_active_iff in Hact.
  destruct Hact as (l & e & Hl & He & Hln & Hne).
  destruct (validate_shape c) as (required & Hrun & Hreq & _).
  rewrite Hl, He in Hrun. eexists. split; [exact Hrun |].
  rewrite !in_app_iff. split.
  - intros [H | H].
    + apply Hreq in H. intuition discriminate.
    + destruct (Datetime.leb e l); cbn in H; intuition discriminate.
  - intros [H | H].
    + apply Hreq in H. intuition discriminate.
    + destruct (Datetime.leb e l) eqn:Hel; [| destruct H].
      assert (l = e) by (apply leb_antisym; [eapply leb_trans; eassumption | assumption]).
      subst e.
      assert (l = (datetime_now w).1) by (now apply leb_antisym).
      subst l. auto.
Qed.

Lemma list_filter_sublist {A} (f : A -> bool) (l : list A) : sublist (List.filter f l) l.
Proof.
  induction l as [| a l IH]; cbn; [constructor |].
  destruct (f a); now constructor.
Qed.

Lemma list_filter_twice {A} (f : A -> bool) (l : list A) :
  List.filter f (List.filter f l) = List.filter f l.
Proof.
  induction l as [| a l IH]; cbn; [reflexivity |].
  destruct (f a) eqn:Hf; cbn; [rewrite Hf; now f_equal | exact IH].
Qed.

(** X11.  The activity filter only drops records: what it returns is a
    subsequence of its input; and filtering its own output again, with the
    clock showing the same reading, returns that output unchanged. *)
Theorem filter_active_campaigns_stable {World : Type}
    (datetime_now : World -> Datetime.datetime * World)
    (campaigns active : list RawCampaignData.t) (w w' : World) :
  CampaignService.filter_active_campaigns datetime_now campaigns w = (Return active, w') ->
  sublist active campaigns
  /\ (length active <= length campaigns)%nat
  /\ forall w2, (datetime_now w2).1 = (datetime_now w).1 ->
       CampaignService.filter_active_campaigns datetime_now active w2
       = (Return active, (datetime_now w2).2).
Proof.
  unfold CampaignService.filter_active_campaigns, CampaignService.now, mbind, lift. cbn.
  rewrite filter_loop_spec. intros [= <- _]. split; [apply list_filter_sublist |].
  split; [apply sublist_length, list_filter_sublist |].
  intros w2 Hw2. rewrite filter_loop_spec, Hw2. cbn. now rewrite list_filter_twice.
Qed.

End ActivityFilterAnatomy.

(** *** More on the summary aggregator *)

Section SummaryAnatomy.
Variable py_sum : list float -> float.

Lemma fold_left_pick (choose : float -> float -> bool) (l : list float) (x : float) :
  In (fold_left (fun m y => if choose m y then y else m) l x) (x :: l).
Proof.
  revert x. induction l as [| y l IH]; intros x; cbn; [auto |].
  destruct (choose x y).
  - right. apply IH.
  - destruct (IH x) as [H | H]; [left; exact H | right; right; exact H].
Qed.

(** X12.  For a non-empty list the summary has exactly eight entries
    (total, types, average, minimum and maximum selling price, average MRP,
    total potential revenue, per-type counts), and the set of campaign types
    it lists is the set of keys of its per-type counts. *)
Theorem get_campaign_summary_keys (campaigns : list ProcessedCampaignData.t) :
  campaigns <> [] ->
  exists summary types counts,
    CampaignService.get_campaign_summary py_sum campaigns = Return summary
    /\ dom summary
       = list_to_set ["total_campaigns"; "campaign_types"; "avg_selling_price";
                      "min_selling_price"; "max_selling_price"; "avg_mrp";
                      "total_potential_revenue"; "campaign_type_counts"]
    /\ size summary = 8%nat
    /\ summary !! "campaign_types" = Some (CampaignService.STypes types)
    /\ summary !! "campaign_type_counts" = Some (CampaignService.SCounts counts)
    /\ dom counts = types.
Proof.
  intros Hne. destruct campaigns as [| c0 rest]; [congruence |].
  unfold CampaignService.get_campaign_summary.
  cbn -[list_to_map set_to_map list_to_set].
  eexists _, _, _. split; [reflexivity |].
  split; [| split; [| split; [| split]]].
  - rewrite dom_list_to_map_L. reflexivity.
  - rewrite <- size_dom, dom_list_to_map_L. vm_compute. reflexivity.
  - cbn [list_to_map foldr fst snd].
    repeat (rewrite lookup_insert_ne by discriminate). rewrite lookup_insert_eq. reflexivity.
  - cbn [list_to_map foldr fst snd].
    repeat (rewrite lookup_insert_ne by discriminate). rewrite lookup_insert_eq. reflexivity.
  - apply set_eq. intros t. rewrite elem_of_dom, counts_lookup. unfold is_Some.
    destruct (decide (t ∈ _)) as [Hin | Hout]; split; eauto; try tauto.
    intros [n Hn]. discriminate.
Qed.

(** X13.  For a non-empty list the minimum and the maximum selling price of
    the summary are selling prices of campaigns of the list (for a single
    campaign, its own price), and the total potential revenue is the sum of
    the selling prices. *)
Theorem get_campaign_summary_extremes (campaigns : list ProcessedCampaignData.t) :
  campaigns <> [] ->
  exists summary lo hi,
    CampaignService.get_campaign_summary py_sum campaigns = Return summary
    /\ summary !! "min_selling_price" = Some (CampaignService.SFloat lo)
    /\ summary !! "max_selling_price" = Some (CampaignService.SFloat hi)
    /\ (exists c, In c campaigns
                  /\ FalconFormattedData.selling_price (ProcessedCampaignData.falcon_data c) = lo)
    /\ (exists c, In c campaigns
                  /\ FalconFormattedData.selling_price (ProcessedCampaignData.falcon_data c) = hi)
    /\ summary !! "total_potential_revenue"
       = Some (CampaignService.SFloat
                 (py_sum (map (fun c => FalconFormattedData.selling_price
                                          (ProcessedCampaignData.falcon_data c)) campaigns))).
Proof.
  intros Hne. destruct campaigns as [| c0 rest]; [congruence |].
  unfold CampaignService.get_campaign_summary.
  cbn -[list_to_map set_to_map list_to_set].
  eexists _, _, _. split; [reflexivity |].
  split; [| split; [| split; [| split]]].
  - cbn [list_to_map foldr fst snd].
    repeat (rewrite lookup_insert_ne by discriminate). rewrite lookup_insert_eq. reflexivity.
  - cbn [list_to_map foldr fst snd].
    repeat (rewrite lookup_insert_ne by discriminate). rewrite lookup_insert_eq. reflexivity.
  - pose proof (fold_left_pick (fun m y => PrimFloat.ltb y m)
                  (map (fun c => FalconFormattedData.selling_price
                                   (ProcessedCampaignData.falcon_data c)) rest)
                  (FalconFormattedData.selling_price (ProcessedCampaignData.falcon_data c0)))
      as Hin.
    change (In ?x (?a :: map ?f rest)) with (In x (map f (c0 :: rest))) in Hin.
    apply in_map_iff in Hin as (c & Hc & Hin). eauto.
  - pose proof (fold_left_pick (fun m y => PrimFloat.ltb m y)
                  (map (fun c => FalconFormattedData.selling_price
                                   (ProcessedCampaignData.falcon_data c)) rest)
                  (FalconFormattedData.selling_price (ProcessedCampaignData.falcon_data c0)))
      as Hin.
    change (In ?x (?a :: map ?f rest)) with (In x (map f (c0 :: rest))) in Hin.
    apply in_map_iff in Hin as (c & Hc & Hin). eauto.
  - cbn [list_to_map foldr fst snd].
    repeat (rewrite lookup_insert_ne by discriminate). rewrite lookup_insert_eq. reflexivity.
Qed.

End SummaryAnatomy.

(** *** The campaign routes *)

Section RouteProperties.
Context {World : Type}.
Variable settings : Config.Settings.
Variable akeneo_service : AkeneoClient.t World.
Variable datetime_now : World -> Datetime.datetime * World.
Variable py_sum : list float -> float.
Variable db_get_campaigns : CampaignFilter.t -> M World (list RawCampaignData.t).
Variable db_get_campaign_by_product_id : string -> M World (option RawCampaignData.t).
Variable str_exn : exn -> string.

Local Abbreviation process :=
  (CampaignService.process_campaign_data settings akeneo_service datetime_now).

(** The counts of a batch, for use by the routes. *)
Lemma process_returns (raw_campaigns : list RawCampaignData.t) (w : World) :
  exists resp w',
    process raw_campaigns w = (Return resp, w')
    /\ (CampaignResponse.processed_count resp + CampaignResponse.failed_count resp
        = CampaignResponse.total_count resp)%Z
    /\ CampaignResponse.total_count resp = Z.of_nat (length raw_campaigns)
    /\ CampaignResponse.processed_count resp
       = Z.of_nat (length (CampaignResponse.campaigns resp))
    /\ sublist (map ProcessedCampaignData.raw_data (CampaignResponse.campaigns resp))
         raw_campaigns.
Proof.
  destruct (process_loop_adds settings akeneo_service datetime_now raw_campaigns [] 0%Z w)
    as (added & f' & w' & Hl & Hsub & _ & Hf).
  unfold CampaignService.process_campaign_data, mbind. rewrite Hl.
  eexists _, _. split; [reflexivity |]. cbn.
  apply sublist_length in Hsub as Hlen. rewrite length_map in Hlen.
  repeat split; auto; lia.
Qed.

(** The summary is returned for every list and counts its entries. *)
Lemma summary_returns (campaigns : list ProcessedCampaignData.t) :
  exists summary,
    CampaignService.get_campaign_summary py_sum campaigns = Return summary
    /\ summary !! "total_campaigns"
       = Some (CampaignService.SInt (Z.of_nat (length campaigns))).
Proof.
  destruct campaigns as [| c0 rest].
  - eexists. split; [reflexivity |]. now rewrite lookup_singleton_eq.
  - unfold CampaignService.get_campaign_summary.
    cbn -[list_to_map set_to_map list_to_set].
    eexists. split; [reflexivity |].
    cbn [list_to_map foldr fst snd]. now rewrite lookup_insert_eq.
Qed.

(** The item of ["validation_errors"] a campaign gives rise to, if any. *)
Local Abbreviation entry_of :=
  (fun campaign : RawCampaignData.t =>
     match CampaignService.validate_campaign_data campaign with
     | Return (e :: errors) =>
         Some (CampaignRoutes.mk_entry (RawCampaignData.product_id campaign) (e :: errors))
     | _ => None
     end).

Lemma validate_loop_spec (raw_campaigns : list RawCampaignData.t) :
  forall valid invalid all_errors,
    CampaignRoutes.validate_loop raw_campaigns valid invalid all_errors
    = Return ((valid + Z.of_nat (length raw_campaigns)
               - Z.of_nat (length (omap entry_of raw_campaigns)))%Z,
              (invalid + Z.of_nat (length (omap entry_of raw_campaigns)))%Z,
              all_errors ++ omap entry_of raw_campaigns).
Proof.
  induction raw_campaigns as [| c rest IH]; intros valid invalid all_errors.
  - cbn. rewrite app_nil_r. do 3 f_equal; lia.
  - cbn [CampaignRoutes.validate_loop omap list_omap].
    destruct (validate_shape c) as (required & Hrun & _). rewrite Hrun. clear Hrun.
    cbn [bind].
    destruct (required ++ _) as [| e errors]; rewrite IH; cbn [length].
    + do 3 f_equal; lia.
    + rewrite <- app_assoc. cbn [app length]. do 3 f_equal; lia.
Qed.

(** X14.  The validation route accounts for every fetched campaign: the
    report's total is the number fetched, valid plus invalid is the total,
    and ["validation_errors"] holds, in fetch order, one item for each
    campaign the validator faults (with its product id and its non-empty
    error list) and none for the others.  It asks the database for all
    campaigns, active or not. *)
Theorem validate_campaigns_report (campaign_types : option (list string))
    (segment brand : option string) (raw_campaigns : list RawCampaignData.t)
    (w w1 : World) :
  db_get_campaigns (CampaignFilter.mk campaign_types None None segment brand false) w
  = (Return raw_campaigns, w1) ->
  exists report,
    CampaignRoutes.validate_campaigns db_get_campaigns str_exn campaign_types segment brand w
    = (CampaignRoutes.Ok report, w1)
    /\ CampaignRoutes.total_campaigns report = Z.of_nat (length raw_campaigns)
    /\ (CampaignRoutes.valid_campaigns report + CampaignRoutes.invalid_campaigns report
        = CampaignRoutes.total_campaigns report)%Z
    /\ CampaignRoutes.invalid_campaigns report
       = Z.of_nat (length (CampaignRoutes.validation_errors report))
    /\ CampaignRoutes.validation_errors report = omap entry_of raw_campaigns
    /\ Forall (fun item => CampaignRoutes.entry_errors item <> [])
         (CampaignRoutes.validation_errors report)
    /\ CampaignFilter.active_only (CampaignRoutes.report_filters_applied report) = false.
Proof.
  intros Hdb.
  unfold CampaignRoutes.validate_campaigns, CampaignRoutes.or_500, mbind. rewrite Hdb.
  assert (Hne : Forall (fun item => CampaignRoutes.entry_errors item <> [])
                  (omap entry_of raw_campaigns)).
  { apply Forall_forall. intros item Hin.
    apply list_elem_of_omap in Hin as (c & _ & Hc).
    destruct (CampaignService.validate_campaign_data c) as [[| e errors] | ?];
      try discriminate.
    injection Hc as <-. discriminate. }
  destruct raw_campaigns as [| c rest].
  - eexists. split; [reflexivity |]. cbn. repeat split; auto.
  - unfold lift, ret. rewrite validate_loop_spec.
    eexists. split; [reflexivity |]. cbn [CampaignRoutes.total_campaigns
      CampaignRoutes.valid_campaigns CampaignRoutes.invalid_campaigns
      CampaignRoutes.validation_errors CampaignRoutes.report_filters_applied
      CampaignFilter.active_only fst snd app].
    repeat split; auto; lia.
Qed.

(** X15.  The summary route is consistent with its processing statistics:
    when nothing was fetched the body holds the summary
    [{"total_campaigns": 0}] and no statistics; otherwise the summary's
    [total_campaigns] equals ["successfully_processed"], and
    ["successfully_processed"] plus ["failed"] is ["total_fetched"], the
    number of campaigns fetched. *)
Theorem get_campaign_summary_route_consistent (campaign_types : option (list string))
    (segment brand : option string) (active_only : bool)
    (raw_campaigns : list RawCampaignData.t) (w w1 : World) :
  db_get_campaigns (CampaignFilter.mk campaign_types None None segment brand active_only) w
  = (Return raw_campaigns, w1) ->
  exists body w',
    CampaignRoutes.get_campaign_summary settings akeneo_service datetime_now py_sum
      db_get_campaigns str_exn campaign_types segment brand active_only w
    = (CampaignRoutes.Ok body, w')
    /\ match CampaignRoutes.summary_processing_stats body with
       | None =>
           raw_campaigns = []
           /\ CampaignRoutes.summary body = {[ "total_campaigns" := CampaignService.SInt 0 ]}
       | Some stats =>
           raw_campaigns <> []
           /\ CampaignRoutes.summary body !! "total_campaigns"
              = Some (CampaignService.SInt (CampaignRoutes.successfully_processed stats))
           /\ (CampaignRoutes.successfully_processed stats + CampaignRoutes.failed stats
               = CampaignRoutes.total_fetched stats)%Z
           /\ CampaignRoutes.total_fetched stats = Z.of_nat (length raw_campaigns)
       end.
Proof.
  intros Hdb.
  unfold CampaignRoutes.get_campaign_summary, CampaignRoutes.or_500, mbind. rewrite Hdb.
  destruct raw_campaigns as [| c rest].
  - eexists _, _. split; [reflexivity |]. cbn. auto.
  - destruct (process_returns (c :: rest) w1) as (resp & w' & Hp & Hsum & Htot & Hproc & _).
    rewrite Hp.
    destruct (summary_returns (CampaignResponse.campaigns resp)) as (summary & Hs & Hk).
    unfold lift, ret. rewrite Hs.
    eexists _, _. split; [reflexivity |]. cbn.
    split; [discriminate |]. split; [now rewrite Hk, Hproc |]. split; [exact Hsum | exact Htot].
Qed.

(** X16.  The active-campaigns route processes exactly the fetched
    campaigns that are active at the reading of the clock: its
    [total_count] is their number (at most the number fetched), processed
    plus failed is that total, the returned pairs are among the active
    ones, in order, and [filters_applied] echoes the request with
    [active_only] set. *)
Theorem get_active_campaigns_counts (campaign_types : option (list string))
    (raw_campaigns : list RawCampaignData.t) (w w1 : World) :
  db_get_campaigns (CampaignFilter.mk campaign_types None None None None true) w
  = (Return raw_campaigns, w1) ->
  exists resp w',
    CampaignRoutes.get_active_campaigns settings akeneo_service datetime_now
      db_get_campaigns str_exn campaign_types w
    = (CampaignRoutes.Ok resp, w')
    /\ CampaignResponse.total_count resp
       = Z.of_nat (length (List.filter (Spec.is_active (datetime_now w1).1) raw_campaigns))
    /\ (CampaignResponse.total_count resp <= Z.of_nat (length raw_campaigns))%Z
    /\ (CampaignResponse.processed_count resp + CampaignResponse.failed_count resp
        = CampaignResponse.total_count resp)%Z
    /\ sublist (map ProcessedCampaignData.raw_data (CampaignResponse.campaigns resp))
         (List.filter (Spec.is_active (datetime_now w1).1) raw_campaigns)
    /\ CampaignResponse.filters_applied resp
       = Some (CampaignFilter.mk campaign_types None None None None true).
Proof.
  intros Hdb.
  unfold CampaignRoutes.get_active_campaigns, CampaignRoutes.or_500, mbind. rewrite Hdb.
  destruct raw_campaigns as [| c rest].
  - eexists _, _. split; [reflexivity |]. cbn. repeat split; auto; try lia; constructor.
  - unfold CampaignService.filter_active_campaigns, CampaignService.now, mbind, lift.
    cbn [fst snd]. rewrite filter_loop_spec. cbn [app].
    set (active := List.filter (Spec.is_active (datetime_now w1).1) (c :: rest)).
    destruct (process_returns active (datetime_now w1).2)
      as (resp & w' & Hp & Hsum & Htot & Hproc & Hsub).
    rewrite Hp. unfold ret.
    eexists _, _. split; [reflexivity |]. cbn.
    pose proof (sublist_length _ _ (list_filter_sublist (Spec.is_active (datetime_now w1).1)
                                      (c :: rest))) as Hlen.
    fold active in Hlen. cbn [length] in Hlen.
    repeat split; auto; lia.
Qed.

(** A batch of one record. *)
Lemma process_single (raw : RawCampaignData.t) (w : World)
    (res : option FalconFormattedData.t) (w2 : World) :
  CampaignService.transform_to_falcon_format settings akeneo_service raw w
  = (Return res, w2) ->
  process [raw] w
  = match res with
    | Some falcon =>
        (Return (CampaignResponse.mk 1 1 0
                   [ProcessedCampaignData.mk raw falcon (datetime_now w2).1] None),
         (datetime_now w2).2)
    | None => (Return (CampaignResponse.mk 1 0 1 [] None), w2)
    end.
Proof.
  intros Ht.
  unfold CampaignService.process_campaign_data. cbn [CampaignService.process_loop].
  unfold mbind at 1. unfold mbind at 1, mtry_except at 1, mbind at 1. rewrite Ht.
  destruct res as [falcon |].
  - unfold CampaignService.new_processed, CampaignService.now, mbind, ret. reflexivity.
  - unfold ret. reflexivity.
Qed.

(** X17.  The product route ends in exactly one of three ways: 404 when
    the database has no campaign for the product; 500 when it has one but
    the transform returns no record for it; otherwise the body with the
    product id, the pair built from the campaign found, and the statistics
    1 fetched, 1 processed, 0 failed. *)
Theorem get_campaign_by_product_outcome (product_id : string)
    (found : option RawCampaignData.t) (w w1 : World) :
  db_get_campaign_by_product_id product_id w = (Return found, w1) ->
  match found with
  | None =>
      CampaignRoutes.get_campaign_by_product settings akeneo_service datetime_now
        db_get_campaign_by_product_id str_exn product_id w
      = (CampaignRoutes.HTTPException 404 ("No campaign found for product " ++ product_id), w1)
  | Some raw =>
      exists res w2,
        CampaignService.transform_to_falcon_format settings akeneo_service raw w1
        = (Return res, w2)
        /\ match res with
           | None =>
               CampaignRoutes.get_campaign_by_product settings akeneo_service datetime_now
                 db_get_campaign_by_product_id str_exn product_id w
               = (CampaignRoutes.HTTPException 500
                    ("Error processing campaign for product " ++ product_id), w2)
           | Some falcon =>
               CampaignRoutes.get_campaign_by_product settings akeneo_service datetime_now
                 db_get_campaign_by_product_id str_exn product_id w
               = (CampaignRoutes.Ok
                    (CampaignRoutes.mk_product_body product_id
                       (ProcessedCampaignData.mk raw falcon (datetime_now w2).1)
                       (CampaignRoutes.mk_stats 1 1 0)),
                  (datetime_now w2).2)
           end
  end.
Proof.
  intros Hdb.
  unfold CampaignRoutes.get_campaign_by_product, CampaignRoutes.or_500_passing, mbind.
  rewrite Hdb. destruct found as [raw |]; [| reflexivity].
  destruct (transform_returns settings akeneo_service raw w1) as (res & w2 & Ht).
  exists res, w2. split; [exact Ht |].
  rewrite (process_single raw w1 res w2 Ht). now destruct res.
Qed.

End RouteProperties.

(** *** The campaign query *)

Section QueryProperties.

(** Whether an optional text filter is set. *)
Local Abbreviation is_set o := (truthy (of_opt_str o)).

(** Whether an optional date filter is set. *)
Local Abbreviation has_date o :=
  (match o with Some _ => true | None => false end).

(** The conditions of the query, as far as their text goes. *)
Local Abbreviation in_clause n :=
  ("issue_type IN ("
   +:+ DatabaseService.join "," (map DatabaseService.placeholder (seq 0 n))
   +:+ ")").

Local Abbreviation conditions_for n seg br sd ed act :=
  ((match n%nat with
    | O => []
    | S _ => [in_clause n%nat]
    end)
   ++ (if seg : bool then ["segment = :segment"] else [])
   ++ (if br : bool then ["brand = :brand"] else [])
   ++ (if sd : bool then ["STR_TO_DATE(live_date, '%d/%m/%Y') >= :start_date"] else [])
   ++ (if ed : bool then ["STR_TO_DATE(end_date, '%d/%m/%Y') <= :end_date"] else [])
   ++ (if act : bool then [DatabaseService.active_condition] else [])).

(** Binding a parameter that may be absent. *)
Local Abbreviation put k o m :=
  (match o with Some v => <[k := v]> m | None => m end).

(** The query in one piece: its text from the conditions that apply, its
    parameters bound one after the other. *)
Lemma campaign_query_unfold (strftime_Ymd : Datetime.datetime -> string)
    (filters : CampaignFilter.t) :
  DatabaseService.campaign_query strftime_Ymd (Some filters)
  = ((match conditions_for
              (length (default [] (CampaignFilter.campaign_types filters)))
              (is_set (CampaignFilter.segment filters))
              (is_set (CampaignFilter.brand filters))
              (has_date (CampaignFilter.start_date filters))
              (has_date (CampaignFilter.end_date filters))
              (CampaignFilter.active_only filters) with
      | [] => DatabaseService.base_query
      | c :: cs =>
          DatabaseService.base_query +:+ " AND " +:+ DatabaseService.join " AND " (c :: cs)
      end)
     +:+ " ORDER BY STR_TO_DATE(live_date, '%d/%m/%Y') DESC",
     put "end_date" (strftime_Ymd <$> CampaignFilter.end_date filters)
       (put "start_date" (strftime_Ymd <$> CampaignFilter.start_date filters)
          (put "brand" (if is_set (CampaignFilter.brand filters)
                        then CampaignFilter.brand filters else None)
             (put "segment" (if is_set (CampaignFilter.segment filters)
                             then CampaignFilter.segment filters else None)
                (DatabaseService.bind_types 0
                   (default [] (CampaignFilter.campaign_types filters)) ∅))))).
Proof.
  unfold DatabaseService.campaign_query.
  destruct filters as [types sd ed seg br act]. cbn [CampaignFilter.campaign_types
    CampaignFilter.start_date CampaignFilter.end_date CampaignFilter.segment
    CampaignFilter.brand CampaignFilter.active_only].
  destruct types as [[| t ts] |], seg as [[| c1 s1] |], br as [[| c2 s2] |],
    sd as [d1 |], ed as [d2 |], act; reflexivity.
Qed.

Lemma lookup_put (k k' : string) (o : option string) (m : gmap string string) :
  put k o m !! k'
  = if decide (k = k') then (match o with Some v => Some v | None => m !! k' end)
    else m !! k'.
Proof.
  destruct o as [v |]; case_decide; subst;
    rewrite ?lookup_insert_eq, ?lookup_insert_ne by done; reflexivity.
Qed.

(** X18.  The text of the campaign query never contains a filter value:
    two filters that set the same fields (as many campaign types, segment
    set or not, brand set or not, the same date bounds present, the same
    [active_only]) give the same query text, whatever values they carry;
    values only travel as bound parameters. *)
Theorem campaign_query_text_ignores_values
    (strftime1 strftime2 : Datetime.datetime -> string) (f1 f2 : CampaignFilter.t) :
  length (default [] (CampaignFilter.campaign_types f1))
  = length (default [] (CampaignFilter.campaign_types f2)) ->
  is_set (CampaignFilter.segment f1) = is_set (CampaignFilter.segment f2) ->
  is_set (CampaignFilter.brand f1) = is_set (CampaignFilter.brand f2) ->
  has_date (CampaignFilter.start_date f1) = has_date (CampaignFilter.start_date f2) ->
  has_date (CampaignFilter.end_date f1) = has_date (CampaignFilter.end_date f2) ->
  CampaignFilter.active_only f1 = CampaignFilter.active_only f2 ->
  (DatabaseService.campaign_query strftime1 (Some f1)).1
  = (DatabaseService.campaign_query strftime2 (Some f2)).1.
Proof.
  intros Hn Hseg Hbr Hsd Hed Hact.
  rewrite !campaign_query_unfold. cbn [fst]. rewrite Hn, Hseg, Hbr, Hsd, Hed, Hact.
  reflexivity.
Qed.

Lemma param_name_inj (i j : nat) :
  DatabaseService.param_name i = DatabaseService.param_name j -> i = j.
Proof.
  unfold DatabaseService.param_name. intros H.
  apply String.app_inj in H. now apply (inj (pretty (A := nat))) in H.
Qed.

Lemma bind_types_other (campaign_types : list string) :
  forall (i : nat) (params : gmap string string) (k : string),
    (forall j, (j < length campaign_types)%nat -> k <> DatabaseService.param_name (i + j)) ->
    DatabaseService.bind_types i campaign_types params !! k = params !! k.
Proof.
  induction campaign_types as [| t rest IH]; intros i params k Hk; [reflexivity |].
  cbn [DatabaseService.bind_types]. rewrite IH.
  - apply lookup_insert_ne. intros Heq. apply (Hk 0%nat); [cbn; lia |].
    now rewrite Nat.add_0_r.
  - intros j Hj. replace (S i + j)%nat with (i + S j)%nat by lia. apply Hk. cbn. lia.
Qed.

Lemma bind_types_lookup (campaign_types : list string) :
  forall (i : nat) (params : gmap string string) (j : nat) (t : string),
    campaign_types !! j = Some t ->
    DatabaseService.bind_types i campaign_types params
      !! DatabaseService.param_name (i + j) = Some t.
Proof.
  induction campaign_types as [| t0 rest IH]; intros i params j t Hj; [discriminate |].
  cbn [DatabaseService.bind_types]. destruct j as [| j].
  - injection Hj as ->. rewrite Nat.add_0_r. rewrite bind_types_other.
    + apply lookup_insert_eq.
    + intros j _ Heq. apply param_name_inj in Heq. lia.
  - replace (i + S j)%nat with (S i + j)%nat by lia. now apply IH.
Qed.

Lemma bind_types_dom (campaign_types : list string) :
  forall (i : nat) (params : gmap string string) (k : string),
    is_Some (DatabaseService.bind_types i campaign_types params !! k) ->
    is_Some (params !! k)
    \/ exists j, (j < length campaign_types)%nat /\ k = DatabaseService.param_name (i + j).
Proof.
  induction campaign_types as [| t rest IH]; intros i params k Hk; [now left |].
  cbn [DatabaseService.bind_types] in Hk. apply IH in Hk as [Hk | (j & Hj & ->)].
  - destruct (decide (DatabaseService.param_name i = k)) as [<- | Hne].
    + right. exists 0%nat. split; [cbn; lia | now rewrite Nat.add_0_r].
    + rewrite lookup_insert_ne in Hk by done. now left.
  - right. exists (S j). split; [cbn; lia |]. f_equal. lia.
Qed.

(** X19.  Every placeholder of the campaign query gets its value, and
    nothing else is bound: the i-th campaign type is bound under
    [campaign_type_i], a non-empty segment and brand under [segment] and
    [brand], the date bounds, formatted, under [start_date] and [end_date];
    an empty segment or brand is not bound; and every bound name is one of
    these. *)
Theorem campaign_query_binds_values (strftime_Ymd : Datetime.datetime -> string)
    (filters : CampaignFilter.t) :
  (forall i t,
      default [] (CampaignFilter.campaign_types filters) !! i = Some t ->
      (DatabaseService.campaign_query strftime_Ymd (Some filters)).2
        !! DatabaseService.param_name i = Some t)
  /\ (DatabaseService.campaign_query strftime_Ymd (Some filters)).2 !! "segment"
     = (if is_set (CampaignFilter.segment filters)
        then CampaignFilter.segment filters else None)
  /\ (DatabaseService.campaign_query strftime_Ymd (Some filters)).2 !! "brand"
     = (if is_set (CampaignFilter.brand filters)
        then CampaignFilter.brand filters else None)
  /\ (DatabaseService.campaign_query strftime_Ymd (Some filters)).2 !! "start_date"
     = strftime_Ymd <$> CampaignFilter.start_date filters
  /\ (DatabaseService.campaign_query strftime_Ymd (Some filters)).2 !! "end_date"
     = strftime_Ymd <$> CampaignFilter.end_date filters
  /\ (forall k,
        is_Some ((DatabaseService.campaign_query strftime_Ymd (Some filters)).2 !! k) ->
        (exists i,
            (i < length (default [] (CampaignFilter.campaign_types filters)))%nat
            /\ k = DatabaseService.param_name i)
        \/ k = "segment" \/ k = "brand" \/ k = "start_date" \/ k = "end_date").
Proof.
  assert (Hname : forall i k, In k ["segment"; "brand"; "start_date"; "end_date"] ->
                              k <> DatabaseService.param_name i).
  { intros i k Hin Heq. subst k. unfold DatabaseService.param_name in Hin.
    cbv -[pretty] in Hin. intuition discriminate. }
  set (types := default [] (CampaignFilter.campaign_types filters)).
  assert (Hbase : forall k,
             In k ["segment"; "brand"; "start_date"; "end_date"] ->
             DatabaseService.bind_types 0 types (∅ : gmap string string) !! k = None).
  { intros k Hin. rewrite bind_types_other; [apply lookup_empty |].
    intros j _. now apply Hname. }
  rewrite campaign_query_unfold. cbn [snd]. fold types.
  split; [| split; [| split; [| split; [| split]]]].
  - intros i t Hi. rewrite !lookup_put.
    repeat (rewrite decide_False by (apply Hname; cbn; tauto)).
    apply (bind_types_lookup types 0 ∅ i t Hi).
  - rewrite !lookup_put.
    repeat (rewrite decide_False by discriminate). rewrite decide_True by reflexivity.
    rewrite Hbase by (cbn; tauto).
    now destruct (is_set (CampaignFilter.segment filters)), (CampaignFilter.segment filters).
  - rewrite !lookup_put.
    repeat (rewrite decide_False by discriminate). rewrite decide_True by reflexivity.
    repeat (rewrite decide_False by discriminate).
    rewrite Hbase by (cbn; tauto).
    now destruct (is_set (CampaignFilter.brand filters)), (CampaignFilter.brand filters).
  - rewrite !lookup_put.
    repeat (rewrite decide_False by discriminate). rewrite decide_True by reflexivity.
    repeat (rewrite decide_False by discriminate).
    rewrite Hbase by (cbn; tauto).
    now destruct (CampaignFilter.start_date filters).
  - rewrite !lookup_put. rewrite decide_True by reflexivity.
    repeat (rewrite decide_False by discriminate).
    rewrite Hbase by (cbn; tauto).
    now destruct (CampaignFilter.end_date filters).
  - intros k. rewrite !lookup_put. intros H.
    destruct (decide ("end_date" = k)) as [<- | _]; [tauto |].
    destruct (decide ("start_date" = k)) as [<- | _]; [tauto |].
    destruct (decide ("brand" = k)) as [<- | _]; [tauto |].
    destruct (decide ("segment" = k)) as [<- | _]; [tauto |].
    left. apply bind_types_dom in H as [H | (j & Hj & ->)]; [| eauto].
    rewrite lookup_empty in H. now destruct H.
Qed.

End QueryProperties.

(** *** The PIM client's token and assets *)

Section HttpProperties.
Context {World : Type}.
Variable settings : AkeneoHttp.AkeneoSettings.
Variable requests_post :
  string -> list (string * string) -> list (string * string) -> M World AkeneoHttp.Response.
Variable requests_get : string -> list (string * string) -> M World AkeneoHttp.Response.
Variable py_str : PyAny -> string.

Local Abbreviation get_token := (AkeneoHttp._get_access_token settings requests_post).

(** The request [_get_access_token] sends. *)
Local Abbreviation token_request :=
  (requests_post (AkeneoHttp.AKENEO_URL settings +:+ "/api/oauth/v1/token")
     [("Content-Type", "application/json");
      ("Authorization", "Basic " +:+ AkeneoHttp.AKENEO_CLIENT_ID_SECRET settings)]
     [("grant_type", "password");
      ("username", AkeneoHttp.AKENEO_USERNAME settings);
      ("password", AkeneoHttp.AKENEO_PASSWORD settings)]).

(** What a call to [_get_access_token] comes to, by the token held and the
    answer to the request. *)
Lemma get_token_cases (o : AkeneoHttp.Objects) (w : World) :
  get_token (o, w)
  = if truthy (AkeneoHttp.access_token o)
    then (Return (AkeneoHttp.access_token o), (o, w))
    else
      match token_request w with
      | (Raise e, w1) => (Raise e, (o, w1))
      | (Return response, w1) =>
          if (AkeneoHttp.status_code response =? 200)%Z then
            match AkeneoHttp.json response with
            | Raise e => (Raise e, (o, w1))
            | Return token_data =>
                match AkeneoHttp.py_get token_data "access_token" with
                | Raise e => (Raise e, (o, w1))
                | Return token => (Return token, (AkeneoHttp.mk_objects token token, w1))
                end
            end
          else
            (Raise (Exception ("Failed to get token: "
                               +:+ pretty (AkeneoHttp.status_code response)
                               +:+ ", " +:+ AkeneoHttp.text response)), (o, w1))
      end.
Proof.
  unfold AkeneoHttp._get_access_token, AkeneoHttp.read, mbind at 1. cbn [fst snd].
  destruct (truthy (AkeneoHttp.access_token o)); [reflexivity |].
  unfold mtry_except, mbind, AkeneoHttp.outside, lift, ret, AkeneoHttp.mraise,
    AkeneoHttp.set_access_token, AkeneoHttp.read, AkeneoHttp.write. cbn [fst snd].
  destruct (token_request w) as [[response | e] w1]; cbn [fst snd]; [| reflexivity].
  destruct (AkeneoHttp.status_code response =? 200)%Z; [| reflexivity].
  destruct (AkeneoHttp.json response) as [token_data | e]; [| reflexivity].
  destruct (AkeneoHttp.py_get token_data "access_token") as [token | e]; reflexivity.
Qed.

(** X20.  The access token is cached: when [_get_access_token] returns a
    token, that token is what the service object holds afterwards; if the
    call had to authenticate, the asset service holds it too; and, the token
    being non-empty, every later call returns it with no request made, the
    objects and the world left as they were. *)
Theorem get_access_token_caches (o o' : AkeneoHttp.Objects) (w w' : World) (token : PyAny) :
  get_token (o, w) = (Return token, (o', w')) ->
  AkeneoHttp.access_token o' = token
  /\ (truthy (AkeneoHttp.access_token o) = false -> AkeneoHttp.asset_access_token o' = token)
  /\ (truthy token = true ->
      forall w2, get_token (o', w2) = (Return token, (o', w2))).
Proof.
  intros Hrun.
  assert (Hheld : AkeneoHttp.access_token o' = token
                  /\ (truthy (AkeneoHttp.access_token o) = false ->
                      AkeneoHttp.asset_access_token o' = token)).
  { rewrite get_token_cases in Hrun.
    destruct (truthy (AkeneoHttp.access_token o)) eqn:Htok.
    - injection Hrun as <- <- _. split; [reflexivity | discriminate].
    - destruct (token_request w) as [[response | e] w1]; [| discriminate].
      destruct (AkeneoHttp.status_code response =? 200)%Z; [| discriminate].
      destruct (AkeneoHttp.json response) as [token_data | e]; [| discriminate].
      destruct (AkeneoHttp.py_get token_data "access_token") as [tok | e]; [| discriminate].
      injection Hrun as <- <- _. auto. }
  destruct Hheld as [Hacc Hasset]. split; [exact Hacc |]. split; [exact Hasset |].
  intros Htruthy w2. rewrite get_token_cases, Hacc, Htruthy. reflexivity.
Qed.

(** X21.  A failed authentication leaves the two service objects as they
    were: when [_get_access_token] raises, no token was held before and none
    is held after. *)
Theorem get_access_token_failure_keeps_objects (o o' : AkeneoHttp.Objects) (w w' : World)
    (e : exn) :
  get_token (o, w) = (Raise e, (o', w')) ->
  o' = o /\ truthy (AkeneoHttp.access_token o) = false.
Proof.
  rewrite get_token_cases.
  destruct (truthy (AkeneoHttp.access_token o)) eqn:Htok; [discriminate |].
  intros Hrun. split; [| reflexivity].
  destruct (token_request w) as [[response | e1] w1]; [| now injection Hrun as _ <- _].
  destruct (AkeneoHttp.status_code response =? 200)%Z; [| now injection Hrun as _ <- _].
  destruct (AkeneoHttp.json response) as [token_data | e1]; [| now injection Hrun as _ <- _].
  destruct (AkeneoHttp.py_get token_data "access_token") as [tok | e1];
    [discriminate | now injection Hrun as _ <- _].
Qed.

(** X22.  A 200 answer whose JSON object has no [access_token] entry is not
    treated as a failure: [_get_access_token] returns null without raising
    and both objects hold null, so that the next call authenticates again. *)
Theorem get_access_token_without_entry (o : AkeneoHttp.Objects) (w w1 : World)
    (response : AkeneoHttp.Response) (items : list (string * PyAny)) :
  truthy (AkeneoHttp.access_token o) = false ->
  (forall url headers data, requests_post url headers data w = (Return response, w1)) ->
  AkeneoHttp.status_code response = 200%Z ->
  AkeneoHttp.json response = Return (PyDict items) ->
  (forall kv, In kv items -> kv.1 <> "access_token") ->
  get_token (o, w) = (Return PyNone, (AkeneoHttp.mk_objects PyNone PyNone, w1))
  /\ truthy (AkeneoHttp.access_token (AkeneoHttp.mk_objects PyNone PyNone)) = false.
Proof.
  intros Htok Hpost Hstatus Hjson Hitems. split; [| reflexivity].
  rewrite get_token_cases, Htok, Hpost, Hstatus, Hjson. cbn.
  destruct (List.find _ items) as [kv |] eqn:Hfind; [| reflexivity].
  apply find_some in Hfind as [Hin Heq]. apply String.eqb_eq in Heq.
  now apply Hitems in Hin.
Qed.

Lemma assets_loop_spec (headers : list (string * string)) (family : string)
    (asset_codes : list string) :
  forall (assets : list PyAny) (w : World),
  exists added w',
    AkeneoHttp.assets_loop settings requests_get headers family asset_codes assets w
    = (Return (assets ++ added), w')
    /\ (length added <= length asset_codes)%nat.
Proof.
  induction asset_codes as [| code rest IH]; intros assets w.
  - exists [], w. now rewrite app_nil_r.
  - cbn [AkeneoHttp.assets_loop]. unfold mbind at 1, mtry_except, mbind, lift, ret.
    destruct (requests_get _ headers w) as [[response | e] w1].
    + destruct (AkeneoHttp.status_code response =? 200)%Z.
      * destruct (AkeneoHttp.json response) as [body | e].
        -- destruct (IH (assets ++ [body]) w1) as (added & w' & Hl & Hlen).
           exists (body :: added), w'. rewrite Hl, <- app_assoc. cbn. split; [reflexivity | lia].
        -- destruct (IH assets w1) as (added & w' & Hl & Hlen).
           exists added, w'. split; [exact Hl | cbn; lia].
      * destruct (IH assets w1) as (added & w' & Hl & Hlen).
        exists added, w'. split; [exact Hl | cbn; lia].
    + destruct (IH assets w1) as (added & w' & Hl & Hlen).
      exists added, w'. split; [exact Hl | cbn; lia].
Qed.

(** X23.  Fetching the assets of a collection never raises and never
    touches the service objects: a code whose request fails, answers a
    status other than 200 or answers no JSON is skipped, so the list
    returned has at most one asset per code; and without a token the list
    is empty and no request is made. *)
Theorem get_assets_for_collection_contained (asset_codes : list string) (family : string)
    (o : AkeneoHttp.Objects) (w : World) :
  exists assets w',
    AkeneoHttp.get_assets_for_collection settings requests_get py_str asset_codes family
      (o, w)
    = (Return assets, (o, w'))
    /\ (length assets <= length asset_codes)%nat
    /\ (truthy (AkeneoHttp.asset_access_token o) = false -> assets = [] /\ w' = w).
Proof.
  unfold AkeneoHttp.get_assets_for_collection, AkeneoHttp.read, mbind at 1. cbn [fst snd].
  destruct (truthy (AkeneoHttp.asset_access_token o)) eqn:Htok; cbn [negb].
  - unfold AkeneoHttp.outside. cbn [fst snd].
    match goal with
    | |- context [AkeneoHttp.assets_loop _ _ ?h _ _ _ _] =>
        destruct (assets_loop_spec h family asset_codes [] w) as (added & w' & Hl & Hlen)
    end.
    rewrite Hl. exists added, w'. cbn. split; [reflexivity |]. split; [exact Hlen |].
    discriminate.
  - exists [], w. unfold ret. split; [reflexivity |]. split; [cbn; lia | auto].
Qed.

End HttpProperties.

(** *** Worked cases for the properties above *)

Section MoreCases.

(** P1 while the PIM is down: the pricing fields of the record built. *)
Lemma transform_pricing_fields_witness :
  FalconFormattedData.product_id MoreSamples.falcon_p1 = "P1"
  /\ FalconFormattedData.selling_price MoreSamples.falcon_p1 = 100%float
  /\ FalconFormattedData.MOP MoreSamples.falcon_p1 = 100%float
  /\ FalconFormattedData.selling_price_cost MoreSamples.falcon_p1 = 100%float
  /\ FalconFormattedData.mop_cost MoreSamples.falcon_p1
     = (100 * Config.DEFAULT_MOP_MULTIPLIER Config.settings)%float
  /\ FalconFormattedData.coins MoreSamples.falcon_p1 = 2000%Z.
Proof.
  apply (transform_pricing_fields Config.settings Samples.pim_down Samples.raw_p1 tt tt
           MoreSamples.falcon_p1).
  vm_compute. reflexivity.
Defined.

(** P1 with a preferred landing SKU, against a PIM that would answer a list
    of codes: the preferred SKU is used. *)
Lemma transform_prefers_landing_sku_witness :
  exists r,
    CampaignService.transform_to_falcon_format Config.settings MoreSamples.pim_list_sku
      MoreSamples.raw_preferred tt = (Return (Some r), tt)
    /\ FalconFormattedData.sku_id r = "SKU-7".
Proof.
  destruct (transform_prefers_landing_sku Config.settings MoreSamples.pim_list_sku
              MoreSamples.raw_preferred "SKU-7" eq_refl ltac:(discriminate))
    as [Hsku _].
  eexists. split; [vm_compute; reflexivity |].
  apply (Hsku tt _ tt). vm_compute. reflexivity.
Defined.

(** P1, no raw MRP, against the PIM that knows 200.0. *)
Lemma transform_mrp_from_pim_witness :
  exists r,
    CampaignService.transform_to_falcon_format Config.settings Samples.pim_mrp_200
      Samples.raw_p1 tt = (Return (Some r), tt)
    /\ FalconFormattedData.MRP r = 200%float.
Proof.
  eexists. split; [vm_compute; reflexivity |].
  apply (transform_mrp_from_pim Config.settings Samples.pim_mrp_200 Samples.raw_p1
           (Some 200%float) eq_refl
           (fun w => ex_intro _ w (match w with tt => eq_refl end)) tt _ tt).
  vm_compute. reflexivity.
Defined.

(** P1 while every product fetch fails. *)
Lemma transform_survives_pim_outage_witness :
  exists r w',
    CampaignService.transform_to_falcon_format Config.settings Samples.pim_down
      Samples.raw_p1 tt = (Return (Some r), w')
    /\ FalconFormattedData.sku_id r = "P1"
    /\ FalconFormattedData.MRP r = (100 * 1.5)%float
    /\ FalconFormattedData.product_id r = "P1".
Proof.
  apply (transform_survives_pim_outage Config.settings Samples.no_numeric_str
           Samples.fetch_fails
           (fun pid w => ex_intro _ _ (ex_intro _ w eq_refl)) Samples.raw_p1 tt).
Defined.

(** A batch of three while every product fetch fails. *)
Lemma process_campaign_data_pim_outage_witness :
  exists resp w',
    CampaignService.process_campaign_data Config.settings Samples.pim_down Samples.clock
      [MoreSamples.june; MoreSamples.ended; MoreSamples.undated] tt = (Return resp, w')
    /\ map ProcessedCampaignData.raw_data (CampaignResponse.campaigns resp)
       = [MoreSamples.june; MoreSamples.ended; MoreSamples.undated]
    /\ CampaignResponse.failed_count resp = 0%Z
    /\ CampaignResponse.processed_count resp = 3%Z.
Proof.
  apply (process_campaign_data_pim_outage Config.settings Samples.no_numeric_str
           Samples.fetch_fails Samples.clock
           (fun pid w => ex_intro _ _ (ex_intro _ w eq_refl))
           [MoreSamples.june; MoreSamples.ended; MoreSamples.undated] tt).
Defined.

(** P1 against a PIM whose SKU payload is a list of two codes. *)
Lemma transform_rejects_container_sku_witness :
  exists w',
    CampaignService.transform_to_falcon_format Config.settings MoreSamples.pim_list_sku
      Samples.raw_p1 tt = (Return None, w').
Proof.
  apply (transform_rejects_container_sku Config.settings MoreSamples.pim_list_sku
           Samples.raw_p1 (PyList [PyStr "A"; PyStr "B"]) eq_refl
           (or_introl (ex_intro _ _ (ex_intro _ _ eq_refl))) tt tt).
  vm_compute. reflexivity.
Defined.

(** The campaign kept on 15/06/2025 has readable dates in order. *)
Lemma filter_kept_passes_date_format_witness :
  exists errors,
    CampaignService.validate_campaign_data MoreSamples.june = Return errors
    /\ ~ In "Invalid date format. Expected DD/MM/YYYY" errors
    /\ (In "End date must be after live date" errors ->
        Datetime.strptime (RawCampaignData.live_date MoreSamples.june)
        = Return (Samples.clock tt).1
        /\ Datetime.strptime (RawCampaignData.end_date MoreSamples.june)
           = Return (Samples.clock tt).1).
Proof.
  apply (filter_kept_passes_date_format Samples.clock
           [MoreSamples.june; MoreSamples.ended; MoreSamples.undated]
           [MoreSamples.june] tt tt MoreSamples.june).
  - vm_compute. reflexivity.
  - left. reflexivity.
Defined.

(** Filtering the kept campaign again keeps it. *)
Lemma filter_active_campaigns_stable_witness :
  sublist [MoreSamples.june] [MoreSamples.june; MoreSamples.ended; MoreSamples.undated]
  /\ (length [MoreSamples.june]
      <= length [MoreSamples.june; MoreSamples.ended; MoreSamples.undated])%nat
  /\ forall w2, (Samples.clock w2).1 = (Samples.clock tt).1 ->
       CampaignService.filter_active_campaigns Samples.clock [MoreSamples.june] w2
       = (Return [MoreSamples.june], (Samples.clock w2).2).
Proof.
  apply (filter_active_campaigns_stable Samples.clock
           [MoreSamples.june; MoreSamples.ended; MoreSamples.undated]
           [MoreSamples.june] tt tt).
  vm_compute. reflexivity.
Defined.

(** The summary of two deals of the day and a flash sale. *)
Lemma get_campaign_summary_keys_witness :
  exists summary types counts,
    CampaignService.get_campaign_summary Samples.sum_left
      [Samples.processed_of MoreSamples.june; Samples.processed_of MoreSamples.undated;
       Samples.processed_of MoreSamples.ended] = Return summary
    /\ dom summary
       = list_to_set ["total_campaigns"; "campaign_types"; "avg_selling_price";
                      "min_selling_price"; "max_selling_price"; "avg_mrp";
                      "total_potential_revenue"; "campaign_type_counts"]
    /\ size summary = 8%nat
    /\ summary !! "campaign_types" = Some (CampaignService.STypes types)
    /\ summary !! "campaign_type_counts" = Some (CampaignService.SCounts counts)
    /\ dom counts = types.
Proof.
  apply (get_campaign_summary_keys Samples.sum_left
           [Samples.processed_of MoreSamples.june; Samples.processed_of MoreSamples.undated;
            Samples.processed_of MoreSamples.ended]).
  discriminate.
Defined.

Lemma get_campaign_summary_extremes_witness :
  exists summary lo hi,
    CampaignService.get_campaign_summary Samples.sum_left
      [Samples.processed_of MoreSamples.june; Samples.processed_of MoreSamples.undated;
       Samples.processed_of MoreSamples.ended] = Return summary
    /\ summary !! "min_selling_price" = Some (CampaignService.SFloat lo)
    /\ summary !! "max_selling_price" = Some (CampaignService.SFloat hi)
    /\ (exists c,
          In c [Samples.processed_of MoreSamples.june; Samples.processed_of MoreSamples.undated;
                Samples.processed_of MoreSamples.ended]
          /\ FalconFormattedData.selling_price (ProcessedCampaignData.falcon_data c) = lo)
    /\ (exists c,
          In c [Samples.processed_of MoreSamples.june; Samples.processed_of MoreSamples.undated;
                Samples.processed_of MoreSamples.ended]
          /\ FalconFormattedData.selling_price (ProcessedCampaignData.falcon_data c) = hi)
    /\ summary !! "total_potential_revenue"
       = Some (CampaignService.SFloat
                 (Samples.sum_left
                    (map (fun c => FalconFormattedData.selling_price
                                     (ProcessedCampaignData.falcon_data c))
                       [Samples.processed_of MoreSamples.june;
                        Samples.processed_of MoreSamples.undated;
                        Samples.processed_of MoreSamples.ended]))).
Proof.
  apply (get_campaign_summary_extremes Samples.sum_left
           [Samples.processed_of MoreSamples.june; Samples.processed_of MoreSamples.undated;
            Samples.processed_of MoreSamples.ended]).
  discriminate.
Defined.

(** The validation route over a valid campaign, one without product id and
    price, and one with an unreadable live date. *)
Lemma validate_campaigns_report_witness :
  exists report,
    CampaignRoutes.validate_campaigns
      (MoreSamples.db_rows [MoreSamples.june; MoreSamples.unpriced; MoreSamples.undated])
      MoreSamples.str_exn None None None tt
    = (CampaignRoutes.Ok report, tt)
    /\ CampaignRoutes.total_campaigns report = 3%Z
    /\ CampaignRoutes.valid_campaigns report = 1%Z
    /\ CampaignRoutes.invalid_campaigns report = 2%Z
    /\ map CampaignRoutes.entry_product_id (CampaignRoutes.validation_errors report)
       = [""; "P3"].
Proof.
  destruct (validate_campaigns_report
              (MoreSamples.db_rows [MoreSamples.june; MoreSamples.unpriced; MoreSamples.undated])
              MoreSamples.str_exn None None None
              [MoreSamples.june; MoreSamples.unpriced; MoreSamples.undated] tt tt eq_refl)
    as (report & Hrun & Htot & Hsum & Hinv & Herrs & _).
  exists report. split; [exact Hrun |].
  assert (He : CampaignRoutes.validation_errors report
               = [CampaignRoutes.mk_entry ""
                    ["Product ID is required"; "Valid selling price is required"];
                  CampaignRoutes.mk_entry "P3"
                    ["Invalid date format. Expected DD/MM/YYYY"]])
    by (rewrite Herrs; vm_compute; reflexivity).
  rewrite He in *. cbn in Hinv, Htot. cbn.
  repeat split; try assumption; lia.
Defined.

(** The summary route over two campaigns while the PIM is down. *)
Lemma get_campaign_summary_route_consistent_witness :
  exists body w',
    CampaignRoutes.get_campaign_summary Config.settings Samples.pim_down Samples.clock
      Samples.sum_left (MoreSamples.db_rows [MoreSamples.june; MoreSamples.ended])
      MoreSamples.str_exn None None None true tt
    = (CampaignRoutes.Ok body, w')
    /\ match CampaignRoutes.summary_processing_stats body with
       | None =>
           [MoreSamples.june; MoreSamples.ended] = []
           /\ CampaignRoutes.summary body = {[ "total_campaigns" := CampaignService.SInt 0 ]}
       | Some stats =>
           [MoreSamples.june; MoreSamples.ended] <> []
           /\ CampaignRoutes.summary body !! "total_campaigns"
              = Some (CampaignService.SInt (CampaignRoutes.successfully_processed stats))
           /\ (CampaignRoutes.successfully_processed stats + CampaignRoutes.failed stats
               = CampaignRoutes.total_fetched stats)%Z
           /\ CampaignRoutes.total_fetched stats = 2%Z
       end.
Proof.
  apply (get_campaign_summary_route_consistent Config.settings Samples.pim_down
           Samples.clock Samples.sum_left
           (MoreSamples.db_rows [MoreSamples.june; MoreSamples.ended])
           MoreSamples.str_exn None None None true
           [MoreSamples.june; MoreSamples.ended] tt tt eq_refl).
Defined.

(** The active route on 15/06/2025 over a live, an ended and an undated
    campaign. *)
Lemma get_active_campaigns_counts_witness :
  exists resp w',
    CampaignRoutes.get_active_campaigns Config.settings Samples.pim_down Samples.clock
      (MoreSamples.db_rows [MoreSamples.june; MoreSamples.ended; MoreSamples.undated])
      MoreSamples.str_exn (Some ["DOD"]) tt
    = (CampaignRoutes.Ok resp, w')
    /\ CampaignResponse.total_count resp = 1%Z
    /\ (CampaignResponse.processed_count resp + CampaignResponse.failed_count resp
        = CampaignResponse.total_count resp)%Z
    /\ CampaignResponse.filters_applied resp
       = Some (CampaignFilter.mk (Some ["DOD"]) None None None None true).
Proof.
  destruct (get_active_campaigns_counts Config.settings Samples.pim_down Samples.clock
              (MoreSamples.db_rows [MoreSamples.june; MoreSamples.ended; MoreSamples.undated])
              MoreSamples.str_exn (Some ["DOD"])
              [MoreSamples.june; MoreSamples.ended; MoreSamples.undated] tt tt eq_refl)
    as (resp & w' & Hrun & Htot & _ & Hsum & _ & Hf).
  exists resp, w'. split; [exact Hrun |]. split; [| split; assumption].
  rewrite Htot. vm_compute. reflexivity.
Defined.

(** The product route: nothing found. *)
Lemma get_campaign_by_product_outcome_witness :
  CampaignRoutes.get_campaign_by_product Config.settings Samples.pim_down Samples.clock
    (MoreSamples.db_row None) MoreSamples.str_exn "P404" tt
  = (CampaignRoutes.HTTPException 404 "No campaign found for product P404", tt).
Proof.
  apply (get_campaign_by_product_outcome Config.settings Samples.pim_down Samples.clock
           (MoreSamples.db_row None) MoreSamples.str_exn "P404" None tt tt eq_refl).
Defined.

(** A plain filter and a hostile one give the same query text. *)
Lemma campaign_query_text_ignores_values_witness :
  (DatabaseService.campaign_query MoreSamples.iso_date (Some MoreSamples.filter_plain)).1
  = (DatabaseService.campaign_query MoreSamples.iso_date (Some MoreSamples.filter_hostile)).1.
Proof.
  apply (campaign_query_text_ignores_values MoreSamples.iso_date MoreSamples.iso_date
           MoreSamples.filter_plain MoreSamples.filter_hostile); reflexivity.
Defined.

(** Authenticating against an endpoint that grants "tok-1". *)
Lemma get_access_token_caches_witness :
  AkeneoHttp.access_token (AkeneoHttp.mk_objects (PyStr "tok-1") (PyStr "tok-1"))
  = PyStr "tok-1"
  /\ (truthy (AkeneoHttp.access_token AkeneoHttp.fresh) = false ->
      AkeneoHttp.asset_access_token (AkeneoHttp.mk_objects (PyStr "tok-1") (PyStr "tok-1"))
      = PyStr "tok-1")
  /\ (truthy (PyStr "tok-1") = true ->
      forall w2,
        AkeneoHttp._get_access_token MoreSamples.akeneo_settings MoreSamples.post_grants
          (AkeneoHttp.mk_objects (PyStr "tok-1") (PyStr "tok-1"), w2)
        = (Return (PyStr "tok-1"),
           (AkeneoHttp.mk_objects (PyStr "tok-1") (PyStr "tok-1"), w2))).
Proof.
  apply (get_access_token_caches MoreSamples.akeneo_settings MoreSamples.post_grants
           AkeneoHttp.fresh (AkeneoHttp.mk_objects (PyStr "tok-1") (PyStr "tok-1")) tt tt
           (PyStr "tok-1")).
  vm_compute. reflexivity.
Defined.

(** Authenticating against an endpoint that answers 401. *)
Lemma get_access_token_failure_keeps_objects_witness :
  AkeneoHttp.fresh = AkeneoHttp.fresh
  /\ truthy (AkeneoHttp.access_token AkeneoHttp.fresh) = false.
Proof.
  apply (get_access_token_failure_keeps_objects MoreSamples.akeneo_settings
           MoreSamples.post_refuses AkeneoHttp.fresh AkeneoHttp.fresh tt tt
           (Exception "Failed to get token: 401, unauthorized")).
  vm_compute. reflexivity.
Defined.

(** Authenticating against an endpoint that answers 200 without a token. *)
Lemma get_access_token_without_entry_witness :
  AkeneoHttp._get_access_token MoreSamples.akeneo_settings MoreSamples.post_no_entry
    (AkeneoHttp.fresh, tt)
  = (Return PyNone, (AkeneoHttp.mk_objects PyNone PyNone, tt))
  /\ truthy (AkeneoHttp.access_token (AkeneoHttp.mk_objects PyNone PyNone)) = false.
Proof.
  apply (get_access_token_without_entry MoreSamples.akeneo_settings MoreSamples.post_no_entry
           AkeneoHttp.fresh tt tt
           (AkeneoHttp.mk_response 200 "{...}" (Return (PyDict [("scope", PyNone)])))
           [("scope", PyNone)] eq_refl (fun _ _ _ => eq_refl) eq_refl eq_refl).
  intros kv [<- | []]. discriminate.
Defined.

End MoreCases.

(** *** The campaign listing route and the routes' failure path *)

Section RouteOutcomes.
Context {World : Type}.
Variable settings : Config.Settings.
Variable akeneo_service : AkeneoClient.t World.
Variable datetime_now : World -> Datetime.datetime * World.
Variable py_sum : list float -> float.
Variable db_get_campaigns : CampaignFilter.t -> M World (list RawCampaignData.t).
Variable str_exn : exn -> string.

(** X24.  The listing route answers for whatever the database returns and
    never fails because of the PIM: [total_count] is the number of campaigns
    fetched, processed plus failed is that total, the returned pairs are
    among the fetched campaigns, in fetch order, [filters_applied] echoes
    the request; and when nothing was fetched, neither the PIM nor the clock
    is consulted. *)
Theorem get_campaigns_route_counts (campaign_types : option (list string))
    (segment brand : option string) (active_only : bool)
    (raw_campaigns : list RawCampaignData.t) (w w1 : World) :
  db_get_campaigns (CampaignFilter.mk campaign_types None None segment brand active_only) w
  = (Return raw_campaigns, w1) ->
  exists resp w',
    CampaignRoutes.get_campaigns settings akeneo_service datetime_now db_get_campaigns
      str_exn campaign_types segment brand active_only w
    = (CampaignRoutes.Ok resp, w')
    /\ CampaignResponse.total_count resp = Z.of_nat (length raw_campaigns)
    /\ (CampaignResponse.processed_count resp + CampaignResponse.failed_count resp
        = CampaignResponse.total_count resp)%Z
    /\ CampaignResponse.processed_count resp
       = Z.of_nat (length (CampaignResponse.campaigns resp))
    /\ sublist (map ProcessedCampaignData.raw_data (CampaignResponse.campaigns resp))
         raw_campaigns
    /\ CampaignResponse.filters_applied resp
       = Some (CampaignFilter.mk campaign_types None None segment brand active_only)
    /\ (raw_campaigns = [] -> w' = w1).
Proof.
  intros Hdb.
  unfold CampaignRoutes.get_campaigns, CampaignRoutes.or_500, mbind. rewrite Hdb.
  destruct raw_campaigns as [| c rest].
  - eexists _, _. split; [reflexivity |]. cbn. repeat split; auto; constructor.
  - destruct (process_returns settings akeneo_service datetime_now (c :: rest) w1)
      as (resp & w' & Hp & Hsum & Htot & Hproc & Hsub).
    rewrite Hp. unfold ret.
    eexists _, _. split; [reflexivity |]. cbn.
    repeat split; auto; discriminate.
Qed.

(** X25.  A failed database query ends each of the four routes that list
    campaigns with status 500 and the route's own message followed by the
    text of the exception; nothing is processed, so the PIM is not called. *)
Theorem routes_report_database_failure (campaign_types : option (list string))
    (segment brand : option string) (active_only : bool) (e : exn) (w w1 : World) :
  (forall filters, db_get_campaigns filters w = (Raise e, w1)) ->
  CampaignRoutes.get_campaigns settings akeneo_service datetime_now db_get_campaigns
    str_exn campaign_types segment brand active_only w
  = (CampaignRoutes.HTTPException 500 ("Error fetching campaigns: " ++ str_exn e), w1)
  /\ CampaignRoutes.get_active_campaigns settings akeneo_service datetime_now
       db_get_campaigns str_exn campaign_types w
     = (CampaignRoutes.HTTPException 500
          ("Error fetching active campaigns: " ++ str_exn e), w1)
  /\ CampaignRoutes.get_campaign_summary settings akeneo_service datetime_now py_sum
       db_get_campaigns str_exn campaign_types segment brand active_only w
     = (CampaignRoutes.HTTPException 500
          ("Error getting campaign summary: " ++ str_exn e), w1)
  /\ CampaignRoutes.validate_campaigns db_get_campaigns str_exn campaign_types segment
       brand w
     = (CampaignRoutes.HTTPException 500 ("Error validating campaigns: " ++ str_exn e), w1).
Proof.
  intros Hdb.
  unfold CampaignRoutes.get_campaigns, CampaignRoutes.get_active_campaigns,
    CampaignRoutes.get_campaign_summary, CampaignRoutes.validate_campaigns,
    CampaignRoutes.or_500, mbind.
  rewrite !Hdb. repeat split.
Qed.

End RouteOutcomes.

Section RouteOutcomesCases.

(** The listing route over a live and an ended campaign while the PIM is
    down. *)
Lemma get_campaigns_route_counts_witness :
  exists resp w',
    CampaignRoutes.get_campaigns Config.settings Samples.pim_down Samples.clock
      (MoreSamples.db_rows [MoreSamples.june; MoreSamples.ended]) MoreSamples.str_exn
      None (Some "premium") None true tt
    = (CampaignRoutes.Ok resp, w')
    /\ CampaignResponse.total_count resp = 2%Z
    /\ CampaignResponse.filters_applied resp
       = Some (CampaignFilter.mk None None None (Some "premium") None true).
Proof.
  destruct (get_campaigns_route_counts Config.settings Samples.pim_down Samples.clock
              (MoreSamples.db_rows [MoreSamples.june; MoreSamples.ended])
              MoreSamples.str_exn None (Some "premium") None true
              [MoreSamples.june; MoreSamples.ended] tt tt eq_refl)
    as (resp & w' & Hrun & Htot & _ & _ & _ & Hf & _).
  exists resp, w'. split; [exact Hrun |]. split; assumption.
Defined.

(** The four routes over a database that refuses the connection. *)
Lemma routes_report_database_failure_witness :
  CampaignRoutes.get_campaigns Config.settings Samples.pim_down Samples.clock
    MoreSamples.db_fails MoreSamples.str_exn None None None true tt
  = (CampaignRoutes.HTTPException 500 "Error fetching campaigns: connection refused", tt).
Proof.
  apply (routes_report_database_failure Config.settings Samples.pim_down Samples.clock
           Samples.sum_left MoreSamples.db_fails MoreSamples.str_exn None None None true
           (Exception "connection refused") tt tt (fun _ => eq_refl)).
Defined.

End RouteOutcomesCases.
